(** * dGateway: capture-and-replay proxy engine

    A shallow embedding of the Go sources [database.go] (storage engine,
    content classifier), [main.go] (capture interceptor, persistence
    pipeline, list query, replay engine, and the handlers of the admin
    panel: sessions, recording switch, detail and body views, export) and
    [har.go] (HAR export), followed by the properties of the
    specification that are settled on it (Part III) and by further
    properties of the code (Part IV).

    Conventions.
    - Go [string] is [string] (a sequence of bytes); Go [[]byte] is
      [list byte].
    - Go [int] is a 64-bit two's-complement integer, kept in [Z] with the
      wrap-around written out where the code can overflow ([wrap64]).
    - [float64] is Rocq's primitive binary64 [float].
    - [http.Header] is a finite map from (canonical) header names to the
      list of their values.
    - Library calls that fail in Go return [option] or a sum here; the
      process-terminating [log.Fatalf] is an explicit outcome. *)

From Stdlib Require Import ZArith QArith Floats Uint63 Lia Bool.
From Stdlib Require Import Strings.String Strings.Ascii Strings.Byte DecimalString DecimalPos.
From stdpp Require Import gmap strings list sorting.

Open Scope string_scope.
Open Scope Z_scope.

(* ===================================================================== *)
(** * Part I: the program                                                 *)
(* ===================================================================== *)

(** ** Go builtins and the [strings] package *)

Module GoStrings.

(** [strings.HasPrefix(s, prefix)]. *)
Fixpoint HasPrefix (s pre : string) {struct pre} : bool :=
  match pre, s with
  | EmptyString, _ => true
  | String _ _, EmptyString => false
  | String a pre', String b s' => Ascii.eqb a b && HasPrefix s' pre'
  end.

(** [strings.Contains(s, substr)]: some suffix of [s] starts with
    [substr]. *)
Fixpoint Contains (s substr : string) : bool :=
  HasPrefix s substr ||
  match s with
  | EmptyString => false
  | String _ s' => Contains s' substr
  end.

(** [strings.Join(elems, sep)]. *)
Fixpoint Join (elems : list string) (sep : string) : string :=
  match elems with
  | [] => ""
  | [e] => e
  | e :: rest => (e ++ sep ++ Join rest sep)%string
  end.

End GoStrings.

(** [len(x)] as a Go [int]. *)
Definition len {A} (l : list A) : Z := Z.of_nat (length l).

(** [data[:n]] for [0 <= n <= len(data)]. *)
Definition slice_to {A} (l : list A) (n : Z) : list A := take (Z.to_nat n) l.

(** Conversion [float64(n)] of a non-negative [int] below 2^53 (exact). *)
Definition float64 (n : Z) : float := PrimFloat.of_uint63 (Uint63.of_Z n).

(** ** database.go: the content classifier *)

(** [func min(a, b int) int] (database.go). *)
Definition min (a b : Z) : Z := if a <? b then a else b.

(** The byte test of the sampling loop:
    [b == 0x09 || b == 0x0A || b == 0x0D || (b >= 0x20 && b <= 0x7E)]. *)
Definition isTextChar (b : byte) : bool :=
  let n := Byte.to_N b in
  ((n =? 0x09) || (n =? 0x0A) || (n =? 0x0D) || ((0x20 <=? n) && (n <=? 0x7E)))%N.

(** The loop [for _, b := range ... { if ... { textChars++ } }], threading
    the counter. *)
Fixpoint countTextChars (sample : list byte) (textChars : Z) : Z :=
  match sample with
  | [] => textChars
  | b :: rest =>
      countTextChars rest (if isTextChar b then textChars + 1 else textChars)
  end.

(** The first test of [isTextData]: the declared content type says text. *)
Definition contentTypeIsText (contentType : string) : bool :=
  GoStrings.HasPrefix contentType "text/" ||
  GoStrings.Contains contentType "application/json" ||
  GoStrings.Contains contentType "application/xml" ||
  GoStrings.Contains contentType "application/javascript" ||
  GoStrings.Contains contentType "application/xhtml+xml".

(** The constant [0.7] as Go rounds it to [float64]. *)
Definition f0_7 : float := 0x1.6666666666666p-1%float.

(** [func isTextData(data []byte, contentType string) bool]. *)
Definition isTextData (data : list byte) (contentType : string) : bool :=
  if contentTypeIsText contentType then true
  else if len data =? 0 then true
  else
    let textChars := countTextChars (slice_to data (min (len data) 512)) 0 in
    PrimFloat.ltb f0_7
      (PrimFloat.div (float64 textChars) (float64 (min (len data) 512))).

(** ** Errors and logging *)

(** A Go [(T, error)] result where the value is unused on error. *)
Inductive result (A : Type) : Type :=
| Ok (a : A)
| Err (e : string).
Arguments Ok {A} a.
Arguments Err {A} e.

(** The operational log ([log.Printf], [log.Println]): the lines written. *)
Definition Log := list string.

Definition logLine (log : Log) (line : string) : Log := (log ++ [line])%list.

(** [strconv.Itoa]. *)
Definition Itoa (n : Z) : string := NilZero.string_of_int (Z.to_int n).

(** ** net/http: headers *)

(** [http.Header], a [map[string][]string] keyed by canonical names. The
    names used by the program ("Content-Encoding", "Content-Length",
    "Content-Type") are already canonical, so the canonicalisation step of
    [Get], [Set] and [Del] is the identity on them. *)
Abbreviation Header := (gmap string (list string)).

Module http.

(** [h.Get(key)]: the first value, or the empty string. *)
Definition Get (h : Header) (key : string) : string :=
  match h !! key with
  | Some (v :: _) => v
  | _ => ""
  end.

(** [h.Set(key, value)]. *)
Definition Set_ (h : Header) (key value : string) : Header :=
  <[key := [value]]> h.

(** [h.Del(key)]. *)
Definition Del (h : Header) (key : string) : Header := delete key h.

End http.

(** ** encoding/json: marshalling a header map *)

Module json.

Definition quote : ascii := ascii_of_N 34.
Definition backslash : ascii := ascii_of_N 92.

(** The digit table [hex = "0123456789abcdef"]. *)
Definition hex (n : N) : ascii :=
  match String.get (N.to_nat n) "0123456789abcdef" with
  | Some c => c
  | None => "0"%char
  end.

(** One byte below [utf8.RuneSelf], with HTML escaping on (as [Marshal]
    has it): quote and backslash get a backslash; backspace, form feed,
    line feed, carriage return and tab their short escape; other control
    bytes and [<], [>], [&] the six-character unicode escape. *)
Definition escapeASCII (c : ascii) : string :=
  let b := N_of_ascii c in
  if ((b =? 34) || (b =? 92))%N then String backslash (String c "")
  else if (b =? 8)%N then String backslash "b"
  else if (b =? 12)%N then String backslash "f"
  else if (b =? 10)%N then String backslash "n"
  else if (b =? 13)%N then String backslash "r"
  else if (b =? 9)%N then String backslash "t"
  else if ((b <? 32) || (b =? 60) || (b =? 62) || (b =? 38))%N
       then String backslash
              (String "u" (String "0" (String "0"
                 (String (hex (N.shiftr b 4)) (String (hex (N.land b 15)) "")))))
  else String c "".

Definition isCont (b : N) : bool := ((128 <=? b) && (b <=? 191))%N.

(** [utf8.DecodeRuneInString]: the width of the well-formed encoding at
    the head of [s], or [0] when the head is not one (Go then reports
    [RuneError] with size 1). *)
Definition runeWidth (s : string) : nat :=
  match List.map N_of_ascii (list_ascii_of_string s) with
  | b0 :: rest =>
      let two := match rest with b1 :: _ => isCont b1 | _ => false end in
      let third := match rest with _ :: b2 :: _ => isCont b2 | _ => false end in
      let fourth := match rest with _ :: _ :: b3 :: _ => isCont b3 | _ => false end in
      let second lo hi :=
        match rest with b1 :: _ => ((lo <=? b1) && (b1 <=? hi))%N | _ => false end in
      if ((194 <=? b0) && (b0 <=? 223))%N then (if two then 2 else 0)%nat
      else if (b0 =? 224)%N then (if second 160%N 191%N && third then 3 else 0)%nat
      else if (b0 =? 237)%N then (if second 128%N 159%N && third then 3 else 0)%nat
      else if ((225 <=? b0) && (b0 <=? 239))%N then (if two && third then 3 else 0)%nat
      else if (b0 =? 240)%N
           then (if second 144%N 191%N && third && fourth then 4 else 0)%nat
      else if ((241 <=? b0) && (b0 <=? 243))%N
           then (if two && third && fourth then 4 else 0)%nat
      else if (b0 =? 244)%N
           then (if second 128%N 143%N && third && fourth then 4 else 0)%nat
      else 0%nat
  | [] => 0%nat
  end.

(** U+2028 and U+2029 (E2 80 A8, E2 80 A9): the low hex digit if the head
    of [s] is one of them. *)
Definition lineSeparator (s : string) : option ascii :=
  match List.map N_of_ascii (list_ascii_of_string s) with
  | 226%N :: 128%N :: 168%N :: _ => Some "8"%char
  | 226%N :: 128%N :: 169%N :: _ => Some "9"%char
  | _ => None
  end.

(** What the scan does with the bytes that follow a multi-byte head. *)
Inductive pending := Copy (n : nat) | Skip (n : nat).

(** The body of [appendString]: the scan over the bytes of [src]. *)
Fixpoint appendString (src : string) (p : pending) : string :=
  match src with
  | EmptyString => ""
  | String c rest =>
      match p with
      | Copy (S k) => String c (appendString rest (Copy k))
      | Skip (S k) => appendString rest (Skip k)
      | _ =>
          if (N_of_ascii c <? 128)%N
          then (escapeASCII c ++ appendString rest (Copy 0))%string
          else
            match runeWidth src with
            | O => (String backslash "ufffd" ++ appendString rest (Copy 0))%string
            | S w =>
                match lineSeparator src with
                | Some d =>
                    (String backslash "u202" ++ String d "" ++
                     appendString rest (Skip w))%string
                | None => String c (appendString rest (Copy w))
                end
            end
      end
  end.

(** A JSON string literal. *)
Definition encodeString (s : string) : string :=
  (String quote "" ++ appendString s (Copy 0) ++ String quote "")%string.

(** A non-nil [[]string]. *)
Definition encodeStrings (vs : list string) : string :=
  ("[" ++ GoStrings.Join (List.map encodeString vs) "," ++ "]")%string.

(** The order in which [Marshal] emits map keys: bytewise. *)
Definition keyLe (x y : string * list string) : Prop :=
  String.leb (fst x) (fst y) = true.

Global Instance keyLe_dec x y : Decision (keyLe x y).
Proof. unfold keyLe. apply _. Defined.

(** [json.Marshal(headers)] for a non-nil header map. It cannot fail on
    this type. *)
Definition Marshal (h : Header) : string :=
  ("{" ++
   GoStrings.Join
     (List.map (λ kv, encodeString (fst kv) ++ ":" ++ encodeStrings (snd kv))
               (merge_sort keyLe (map_to_list h)))
     "," ++
   "}")%string.

End json.

(** [func HeadersToJSON(headers http.Header) string] (database.go). The
    error branch returning the literal empty object is unreachable, as
    [Marshal] does not fail on a header map. *)
Definition HeadersToJSON (headers : Header) : string := json.Marshal headers.

(** ** io: single-use body streams *)

Module io.

(** A body stream: the bytes not yet read, and the error that reading hits
    after them, if any. *)
Record Body := { unread : list byte; fault : option string }.

(** [ioutil.ReadAll(b)]: what was read, the error, and the stream as it is
    left (drained). *)
Definition ReadAll (b : Body) : list byte * option string * Body :=
  (unread b, fault b, {| unread := []; fault := fault b |}).

(** [ioutil.NopCloser(bytes.NewReader(data))]: a fresh stream over
    captured bytes. *)
Definition NopCloser (data : list byte) : Body :=
  {| unread := data; fault := None |}.

End io.

(** ** compress/gzip *)

(** The decoder of the standard library, as the program uses it:
    [gzip.NewReader] reads the member header and may reject it;
    [ioutil.ReadAll] over the reader inflates, and returns what was
    inflated together with the error that stopped it, if any. *)
Class GzipLib := {
  gzipReader : Type;
  NewReader : list byte → result gzipReader;
  ReadAllGzip : gzipReader → list byte * option string
}.

(** [func decompressGzip(data []byte) ([]byte, error)] (main.go). *)
Definition decompressGzip {codec : GzipLib} (data : list byte)
  : list byte * option string :=
  match NewReader data with
  | Err e => ([], Some e)
  | Ok reader => ReadAllGzip reader
  end.

(** ** The exchange record *)

Module RequestLog.

(** [type RequestLog struct] (database.go). [Timestamp] is an instant on an
    integer time line. *)
Record t := {
  ID : Z;
  Timestamp : Z;
  Method : string;
  URL : string;
  RequestHeaders : string;
  RequestBody : list byte;
  RequestBodySize : Z;
  IsRequestBodyText : bool;
  StatusCode : Z;
  ResponseHeaders : string;
  ResponseBody : list byte;
  ResponseBodySize : Z;
  IsResponseBodyText : bool
}.

(** The assignments of [ModifyResponse] to the response facet. *)
Definition setStatusAndHeaders (l : t) (code : Z) (headers : string) : t :=
  {| ID := ID l; Timestamp := Timestamp l; Method := Method l; URL := URL l;
     RequestHeaders := RequestHeaders l; RequestBody := RequestBody l;
     RequestBodySize := RequestBodySize l;
     IsRequestBodyText := IsRequestBodyText l;
     StatusCode := code; ResponseHeaders := headers;
     ResponseBody := ResponseBody l; ResponseBodySize := ResponseBodySize l;
     IsResponseBodyText := IsResponseBodyText l |}.

Definition setResponseBody (l : t) (body : list byte) : t :=
  {| ID := ID l; Timestamp := Timestamp l; Method := Method l; URL := URL l;
     RequestHeaders := RequestHeaders l; RequestBody := RequestBody l;
     RequestBodySize := RequestBodySize l;
     IsRequestBodyText := IsRequestBodyText l;
     StatusCode := StatusCode l; ResponseHeaders := ResponseHeaders l;
     ResponseBody := body; ResponseBodySize := ResponseBodySize l;
     IsResponseBodyText := IsResponseBodyText l |}.

End RequestLog.

(** ** Requests and responses as the interceptor sees them *)

Module Request.

(** The fields of [*http.Request] the program reads. [URL] is
    [r.URL.String()]; [Ctx] is the value stored in the request context
    under the key "reqLog". *)
Record t := {
  Method : string;
  URL : string;
  Header : Header;
  Body : io.Body;
  Ctx : option RequestLog.t
}.

Definition withBody (r : t) (b : io.Body) : t :=
  {| Method := Method r; URL := URL r; Header := Header r; Body := b;
     Ctx := Ctx r |}.

Definition WithContext (r : t) (l : RequestLog.t) : t :=
  {| Method := Method r; URL := URL r; Header := Header r; Body := Body r;
     Ctx := Some l |}.

End Request.

Module Response.

(** The fields of [*http.Response] the program reads; [Request] is the
    request that was sent to obtain it. *)
Record t := {
  StatusCode : Z;
  Header : Header;
  Body : io.Body;
  Request : Request.t
}.

End Response.

(** ** Channels *)

Module chan.

(** A buffered channel: the pending elements, oldest first, and the
    capacity given to [make]. *)
Record t (A : Type) := { buffer : list A; capacity : Z }.
Arguments buffer {A} _.
Arguments capacity {A} _.

(** [make(chan A, n)]. *)
Definition make {A} (n : Z) : t A := {| buffer := []; capacity := n |}.

(** The send case of a [select] with a [default]: it proceeds only if the
    buffer has room. *)
Definition trySend {A} (c : t A) (x : A) : option (t A) :=
  if len (buffer c) <? capacity c
  then Some {| buffer := (buffer c ++ [x])%list; capacity := capacity c |}
  else None.

(** A receive: the oldest element, or [None] when the receiver would
    block. *)
Definition recv {A} (c : t A) : option (A * t A) :=
  match buffer c with
  | [] => None
  | x :: rest => Some (x, {| buffer := rest; capacity := capacity c |})
  end.

End chan.

(** ** Process-wide state of the proxy *)

(** The globals [IsRecording] and [requestLogChan], and the operational
    log written so far. *)
Record Globals := {
  IsRecording : bool;
  requestLogChan : chan.t RequestLog.t;
  opLog : Log
}.

Definition logPrint (g : Globals) (line : string) : Globals :=
  {| IsRecording := IsRecording g; requestLogChan := requestLogChan g;
     opLog := logLine (opLog g) line |}.

Definition setChan (g : Globals) (c : chan.t RequestLog.t) : Globals :=
  {| IsRecording := IsRecording g; requestLogChan := c; opLog := opLog g |}.

(** [main]: [IsRecording = *recordOnStart] and
    [requestLogChan = make(chan RequestLog, 100)]. *)
Definition mainGlobals (recordOnStart : bool) : Globals :=
  {| IsRecording := recordOnStart; requestLogChan := chan.make 100;
     opLog := [] |}.

(** ** main.go: the capture interceptor *)

Definition dropLine : string :=
  "Request log channel is full, dropping log entry.".

(** The block [if IsRecording { select { case requestLogChan <- *reqLog:
    default: log.Println(...) } }]. *)
Definition enqueue (g : Globals) (reqLog : RequestLog.t) : Globals :=
  if IsRecording g then
    match chan.trySend (requestLogChan g) reqLog with
    | Some c => setChan g c
    | None => logPrint g dropLine
    end
  else g.

(** What [ProxyHandler.ServeHTTP] does with a request: answer it with
    [http.Error], or hand the rebuilt request to the reverse proxy. *)
Inductive Served :=
| httpError (msg : string) (code : Z)
| Forward (newReq : Request.t).

Section Interceptor.
Context {codec : GzipLib}.

(** [func (h *ProxyHandler) ServeHTTP(w, r)], up to the call of
    [h.proxy.ServeHTTP(w, newReq)]; [now] is [time.Now()]. *)
Definition ServeHTTP (now : Z) (r : Request.t) (g : Globals)
  : Served * Globals :=
  let '(requestBody, err, _) := io.ReadAll (Request.Body r) in
  match err with
  | Some e =>
      (httpError "Error reading request body" 500,
       logPrint g ("Error reading request body: " ++ e))
  | None =>
      let r := Request.withBody r (io.NopCloser requestBody) in
      let '(decompressedReqBody, g) :=
        if String.eqb (http.Get (Request.Header r) "Content-Encoding") "gzip"
        then
          let '(decompressedReqBody, err) := decompressGzip requestBody in
          match err with
          | Some e =>
              (requestBody,
               logPrint g ("Error decompressing request body: " ++ e))
          | None => (decompressedReqBody, g)
          end
        else (requestBody, g) in
      let reqLog :=
        {| RequestLog.ID := 0;
           RequestLog.Timestamp := now;
           RequestLog.Method := Request.Method r;
           RequestLog.URL := Request.URL r;
           RequestLog.RequestHeaders := HeadersToJSON (Request.Header r);
           RequestLog.RequestBody := decompressedReqBody;
           RequestLog.RequestBodySize := 0;
           RequestLog.IsRequestBodyText := false;
           RequestLog.StatusCode := 0;
           RequestLog.ResponseHeaders := "";
           RequestLog.ResponseBody := [];
           RequestLog.ResponseBodySize := 0;
           RequestLog.IsResponseBodyText := false |} in
      (Forward (Request.WithContext r reqLog), g)
  end.

(** [proxy.ModifyResponse = func(resp *http.Response) error]: the returned
    error, the response as the function leaves it, and the globals. The
    record behind the context pointer is returned inside the response's
    request. *)
Definition ModifyResponse (resp : Response.t) (g : Globals)
  : option string * Response.t * Globals :=
  match Request.Ctx (Response.Request resp) with
  | None => (None, resp, logPrint g "Failed to get request log from context")
  | Some reqLog =>
      let reqLog :=
        RequestLog.setStatusAndHeaders reqLog (Response.StatusCode resp)
          (HeadersToJSON (Response.Header resp)) in
      let '(body, err, drained) := io.ReadAll (Response.Body resp) in
      match err with
      | Some e =>
          (Some e,
           {| Response.StatusCode := Response.StatusCode resp;
              Response.Header := Response.Header resp;
              Response.Body := drained;
              Response.Request :=
                Request.WithContext (Response.Request resp) reqLog |},
           logPrint g ("Error reading response body: " ++ e))
      | None =>
          let '(body, header, g) :=
            if String.eqb (http.Get (Response.Header resp) "Content-Encoding")
                          "gzip"
            then
              let '(decompressedBody, err) := decompressGzip body in
              match err with
              | Some e =>
                  (body, Response.Header resp,
                   logPrint g ("Error decompressing response body: " ++ e))
              | None =>
                  (decompressedBody,
                   http.Set_
                     (http.Del (Response.Header resp) "Content-Encoding")
                     "Content-Length" (Itoa (len decompressedBody)),
                   g)
              end
            else (body, Response.Header resp, g) in
          let reqLog := RequestLog.setResponseBody reqLog body in
          (None,
           {| Response.StatusCode := Response.StatusCode resp;
              Response.Header := header;
              Response.Body := io.NopCloser body;
              Response.Request :=
                Request.WithContext (Response.Request resp) reqLog |},
           enqueue g reqLog)
      end
  end.

End Interceptor.

(** ** database.go: inserting a record *)

(** The rows of the table [requests], in insertion order, and the last
    row id handed out by AUTOINCREMENT. *)
Record DB := { rows : list RequestLog.t; lastRowID : Z }.

(** What can go wrong in one call of [LogRequest]. *)
Inductive InsertFault :=
| PrepareFails (e : string)
| ExecFails (e : string).

Section Storage.

(** [json.Unmarshal] of a stored header text into an [http.Header]. *)
Variable Unmarshal : string → option Header.

(** [func getContentTypeFromHeaders(headersJSON string) string]. *)
Definition getContentTypeFromHeaders (headersJSON : string) : string :=
  match Unmarshal headersJSON with
  | None => ""
  | Some headers => http.Get headers "Content-Type"
  end.

(** The first four assignments of [LogRequest]: sizes and text flags are
    derived from the bodies. *)
Definition populate (logEntry : RequestLog.t) : RequestLog.t :=
  {| RequestLog.ID := RequestLog.ID logEntry;
     RequestLog.Timestamp := RequestLog.Timestamp logEntry;
     RequestLog.Method := RequestLog.Method logEntry;
     RequestLog.URL := RequestLog.URL logEntry;
     RequestLog.RequestHeaders := RequestLog.RequestHeaders logEntry;
     RequestLog.RequestBody := RequestLog.RequestBody logEntry;
     RequestLog.RequestBodySize := len (RequestLog.RequestBody logEntry);
     RequestLog.IsRequestBodyText :=
       isTextData (RequestLog.RequestBody logEntry)
         (getContentTypeFromHeaders (RequestLog.RequestHeaders logEntry));
     RequestLog.StatusCode := RequestLog.StatusCode logEntry;
     RequestLog.ResponseHeaders := RequestLog.ResponseHeaders logEntry;
     RequestLog.ResponseBody := RequestLog.ResponseBody logEntry;
     RequestLog.ResponseBodySize := len (RequestLog.ResponseBody logEntry);
     RequestLog.IsResponseBodyText :=
       isTextData (RequestLog.ResponseBody logEntry)
         (getContentTypeFromHeaders (RequestLog.ResponseHeaders logEntry)) |}.

(** The row that the INSERT writes: the twelve bound columns, under a new
    id. *)
Definition insertedRow (id : Z) (logEntry : RequestLog.t) : RequestLog.t :=
  {| RequestLog.ID := id;
     RequestLog.Timestamp := RequestLog.Timestamp logEntry;
     RequestLog.Method := RequestLog.Method logEntry;
     RequestLog.URL := RequestLog.URL logEntry;
     RequestLog.RequestHeaders := RequestLog.RequestHeaders logEntry;
     RequestLog.RequestBody := RequestLog.RequestBody logEntry;
     RequestLog.RequestBodySize := RequestLog.RequestBodySize logEntry;
     RequestLog.IsRequestBodyText := RequestLog.IsRequestBodyText logEntry;
     RequestLog.StatusCode := RequestLog.StatusCode logEntry;
     RequestLog.ResponseHeaders := RequestLog.ResponseHeaders logEntry;
     RequestLog.ResponseBody := RequestLog.ResponseBody logEntry;
     RequestLog.ResponseBodySize := RequestLog.ResponseBodySize logEntry;
     RequestLog.IsResponseBodyText := RequestLog.IsResponseBodyText logEntry |}.

(** [func LogRequest(logEntry RequestLog)]; [fault] is what the database
    does to this call. *)
Definition LogRequest (fault : option InsertFault) (logEntry : RequestLog.t)
    (db : DB) (log : Log) : DB * Log :=
  let logEntry := populate logEntry in
  match fault with
  | Some (PrepareFails e) =>
      (db, logLine log ("Failed to prepare statement: " ++ e))
  | Some (ExecFails e) =>
      (db, logLine log ("Failed to insert log entry: " ++ e))
  | None =>
      ({| rows := (rows db ++ [insertedRow (lastRowID db + 1) logEntry])%list;
          lastRowID := lastRowID db + 1 |},
       log)
  end.

(** One turn of the consumer goroutine of [main],
    [for logEntry := range requestLogChan { LogRequest(logEntry) }]:
    [None] when the channel is empty and the consumer waits. *)
Definition consumerStep (fault : option InsertFault) (g : Globals) (db : DB)
  : option (Globals * DB) :=
  match chan.recv (requestLogChan g) with
  | None => None
  | Some (logEntry, c) =>
      let '(db, log) := LogRequest fault logEntry db (opLog g) in
      Some ({| IsRecording := IsRecording g; requestLogChan := c;
               opLog := log |}, db)
  end.

(** The consumer running on its own until it has to wait; [faults] gives
    the fate of each insert in turn. The bound is the number of turns. *)
Fixpoint consumerRun (turns : nat) (faults : nat → option InsertFault)
    (g : Globals) (db : DB) : Globals * DB :=
  match turns with
  | O => (g, db)
  | S turns' =>
      match consumerStep (faults O) g db with
      | None => (g, db)
      | Some (g', db') => consumerRun turns' (λ i, faults (S i)) g' db'
      end
  end.

End Storage.

(** Producers running on their own: each offers its record in turn while
    the consumer takes nothing. *)
Definition producersRun (recs : list RequestLog.t) (g : Globals) : Globals :=
  fold_left enqueue recs g.

(** ** database.go: start-up and schema migration *)

Module Mig.

(** The statements [InitDB] sends to the database. *)
Inductive Stmt :=
| Open
| CreateTable
| Begin
| TableInfo (tableName : string)
| AlterAdd (tableName columnName columnType : string)
| Commit
| JournalWAL.

(** [createTableSQL]. *)
Definition createTableSQL : string := "
	CREATE TABLE IF NOT EXISTS requests (
		id INTEGER PRIMARY KEY AUTOINCREMENT,
		timestamp DATETIME,
		method TEXT,
		url TEXT,
		request_headers TEXT,
		request_body BLOB,
		status_code INTEGER,
		response_headers TEXT,
		response_body BLOB
	);
	".

(** The SQL text of the statements that have one ([sql.Open], [db.Begin]
    and [tx.Commit] are calls without text). *)
Definition text (st : Stmt) : string :=
  match st with
  | TableInfo t => "PRAGMA table_info(" ++ t ++ ");"
  | AlterAdd t c ty => "ALTER TABLE " ++ t ++ " ADD COLUMN " ++ c ++ " " ++ ty ++ ";"
  | CreateTable => createTableSQL
  | JournalWAL => "PRAGMA journal_mode=WAL;"
  | Open => "" | Begin => "" | Commit => ""
  end.

(** The columns of [createTableSQL]. *)
Definition baseColumns : list string :=
  ["id"; "timestamp"; "method"; "url"; "request_headers"; "request_body";
   "status_code"; "response_headers"; "response_body"].

(** The store as the migration sees it: the committed column list of the
    table [requests] ([None]: no such table), the column list inside the
    open transaction ([None]: no transaction), the statements sent so far
    and the log. *)
Record State := {
  committed : option (list string);
  view : option (option (list string));
  trace : list Stmt;
  out : Log
}.

(** A run either goes on with a value or ends the process
    ([log.Fatalf]). *)
Inductive Run (A : Type) :=
| Ret (a : A) (s : State)
| Exit (msg : string) (s : State).
Arguments Ret {A} a s.
Arguments Exit {A} msg s.

Definition M (A : Type) : Type := State → Run A.

Definition ret {A} (a : A) : M A := λ s, Ret a s.

Definition bind {A B} (m : M A) (k : A → M B) : M B :=
  λ s, match m s with
       | Ret a s' => k a s'
       | Exit msg s' => Exit msg s'
       end.

Global Instance M_ret : MRet M := @ret.
Global Instance M_bind : MBind M := λ A B k m, bind m k.

(** [log.Printf] and [log.Fatalf]. An open transaction dies with the
    process. *)
Definition Printf (line : string) : M unit :=
  λ s, Ret tt {| committed := committed s; view := view s; trace := trace s;
                 out := logLine (out s) line |}.

Definition Fatalf {A} (line : string) : M A :=
  λ s, Exit line {| committed := committed s; view := None; trace := trace s;
                    out := logLine (out s) line |}.

Section WithFaults.

(** The environment: whether the n-th statement sent fails, and with what
    error. *)
Variable fails : nat → option string.

(** Sends a statement: records it and tells whether it failed. *)
Definition send (st : Stmt) : M (option string) :=
  λ s, Ret (fails (length (trace s)))
           {| committed := committed s; view := view s;
              trace := (trace s ++ [st])%list; out := out s |}.

Definition setCommitted (c : option (list string)) : M unit :=
  λ s, Ret tt {| committed := c; view := view s; trace := trace s;
                 out := out s |}.

Definition setView (v : option (option (list string))) : M unit :=
  λ s, Ret tt {| committed := committed s; view := v; trace := trace s;
                 out := out s |}.

Definition getCommitted : M (option (list string)) := λ s, Ret (committed s) s.
Definition getView : M (option (option (list string))) := λ s, Ret (view s) s.

(** ASCII lower case, for the engine's comparison of column names. *)
Definition lower (s : string) : string :=
  string_of_list_ascii
    (List.map (λ c, let n := N_of_ascii c in
                    if ((65 <=? n) && (n <=? 90))%N then ascii_of_N (n + 32) else c)
              (list_ascii_of_string s)).

(** [tx.Exec] of an ALTER TABLE ... ADD COLUMN: the engine refuses it when
    there is no such table or when the table has a column of that name,
    compared without regard to case. *)
Definition execAlter (tableName columnName columnType : string)
  : M (option string) :=
  e ← send (AlterAdd tableName columnName columnType);
  v ← getView;
  match e, v with
  | Some err, _ => ret (Some err)
  | None, Some (Some cols) =>
      if existsb (String.eqb (lower columnName)) (List.map lower cols)
      then ret (Some ("duplicate column name: " ++ columnName))
      else setView (Some (Some (cols ++ [columnName])%list));; ret None
  | None, _ => ret (Some ("no such table: " ++ tableName))
  end.

(** The loop over the rows of [table_info], with its [break]. *)
Fixpoint columnExists (names : list string) (columnName : string) : bool :=
  match names with
  | [] => false
  | name :: rest =>
      if String.eqb name columnName then true
      else columnExists rest columnName
  end.

(** [func addColumnIfNotExists(tx, tableName, columnName, columnType)]. *)
Definition addColumnIfNotExists (tableName columnName columnType : string)
  : M unit :=
  e ← send (TableInfo tableName);
  match e with
  | Some err =>
      Fatalf ("Failed to query table info for " ++ tableName ++ ": " ++ err)
  | None =>
      v ← getView;
      let names := match v with Some (Some cols) => cols | _ => [] end in
      if negb (columnExists names columnName) then
        e ← execAlter tableName columnName columnType;
        match e with
        | Some err =>
            Fatalf ("Failed to add column " ++ columnName ++ " to table "
                    ++ tableName ++ ": " ++ err)
        | None =>
            Printf ("Added column " ++ columnName ++ " to table "
                    ++ tableName ++ ".")
        end
      else ret tt
  end.

(** [func InitDB(dataSourceName string)]. *)
Definition InitDB : M unit :=
  e ← send Open;
  match e with
  | Some err => Fatalf ("Failed to open database: " ++ err)
  | None =>
  e ← send CreateTable;
  match e with
  | Some err => Fatalf ("Failed to create table: " ++ err)
  | None =>
  c ← getCommitted;
  setCommitted (match c with None => Some baseColumns | Some _ => c end);;
  e ← send Begin;
  match e with
  | Some err =>
      Fatalf ("Failed to begin transaction for schema migration: " ++ err)
  | None =>
  c ← getCommitted;
  setView (Some c);;
  addColumnIfNotExists "requests" "request_body_size" "INTEGER";;
  addColumnIfNotExists "requests" "is_request_body_text" "BOOLEAN";;
  addColumnIfNotExists "requests" "response_body_size" "INTEGER";;
  addColumnIfNotExists "requests" "is_response_body_text" "BOOLEAN";;
  e ← send Commit;
  match e with
  | Some err => Fatalf ("Failed to commit schema migration: " ++ err)
  | None =>
  v ← getView;
  setCommitted (match v with Some c => c | None => None end);;
  setView None;;
  e ← send JournalWAL;
  match e with
  | Some err => Printf ("Failed to enable WAL mode: " ++ err)
  | None => ret tt
  end;;
  Printf "Database initialized successfully."
  end end end end.

End WithFaults.

(** A process start on a store whose table has the columns [c]. *)
Definition start (c : option (list string)) : State :=
  {| committed := c; view := None; trace := []; out := [] |}.

(** The store and the statements a run leaves behind. *)
Definition final {A} (r : Run A) : State :=
  match r with Ret _ s => s | Exit _ s => s end.

Definition isAlter (st : Stmt) : bool :=
  match st with AlterAdd _ _ _ => true | _ => false end.

(** The ALTER statements among those sent. *)
Definition alterations (s : State) : list Stmt := List.filter isAlter (trace s).

Definition newColumns : list string :=
  ["request_body_size"; "is_request_body_text"; "response_body_size";
   "is_response_body_text"].

End Mig.

(** ** encoding/base64 *)

Module base64.

(** The alphabet of [base64.StdEncoding]. *)
Definition encodeStd : string :=
  "ABCDEFGHIJKLMNOPQRSTUVWXYZabcdefghijklmnopqrstuvwxyz0123456789+/".

Definition digit (v : Z) : ascii :=
  match String.get (Z.to_nat (Z.land v 0x3F)) encodeStd with
  | Some c => c
  | None => "="%char
  end.

Definition byteZ (b : byte) : Z := Z.of_N (Byte.to_N b).

(** [base64.StdEncoding.EncodeToString]: three bytes give four digits;
    a remainder of one or two bytes is padded with [=]. *)
Fixpoint EncodeToString (src : list byte) : string :=
  match src with
  | [] => ""
  | [a] =>
      let v := Z.shiftl (byteZ a) 16 in
      String (digit (Z.shiftr v 18)) (String (digit (Z.shiftr v 12)) "==")
  | [a; b] =>
      let v := Z.lor (Z.shiftl (byteZ a) 16) (Z.shiftl (byteZ b) 8) in
      String (digit (Z.shiftr v 18))
        (String (digit (Z.shiftr v 12)) (String (digit (Z.shiftr v 6)) "="))
  | a :: b :: c :: rest =>
      let v := Z.lor (Z.lor (Z.shiftl (byteZ a) 16) (Z.shiftl (byteZ b) 8))
                     (byteZ c) in
      String (digit (Z.shiftr v 18))
        (String (digit (Z.shiftr v 12))
           (String (digit (Z.shiftr v 6))
              (String (digit v) (EncodeToString rest))))
  end.

End base64.

(** ** main.go: the replay engine, response side *)

(** The test of [replayRequest] on the Content-Type of the replayed
    response. *)
Definition replayIsText (contentType : string) : bool :=
  GoStrings.HasPrefix contentType "text/" ||
  GoStrings.Contains contentType "json" ||
  GoStrings.Contains contentType "xml" ||
  GoStrings.Contains contentType "javascript".

Section ReplayResponse.
Context {codec : GzipLib}.

(** [replayRequest] after [ioutil.ReadAll(resp.Body)] succeeded: the bytes
    after the decompression attempt, and the log line of a failed
    attempt. *)
Definition replayBodyBytes (finalURL : string) (header : Header)
    (respBody : list byte) : list byte * Log :=
  if String.eqb (http.Get header "Content-Encoding") "gzip" then
    let '(decompressedBody, err) := decompressGzip respBody in
    match err with
    | Some e =>
        (respBody,
         ["Warning: Failed to decompress gzipped replay response from "
          ++ finalURL ++ ": " ++ e])
    | None => (decompressedBody, [])
    end
  else (respBody, []).

(** The field [Body] of the result: the text itself, or its base64
    encoding. *)
Definition replayFinalRespBody (finalURL : string) (header : Header)
    (respBody : list byte) : string :=
  let bodyBytes := fst (replayBodyBytes finalURL header respBody) in
  let contentType := http.Get header "Content-Type" in
  let isText := replayIsText contentType in
  if isText then string_of_list_byte bodyBytes
  else base64.EncodeToString bodyBytes.

End ReplayResponse.

(** ** strconv.Atoi *)

Definition digitValue (c : ascii) : option Z :=
  let n := N_of_ascii c in
  if ((48 <=? n) && (n <=? 57))%N then Some (Z.of_N n - 48) else None.

Fixpoint digitsValue (s : string) (n : Z) : option Z :=
  match s with
  | EmptyString => Some n
  | String ch rest =>
      match digitValue ch with
      | Some d => digitsValue rest (n * 10 + d)
      | None => None
      end
  end.

(** [strconv.Atoi(s)]: an optional sign and decimal digits, within the
    range of [int]; [None] stands for a non-nil error. *)
Definition Atoi (s : string) : option Z :=
  let '(neg, digits) :=
    match s with
    | String "-" rest => (true, rest)
    | String "+" rest => (false, rest)
    | _ => (false, s)
    end in
  match digits with
  | EmptyString => None
  | _ =>
      match digitsValue digits 0 with
      | None => None
      | Some n =>
          let v := if neg then - n else n in
          if (- 2 ^ 63 <=? v) && (v <=? 2 ^ 63 - 1) then Some v else None
      end
  end.

(** Two's-complement wrap-around of a 64-bit [int]. *)
Definition wrap64 (z : Z) : Z := (z + 2 ^ 63) mod 2 ^ 64 - 2 ^ 63.

(** ** The database engine on the two queries of the list view *)

Module sqlite.

(** A bound argument. *)
Inductive Arg := Text (s : string) | Int (n : Z).

(** The conditions the program appends to its WHERE clause. *)
Inductive Cond := UrlLike | TimestampGe | TimestampLe.

Definition listHead : string :=
  "SELECT id, timestamp, method, url, status_code FROM requests WHERE 1=1".
Definition countHead : string := "SELECT COUNT(*) FROM requests WHERE 1=1".
Definition listTail : string := " ORDER BY timestamp DESC LIMIT ? OFFSET ?".

(** [s] without the prefix [pre], if it starts with it. *)
Fixpoint stripPrefix (pre s : string) : option string :=
  match pre, s with
  | EmptyString, _ => Some s
  | String a pre', String b s' =>
      if Ascii.eqb a b then stripPrefix pre' s' else None
  | _, _ => None
  end.

(** The conditions at the head of [s], and what follows them. *)
Fixpoint parseConds (fuel : nat) (s : string) : list Cond * string :=
  match fuel with
  | O => ([], s)
  | S fuel' =>
      match stripPrefix " AND url LIKE ?" s,
            stripPrefix " AND timestamp >= ?" s,
            stripPrefix " AND timestamp <= ?" s with
      | Some rest, _, _ =>
          let '(cs, r) := parseConds fuel' rest in (UrlLike :: cs, r)
      | _, Some rest, _ =>
          let '(cs, r) := parseConds fuel' rest in (TimestampGe :: cs, r)
      | _, _, Some rest =>
          let '(cs, r) := parseConds fuel' rest in (TimestampLe :: cs, r)
      | _, _, _ => ([], s)
      end
  end.

(** The statement text as one of the two query shapes. *)
Definition parseQuery (head tail text : string) : option (list Cond) :=
  match stripPrefix head text with
  | None => None
  | Some rest =>
      let '(cs, r) := parseConds (String.length rest) rest in
      if String.eqb r tail then Some cs else None
  end.

Section Engine.

(** The engine's LIKE operator (pattern, value), its comparison of a
    stored timestamp with a bound text, and the text that the driver has
    stored in the column [timestamp] for a time value. The column holds
    that text, and ORDER BY compares the texts byte by byte; the order of
    the texts need not be the order of the instants (two texts written
    at different UTC offsets, for one). *)
Variable like : string → string → bool.
Variable compareTimestamp : Z → string → comparison.
Variable timestampText : Z → string.

Definition condHolds (c : Cond) (a : Arg) (row : RequestLog.t) : bool :=
  match c, a with
  | UrlLike, Text pattern => like pattern (RequestLog.URL row)
  | TimestampGe, Text t =>
      match compareTimestamp (RequestLog.Timestamp row) t with
      | Lt => false
      | _ => true
      end
  | TimestampLe, Text t =>
      match compareTimestamp (RequestLog.Timestamp row) t with
      | Gt => false
      | _ => true
      end
  | _, Int _ => false
  end.

(** The WHERE clause on a row, each condition with its argument. *)
Fixpoint whereHolds (cs : list Cond) (args : list Arg) (row : RequestLog.t)
  : bool :=
  match cs, args with
  | c :: cs', a :: args' => condHolds c a row && whereHolds cs' args' row
  | _, _ => true
  end.

(** ORDER BY timestamp DESC: on the stored texts, byte by byte. *)
Definition newerFirst (a b : RequestLog.t) : Prop :=
  String.leb (timestampText (RequestLog.Timestamp b))
             (timestampText (RequestLog.Timestamp a)) = true.

Global Instance newerFirst_dec a b : Decision (newerFirst a b).
Proof. unfold newerFirst. apply _. Defined.

(** LIMIT and OFFSET: a negative offset counts as zero, a negative limit
    as no limit. *)
Definition limitOffset {A} (limit offset : Z) (l : list A) : list A :=
  let l := drop (Z.to_nat offset) l in
  if limit <? 0 then l else take (Z.to_nat limit) l.

(** The five selected columns of a row, scanned into a fresh
    [RequestLog]. *)
Definition scanListRow (row : RequestLog.t) : RequestLog.t :=
  {| RequestLog.ID := RequestLog.ID row;
     RequestLog.Timestamp := RequestLog.Timestamp row;
     RequestLog.Method := RequestLog.Method row;
     RequestLog.URL := RequestLog.URL row;
     RequestLog.RequestHeaders := "";
     RequestLog.RequestBody := [];
     RequestLog.RequestBodySize := 0;
     RequestLog.IsRequestBodyText := false;
     RequestLog.StatusCode := RequestLog.StatusCode row;
     RequestLog.ResponseHeaders := "";
     RequestLog.ResponseBody := [];
     RequestLog.ResponseBodySize := 0;
     RequestLog.IsResponseBodyText := false |}.

(** [db.QueryRow(countQuery, args...).Scan(&totalCount)]; [fault] is an
    error of the database on this call (a locked or unreadable file,
    say). *)
Definition QueryCount (fault : option string) (db : DB) (text : string)
    (args : list Arg) : result Z :=
  match fault with
  | Some e => Err e
  | None =>
      match parseQuery countHead "" text with
      | None => Err "SQL logic error"
      | Some cs =>
          if (length args =? length cs)%nat
          then Ok (len (List.filter (whereHolds cs args) (rows db)))
          else Err "sql: wrong number of arguments"
      end
  end.

(** [db.Query(query, args...)]: the rows of the result set, in order;
    [fault] is an error of the database on this call. The result set is
    taken to be delivered whole: [rows.Next] does not fail midway. *)
Definition QueryList (fault : option string) (db : DB) (text : string)
    (args : list Arg) : result (list RequestLog.t) :=
  match fault with
  | Some e => Err e
  | None =>
      match parseQuery listHead listTail text with
      | None => Err "SQL logic error"
      | Some cs =>
          match drop (length cs) args with
          | [Int limit; Int offset] =>
              Ok (limitOffset limit offset
                    (merge_sort newerFirst
                       (List.filter (whereHolds cs args) (rows db))))
          | _ => Err "sql: wrong number of arguments"
          end
      end
  end.

End Engine.

End sqlite.

(** ** main.go: the list query *)

Module ListRequests.

(** The query parameters of GET /api/requests, as [r.URL.Query().Get]
    returns them (the empty string when absent). *)
Record Params := {
  page : string;
  page_size : string;
  url : string;
  start_date : string;
  end_date : string
}.

(** The response object. *)
Record Response := {
  Requests : list RequestLog.t;
  Page : Z;
  PageSize : Z;
  TotalCount : Z;
  TotalPages : Z
}.

(** The handler's answer: [http.Error], or the encoded response. *)
Inductive Answer :=
| Error (msg : string) (code : Z)
| OK (response : Response).

(** What the handler has built before it runs the queries. *)
Record Built := {
  bPage : Z;
  bPageSize : Z;
  bOffset : Z;
  query : string;
  countQuery : string;
  args : list sqlite.Arg
}.

(** [getRequests] up to "Add ordering and pagination". *)
Definition build (p : Params) : Built :=
  let pageStr := page p in
  let pageSizeStr := page_size p in
  let urlFilter := url p in
  let startDate := start_date p in
  let endDate := end_date p in
  let page := 1 in
  let pageSize := 50 in
  let page :=
    if negb (String.eqb pageStr "") then
      match Atoi pageStr with
      | Some p' => if 0 <? p' then p' else page
      | None => page
      end
    else page in
  let pageSize :=
    if negb (String.eqb pageSizeStr "") then
      match Atoi pageSizeStr with
      | Some ps => if (0 <? ps) && (ps <=? 100) then ps else pageSize
      | None => pageSize
      end
    else pageSize in
  let offset := wrap64 ((page - 1) * pageSize) in
  let query := sqlite.listHead in
  let countQuery := sqlite.countHead in
  let args : list sqlite.Arg := [] in
  let '(query, countQuery, args) :=
    if negb (String.eqb urlFilter "") then
      (query ++ " AND url LIKE ?", countQuery ++ " AND url LIKE ?",
       (args ++ [sqlite.Text ("%" ++ urlFilter ++ "%")])%list)
    else (query, countQuery, args) in
  let '(query, countQuery, args) :=
    if negb (String.eqb startDate "") then
      let startDateTime := startDate ++ " 00:00:00" in
      (query ++ " AND timestamp >= ?", countQuery ++ " AND timestamp >= ?",
       (args ++ [sqlite.Text startDateTime])%list)
    else (query, countQuery, args) in
  let '(query, countQuery, args) :=
    if negb (String.eqb endDate "") then
      let endDateTime := endDate ++ " 23:59:59" in
      (query ++ " AND timestamp <= ?", countQuery ++ " AND timestamp <= ?",
       (args ++ [sqlite.Text endDateTime])%list)
    else (query, countQuery, args) in
  let query := query ++ " ORDER BY timestamp DESC LIMIT ? OFFSET ?" in
  let args := (args ++ [sqlite.Int pageSize; sqlite.Int offset])%list in
  {| bPage := page; bPageSize := pageSize; bOffset := offset;
     query := query; countQuery := countQuery; args := args |}.

(** The loop [for rows.Next()] of [getRequests]: a row whose scan fails
    ([scanFault] at its position in the result set) is logged and
    skipped. *)
Fixpoint scanListRows (scanFault : nat → option string)
    (rows : list RequestLog.t) (log : Log) : list RequestLog.t * Log :=
  match rows with
  | [] => ([], log)
  | row :: rest =>
      match scanFault O with
      | Some e =>
          scanListRows (λ i, scanFault (S i)) rest
            (logLine log ("Error scanning request: " ++ e))
      | None =>
          let '(requests, log) :=
            scanListRows (λ i, scanFault (S i)) rest log in
          (sqlite.scanListRow row :: requests, log)
      end
  end.

Section Handler.
Variable like : string → string → bool.
Variable compareTimestamp : Z → string → comparison.
Variable timestampText : Z → string.

(** [func getRequests(w, r)]; [countFault] and [queryFault] are the errors
    of the database on the two queries, [scanFault] those of the scans. *)
Definition getRequests (countFault queryFault : option string)
    (scanFault : nat → option string) (db : DB) (p : Params) (log : Log)
  : Answer * Log :=
  let b := build p in
  match sqlite.QueryCount like compareTimestamp countFault db (countQuery b)
          (take (length (args b) - 2) (args b)) with
  | Err e =>
      (Error "Failed to fetch request count" 500,
       logLine log ("Error fetching request count: " ++ e))
  | Ok totalCount =>
      match sqlite.QueryList like compareTimestamp timestampText queryFault
              db (query b) (args b) with
      | Err e =>
          (Error "Failed to fetch requests" 500,
           logLine log ("Error fetching requests: " ++ e))
      | Ok rows =>
          let '(requests, log) := scanListRows scanFault rows log in
          (OK {| Requests := requests;
                 Page := bPage b;
                 PageSize := bPageSize b;
                 TotalCount := totalCount;
                 TotalPages :=
                   Z.quot (totalCount + bPageSize b - 1) (bPageSize b) |},
           log)
      end
  end.

End Handler.

End ListRequests.

(** ** More of the [strings] package, for URLs *)

Module GoStrings2.

(** [strings.Cut(s, sep)]: the text before and after the first [sep];
    [None] when [sep] does not occur (Go then returns [s], "", false). *)
Fixpoint Cut (s sep : string) : option (string * string) :=
  if GoStrings.HasPrefix s sep
  then Some ("", String.substring (String.length sep)
                   (String.length s - String.length sep) s)
  else match s with
       | EmptyString => None
       | String c s' =>
           match Cut s' sep with
           | Some (before, after) => Some (String c before, after)
           | None => None
           end
       end.

(** The split of [s] at the last occurrence of the byte [c]
    ([strings.LastIndex] with a one-byte separator). *)
Fixpoint LastCut (s : string) (c : ascii) : option (string * string) :=
  match s with
  | EmptyString => None
  | String x s' =>
      match LastCut s' c with
      | Some (before, after) => Some (String x before, after)
      | None => if Ascii.eqb x c then Some ("", s') else None
      end
  end.

(** [strings.Count(s, c)] for a one-byte [c]. *)
Fixpoint Count (s : string) (c : ascii) : nat :=
  match s with
  | EmptyString => O
  | String x s' => ((if Ascii.eqb x c then 1 else 0) + Count s' c)%nat
  end.

(** [s] without its last byte, if that byte is [c]
    ([strings.HasSuffix] with a one-byte suffix). *)
Fixpoint TrimLast (s : string) (c : ascii) : option string :=
  match s with
  | EmptyString => None
  | String x EmptyString => if Ascii.eqb x c then Some "" else None
  | String x s' =>
      match TrimLast s' c with
      | Some t => Some (String x t)
      | None => None
      end
  end.

(** [strings.ToLower] on ASCII text. *)
Definition ToLower (s : string) : string :=
  string_of_list_ascii
    (List.map (λ c, let n := N_of_ascii c in
                    if ((65 <=? n) && (n <=? 90))%N then ascii_of_N (n + 32) else c)
              (list_ascii_of_string s)).

(** The pieces of [s] between slashes, as repeated [Cut(_, "/")] yields
    them. *)
Fixpoint SplitSlash (s : string) (cur : string) : list string :=
  match s with
  | EmptyString => [cur]
  | String c s' =>
      if Ascii.eqb c "/" then cur :: SplitSlash s' ""
      else SplitSlash s' (cur ++ String c "")
  end.

Definition allBytes (f : N → bool) (s : string) : bool :=
  forallb (λ c, f (N_of_ascii c)) (list_ascii_of_string s).

End GoStrings2.

(** ** net/url

    [url.Parse], [URL.ResolveReference] and [URL.String] of the
    standard library, which decide where a replayed request goes. *)

Module url.

Import GoStrings GoStrings2.

(** [type Userinfo struct]. *)
Record Userinfo := {
  username : string;
  password : string;
  passwordSet : bool
}.

(** [type URL struct]. *)
Record URL := {
  Scheme : string;
  Opaque : string;
  User : option Userinfo;
  Host : string;
  Path : string;
  RawPath : string;
  OmitHost : bool;
  ForceQuery : bool;
  RawQuery : string;
  Fragment : string;
  RawFragment : string
}.

Definition empty : URL :=
  {| Scheme := ""; Opaque := ""; User := None; Host := ""; Path := "";
     RawPath := ""; OmitHost := false; ForceQuery := false; RawQuery := "";
     Fragment := ""; RawFragment := "" |}.

Inductive encoding :=
| encodePath
| encodePathSegment
| encodeHost
| encodeZone
| encodeUserPassword
| encodeQueryComponent
| encodeFragment.

Definition isHostMode (mode : encoding) : bool :=
  match mode with encodeHost | encodeZone => true | _ => false end.

Definition oneOf (chars : string) (c : ascii) : bool :=
  existsb (Ascii.eqb c) (list_ascii_of_string chars).

Definition isAlnum (c : ascii) : bool :=
  let n := N_of_ascii c in
  (((97 <=? n) && (n <=? 122)) || ((65 <=? n) && (n <=? 90)) ||
   ((48 <=? n) && (n <=? 57)))%N.

(** The characters [!$&'()*+,;=:[]<>] and the double quote, which a host
    may carry unescaped. *)
Definition hostSafe (c : ascii) : bool :=
  oneOf "!$&'()*+,;=:[]<>" c || (N_of_ascii c =? 34)%N.

(** [func shouldEscape(c byte, mode encoding) bool]. *)
Definition shouldEscape (c : ascii) (mode : encoding) : bool :=
  if isAlnum c then false
  else if isHostMode mode && hostSafe c then false
  else if oneOf "-_.~" c then false
  else if oneOf "$&+,/:;=?@" c then
    match mode with
    | encodePath => Ascii.eqb c "?"
    | encodePathSegment => oneOf "/;,?" c
    | encodeUserPassword => oneOf "@/?:" c
    | encodeQueryComponent => true
    | encodeFragment => false
    | encodeHost | encodeZone => true
    end
  else if match mode with encodeFragment => oneOf "!()*" c | _ => false end
  then false
  else true.

Definition ishex (c : ascii) : bool :=
  let n := N_of_ascii c in
  (((48 <=? n) && (n <=? 57)) || ((97 <=? n) && (n <=? 102)) ||
   ((65 <=? n) && (n <=? 70)))%N.

Definition unhex (c : ascii) : N :=
  let n := N_of_ascii c in
  (if (48 <=? n) && (n <=? 57) then n - 48
   else if (97 <=? n) && (n <=? 102) then n - 97 + 10
   else if (65 <=? n) && (n <=? 70) then n - 65 + 10
   else 0)%N.

Definition escapeError (s : string) : string :=
  "invalid URL escape " ++ s.

(** The first loop of [unescape]: the percent escapes are well formed and
    allowed in this part of the URL. *)
Fixpoint unescapeCheck (s : string) (mode : encoding) : option string :=
  match s with
  | EmptyString => None
  | String "%" rest =>
      match rest with
      | String a (String b rest') =>
          if negb (ishex a && ishex b)
          then Some (escapeError (String.substring 0 3 s))
          else if match mode with encodeHost => true | _ => false end &&
                  (unhex a <? 8)%N &&
                  negb (String.eqb (String.substring 0 3 s) "%25")
          then Some (escapeError (String.substring 0 3 s))
          else if match mode with encodeZone => true | _ => false end &&
                  negb (String.eqb (String.substring 0 3 s) "%25") &&
                  negb (unhex a * 16 + unhex b =? 32)%N &&
                  shouldEscape (ascii_of_N (unhex a * 16 + unhex b)) encodeHost
          then Some (escapeError (String.substring 0 3 s))
          else unescapeCheck rest' mode
      | _ => Some (escapeError (String.substring 0 3 s))
      end
  | String c rest =>
      if isHostMode mode && (N_of_ascii c <? 128)%N && shouldEscape c encodeHost
      then Some ("invalid character in host name")
      else unescapeCheck rest mode
  end.

(** The second loop of [unescape]: decoding. *)
Fixpoint unescapeDecode (s : string) (mode : encoding) : string :=
  match s with
  | EmptyString => ""
  | String "%" (String a (String b rest)) =>
      String (ascii_of_N (unhex a * 16 + unhex b)) (unescapeDecode rest mode)
  | String "+" rest =>
      String (match mode with encodeQueryComponent => " " | _ => "+" end)%char
             (unescapeDecode rest mode)
  | String c rest => String c (unescapeDecode rest mode)
  end.

(** [func unescape(s string, mode encoding) (string, error)]. *)
Definition unescape (s : string) (mode : encoding) : result string :=
  match unescapeCheck s mode with
  | Some e => Err e
  | None => Ok (unescapeDecode s mode)
  end.

Definition upperhex (n : N) : ascii :=
  match String.get (N.to_nat n) "0123456789ABCDEF" with
  | Some c => c
  | None => "0"%char
  end.

(** [func escape(s string, mode encoding) string]. *)
Fixpoint escape (s : string) (mode : encoding) : string :=
  match s with
  | EmptyString => ""
  | String c rest =>
      if shouldEscape c mode then
        if Ascii.eqb c " " &&
           match mode with encodeQueryComponent => true | _ => false end
        then String "+" (escape rest mode)
        else String "%"
               (String (upperhex (N.shiftr (N_of_ascii c) 4))
                  (String (upperhex (N.land (N_of_ascii c) 15))
                     (escape rest mode)))
      else String c (escape rest mode)
  end.

(** [func validEncoded(s string, mode encoding) bool]. *)
Definition validEncoded (s : string) (mode : encoding) : bool :=
  forallb (λ c, oneOf "!$&'()*+,;=:@[]%" c || negb (shouldEscape c mode))
          (list_ascii_of_string s).

(** [func getScheme(rawURL string) (scheme, path string, err error)]. *)
Fixpoint getSchemeLoop (s : string) (i : nat) (rawURL : string)
  : result (string * string) :=
  match s with
  | EmptyString => Ok ("", rawURL)
  | String c rest =>
      let n := N_of_ascii c in
      if (((97 <=? n) && (n <=? 122)) || ((65 <=? n) && (n <=? 90)))%N
      then getSchemeLoop rest (S i) rawURL
      else if (((48 <=? n) && (n <=? 57)))%N || oneOf "+-." c
      then if (i =? 0)%nat then Ok ("", rawURL)
           else getSchemeLoop rest (S i) rawURL
      else if Ascii.eqb c ":"
      then if (i =? 0)%nat then Err "missing protocol scheme"
           else Ok (String.substring 0 i rawURL, rest)
      else Ok ("", rawURL)
  end.

Definition getScheme (rawURL : string) : result (string * string) :=
  getSchemeLoop rawURL 0 rawURL.

(** [func stringContainsCTLByte(s string) bool]. *)
Definition stringContainsCTLByte (s : string) : bool :=
  existsb (λ c, let n := N_of_ascii c in ((n <? 32) || (n =? 127))%N)
          (list_ascii_of_string s).

(** [func validOptionalPort(port string) bool]. *)
Definition validOptionalPort (port : string) : bool :=
  match port with
  | EmptyString => true
  | String c digits =>
      Ascii.eqb c ":" &&
      allBytes (λ n, (48 <=? n) && (n <=? 57))%N digits
  end.

(** [func validUserinfo(s string) bool]. *)
Definition validUserinfo (s : string) : bool :=
  forallb (λ c, isAlnum c || oneOf "-._:~!$&'()*+,;=%@" c)
          (list_ascii_of_string s).

(** [func parseHost(host string) (string, error)]. *)
Definition parseHost (host : string) : result string :=
  let plain := unescape host encodeHost in
  if HasPrefix host "[" then
    match LastCut host "]" with
    | None => Err "missing ']' in host"
    | Some (inside, colonPort) =>
        if negb (validOptionalPort colonPort)
        then Err "invalid port after host"
        else
          match Cut inside "%25" with
          | Some (before, _) =>
              let zoneLen := (String.length inside - String.length before)%nat in
              match unescape before encodeHost,
                    unescape (String.substring (String.length before) zoneLen
                                host) encodeZone,
                    unescape (String.substring (String.length inside)
                                (String.length host - String.length inside)
                                host) encodeHost with
              | Ok host1, Ok host2, Ok host3 => Ok (host1 ++ host2 ++ host3)
              | Err e, _, _ => Err e
              | _, Err e, _ => Err e
              | _, _, Err e => Err e
              end
          | None => plain
          end
    end
  else
    match LastCut host ":" with
    | Some (_, port) =>
        if negb (validOptionalPort (String ":" port))
        then Err "invalid port after host"
        else plain
    | None => plain
    end.

(** [func parseAuthority(authority string) (user *Userinfo, host string,
    err error)]. *)
Definition parseAuthority (authority : string)
  : result (option Userinfo * string) :=
  match LastCut authority "@" with
  | None =>
      match parseHost authority with
      | Err e => Err e
      | Ok host => Ok (None, host)
      end
  | Some (userinfo, hostport) =>
      match parseHost hostport with
      | Err e => Err e
      | Ok host =>
          if negb (validUserinfo userinfo) then Err "net/url: invalid userinfo"
          else
            match Cut userinfo ":" with
            | None =>
                match unescape userinfo encodeUserPassword with
                | Err e => Err e
                | Ok name =>
                    Ok (Some {| username := name; password := "";
                                passwordSet := false |}, host)
                end
            | Some (name, pass) =>
                match unescape name encodeUserPassword,
                      unescape pass encodeUserPassword with
                | Ok name, Ok pass =>
                    Ok (Some {| username := name; password := pass;
                                passwordSet := true |}, host)
                | Err e, _ => Err e
                | _, Err e => Err e
                end
            end
      end
  end.

(** [func (u *URL) setPath(p string) error]. *)
Definition setPath (u : URL) (p : string) : result URL :=
  match unescape p encodePath with
  | Err e => Err e
  | Ok path =>
      Ok {| Scheme := Scheme u; Opaque := Opaque u; User := User u;
            Host := Host u; Path := path;
            RawPath := if String.eqb p (escape path encodePath) then "" else p;
            OmitHost := OmitHost u; ForceQuery := ForceQuery u;
            RawQuery := RawQuery u; Fragment := Fragment u;
            RawFragment := RawFragment u |}
  end.

(** [func (u *URL) setFragment(f string) error]. *)
Definition setFragment (u : URL) (f : string) : result URL :=
  match unescape f encodeFragment with
  | Err e => Err e
  | Ok frag =>
      Ok {| Scheme := Scheme u; Opaque := Opaque u; User := User u;
            Host := Host u; Path := Path u; RawPath := RawPath u;
            OmitHost := OmitHost u; ForceQuery := ForceQuery u;
            RawQuery := RawQuery u; Fragment := frag;
            RawFragment :=
              if String.eqb f (escape frag encodeFragment) then "" else f |}
  end.

(** [func (u *URL) EscapedPath() string]. *)
Definition EscapedPath (u : URL) : string :=
  if negb (String.eqb (RawPath u) "") && validEncoded (RawPath u) encodePath &&
     match unescape (RawPath u) encodePath with
     | Ok p => String.eqb p (Path u)
     | Err _ => false
     end
  then RawPath u
  else if String.eqb (Path u) "*" then "*"
  else escape (Path u) encodePath.

(** [func (u *URL) EscapedFragment() string]. *)
Definition EscapedFragment (u : URL) : string :=
  if negb (String.eqb (RawFragment u) "") &&
     validEncoded (RawFragment u) encodeFragment &&
     match unescape (RawFragment u) encodeFragment with
     | Ok f => String.eqb f (Fragment u)
     | Err _ => false
     end
  then RawFragment u
  else escape (Fragment u) encodeFragment.

(** The assignments of [parse] and [ResolveReference] to single fields. *)
Definition withScheme (u : URL) (s : string) : URL :=
  {| Scheme := s; Opaque := Opaque u; User := User u; Host := Host u;
     Path := Path u; RawPath := RawPath u; OmitHost := OmitHost u;
     ForceQuery := ForceQuery u; RawQuery := RawQuery u;
     Fragment := Fragment u; RawFragment := RawFragment u |}.

Definition withQuery (u : URL) (force : bool) (q : string) : URL :=
  {| Scheme := Scheme u; Opaque := Opaque u; User := User u; Host := Host u;
     Path := Path u; RawPath := RawPath u; OmitHost := OmitHost u;
     ForceQuery := force; RawQuery := q;
     Fragment := Fragment u; RawFragment := RawFragment u |}.

Definition withOpaque (u : URL) (o : string) : URL :=
  {| Scheme := Scheme u; Opaque := o; User := User u; Host := Host u;
     Path := Path u; RawPath := RawPath u; OmitHost := OmitHost u;
     ForceQuery := ForceQuery u; RawQuery := RawQuery u;
     Fragment := Fragment u; RawFragment := RawFragment u |}.

Definition withAuthority (u : URL) (user : option Userinfo) (host : string)
  : URL :=
  {| Scheme := Scheme u; Opaque := Opaque u; User := user; Host := host;
     Path := Path u; RawPath := RawPath u; OmitHost := OmitHost u;
     ForceQuery := ForceQuery u; RawQuery := RawQuery u;
     Fragment := Fragment u; RawFragment := RawFragment u |}.

Definition withOmitHost (u : URL) (b : bool) : URL :=
  {| Scheme := Scheme u; Opaque := Opaque u; User := User u; Host := Host u;
     Path := Path u; RawPath := RawPath u; OmitHost := b;
     ForceQuery := ForceQuery u; RawQuery := RawQuery u;
     Fragment := Fragment u; RawFragment := RawFragment u |}.

Definition withPath (u : URL) (p : string) : URL :=
  {| Scheme := Scheme u; Opaque := Opaque u; User := User u; Host := Host u;
     Path := p; RawPath := RawPath u; OmitHost := OmitHost u;
     ForceQuery := ForceQuery u; RawQuery := RawQuery u;
     Fragment := Fragment u; RawFragment := RawFragment u |}.

Definition withFragment (u : URL) (f raw : string) : URL :=
  {| Scheme := Scheme u; Opaque := Opaque u; User := User u; Host := Host u;
     Path := Path u; RawPath := RawPath u; OmitHost := OmitHost u;
     ForceQuery := ForceQuery u; RawQuery := RawQuery u;
     Fragment := f; RawFragment := raw |}.

(** The query part of [parse]: a lone trailing question mark sets
    [ForceQuery]; otherwise the text after the first question mark is the
    query. The rest of the URL is returned with it. *)
Definition cutQuery (u : URL) (rest : string) : URL * string :=
  match TrimLast rest "?" with
  | Some trimmed =>
      if (Count rest "?" =? 1)%nat
      then (withQuery u true "", trimmed)
      else match Cut rest "?" with
           | Some (before, after) => (withQuery u false after, before)
           | None => (u, rest)
           end
  | None =>
      match Cut rest "?" with
      | Some (before, after) => (withQuery u false after, before)
      | None => (u, rest)
      end
  end.

(** The authority part of [parse], for [rest] starting with two slashes:
    the authority and the path that follows it. *)
Definition cutAuthority (rest : string) : string * string :=
  let authority := String.substring 2 (String.length rest - 2) rest in
  match Cut authority "/" with
  | Some (a, r) => (a, String "/" r)
  | None => (authority, "")
  end.

(** The first segment of a relative path has a colon. *)
Definition firstSegmentHasColon (path : string) : bool :=
  match Cut path "/" with
  | Some (segment, _) => Contains segment ":"
  | None => Contains path ":"
  end.

(** [func parse(rawURL string, viaRequest bool)] with [viaRequest] false,
    as [Parse] calls it. *)
Definition parse (rawURL : string) : result URL :=
  if stringContainsCTLByte rawURL
  then Err "net/url: invalid control character in URL"
  else if String.eqb rawURL "*" then Ok (withPath empty "*")
  else
    match getScheme rawURL with
    | Err e => Err e
    | Ok (scheme, rest) =>
        let u := withScheme empty (ToLower scheme) in
        let '(u, rest) := cutQuery u rest in
        if negb (HasPrefix rest "/") && negb (String.eqb (Scheme u) "")
        then Ok (withOpaque u rest)
        else if negb (HasPrefix rest "/") && firstSegmentHasColon rest
        then Err "first path segment in URL cannot contain colon"
        else if (negb (String.eqb (Scheme u) "") || negb (HasPrefix rest "///"))
                && HasPrefix rest "//"
        then
          let '(authority, rest) := cutAuthority rest in
          match parseAuthority authority with
          | Err e => Err e
          | Ok (user, host) => setPath (withAuthority u user host) rest
          end
        else if negb (String.eqb (Scheme u) "") && HasPrefix rest "/"
        then setPath (withOmitHost u true) rest
        else setPath u rest
    end.

(** The split of [Parse] at the first number sign. *)
Definition cutFragment (rawURL : string) : string * string :=
  match Cut rawURL "#" with
  | Some (before, after) => (before, after)
  | None => (rawURL, "")
  end.

(** [func Parse(rawURL string)]. *)
Definition Parse (rawURL : string) : result URL :=
  let '(u, frag) := cutFragment rawURL in
  match parse u with
  | Err e => Err e
  | Ok url =>
      if String.eqb frag "" then Ok url else setFragment url frag
  end.

(** The loop of [resolvePath] over the segments of the merged path: the
    text written so far, the flag [first] and the last segment seen. *)
Fixpoint resolveLoop (segments : list string) (dst : string) (first : bool)
    (elem : string) : string * string :=
  match segments with
  | [] => (dst, elem)
  | elem :: rest =>
      if String.eqb elem "." then resolveLoop rest dst false elem
      else if String.eqb elem ".." then
        let str := String.substring 1 (String.length dst - 1) dst in
        match LastCut str "/" with
        | None => resolveLoop rest "/" true elem
        | Some (before, _) => resolveLoop rest ("/" ++ before) first elem
        end
      else
        resolveLoop rest
          ((if first then dst else dst ++ "/") ++ elem) false elem
  end.

(** [func resolvePath(base, ref string) string]. *)
Definition resolvePath (base ref : string) : string :=
  let full :=
    if String.eqb ref "" then base
    else if negb (HasPrefix ref "/") then
      match LastCut base "/" with
      | Some (before, _) => before ++ "/" ++ ref
      | None => ref
      end
    else ref in
  if String.eqb full "" then ""
  else
    let '(dst, elem) := resolveLoop (SplitSlash full "") "/" true "" in
    let r :=
      if String.eqb elem "." || String.eqb elem ".." then dst ++ "/" else dst in
    match r with
    | String _ (String "/" _ as r') => r'
    | _ => r
    end.

(** [setPath] where the standard library ignores its error. *)
Definition setPathIgnoringError (u : URL) (p : string) : URL :=
  match setPath u p with
  | Ok u' => u'
  | Err _ => u
  end.

(** [func (u *URL) ResolveReference(ref *URL)]. *)
Definition ResolveReference (u ref : URL) : URL :=
  let url := ref in
  let url := if String.eqb (Scheme ref) "" then withScheme url (Scheme u)
             else url in
  if negb (String.eqb (Scheme ref) "") || negb (String.eqb (Host ref) "") ||
     match User ref with Some _ => true | None => false end
  then setPathIgnoringError url (resolvePath (EscapedPath ref) "")
  else if negb (String.eqb (Opaque ref) "")
  then withPath (withAuthority url None "") ""
  else
    let url :=
      if String.eqb (Path ref) "" && negb (ForceQuery ref) &&
         String.eqb (RawQuery ref) ""
      then
        let url := withQuery url (ForceQuery url) (RawQuery u) in
        if String.eqb (Fragment ref) ""
        then withFragment url (Fragment u) (RawFragment u)
        else url
      else url in
    if String.eqb (Path ref) "" && negb (String.eqb (Opaque u) "")
    then withPath (withAuthority (withOpaque url (Opaque u)) None "") ""
    else
      setPathIgnoringError (withAuthority url (User u) (Host u))
        (resolvePath (EscapedPath u) (EscapedPath ref)).

(** [func (u *Userinfo) String() string]. *)
Definition UserinfoString (u : Userinfo) : string :=
  let s := escape (username u) encodeUserPassword in
  if passwordSet u then s ++ ":" ++ escape (password u) encodeUserPassword
  else s.

(** [func (u *URL) String() string]. *)
Definition String_ (u : URL) : string :=
  let buf := if String.eqb (Scheme u) "" then "" else Scheme u ++ ":" in
  let buf :=
    if negb (String.eqb (Opaque u) "") then buf ++ Opaque u
    else
      let hasUser := match User u with Some _ => true | None => false end in
      let buf :=
        if negb (String.eqb (Scheme u) "") || negb (String.eqb (Host u) "")
           || hasUser
        then
          if OmitHost u && String.eqb (Host u) "" && negb hasUser then buf
          else
            let buf :=
              if negb (String.eqb (Host u) "") || negb (String.eqb (Path u) "")
                 || hasUser
              then buf ++ "//" else buf in
            let buf :=
              match User u with
              | Some ui => buf ++ UserinfoString ui ++ "@"
              | None => buf
              end in
            if negb (String.eqb (Host u) "")
            then buf ++ escape (Host u) encodeHost else buf
        else buf in
      let path := EscapedPath u in
      let buf :=
        if negb (String.eqb path "") && negb (HasPrefix path "/") &&
           negb (String.eqb (Host u) "")
        then buf ++ "/" else buf in
      let buf :=
        if String.eqb buf "" && firstSegmentHasColon path
        then buf ++ "./" else buf in
      buf ++ path in
  let buf :=
    if ForceQuery u || negb (String.eqb (RawQuery u) "")
    then buf ++ "?" ++ RawQuery u else buf in
  if negb (String.eqb (Fragment u) "")
  then buf ++ "#" ++ EscapedFragment u else buf.

End url.

(** ** main.go: the replay engine, request side *)

(** How [replayRequest] gets from the caller's URL to the URL it sends
    the request to: an [http.Error], or [finalURL]. *)
Inductive ReplayTarget :=
| replayError (msg : string) (code : Z)
| replayTo (finalURL : string).

(** [replayRequest] from "Handle relative URLs" to the computation of
    [finalURL]. [targetFlag] is the value of the command-line flag
    [-target] ([None] if the flag is not defined); [replayURL] is
    [replayData.URL]. *)
Definition replayFinalURL (targetFlag : option string) (replayURL : string)
  : ReplayTarget * Log :=
  let '(targetStr, log) :=
    match targetFlag with
    | Some value => (value, [])
    | None =>
        ("http://localhost:8081",
         ["Warning: '-target' flag not found, using default fallback for replay URL resolution."])
    end in
  let '(parsedTarget, log) :=
    match url.Parse targetStr with
    | Ok u => (u, log)
    | Err _ =>
        (url.withAuthority (url.withScheme url.empty "http") None
           "localhost:8081",
         logLine log ("Warning: Failed to parse target URL '" ++ targetStr
                      ++ "', using fallback: http://localhost:8081"))
    end in
  match url.Parse replayURL with
  | Err e =>
      (replayError "Invalid URL in replay data" 400,
       logLine log ("Error parsing replay URL: " ++ e))
  | Ok parsedReplayURL =>
      let finalURL :=
        url.String_ (url.ResolveReference parsedTarget parsedReplayURL) in
      (replayTo finalURL, log)
  end.

(** ** net/http as the admin handlers use it *)

(** A Go string literal that holds double quotes, written with an
    apostrophe for each of them. *)
Definition quoted (s : string) : string :=
  string_of_list_ascii
    (List.map (λ c, if Ascii.eqb c "'" then json.quote else c)
              (list_ascii_of_string s)).

Module admin.

(** [http.SameSite]. *)
Inductive SameSite := SameSiteDefaultMode | SameSiteLaxMode.

(** The fields of [http.Cookie] the program sets. *)
Record Cookie := {
  Name : string;
  Value : string;
  CookiePath : string;
  MaxAge : Z;
  HttpOnly : bool;
  Secure : bool;
  CookieSameSite : SameSite
}.

(** What an admin handler reads of its [*http.Request]: the method, the
    URL path, the parts of the Cookie header in the order sent (each part
    cut at its first equals sign into the name, as [readCookies] tests it,
    and the raw value), the query parameters of the list view and the
    body. *)
Record Request := {
  Method : string;
  Path : string;
  Cookies : list (string * string);
  Query : ListRequests.Params;
  Body : list byte
}.

(** [isNotToken]: a byte that is not a token character of RFC 7230. *)
Definition isNotToken (c : ascii) : bool :=
  negb (url.isAlnum c || url.oneOf "!#$%&'*+-.^_`|~" c).

(** [func isCookieNameValid(raw string) bool]. *)
Definition isCookieNameValid (raw : string) : bool :=
  negb (String.eqb raw "") &&
  negb (existsb isNotToken (list_ascii_of_string raw)).

(** [func validCookieValueByte(b byte) bool]: printable ASCII other than
    the double quote, the semicolon and the backslash. *)
Definition validCookieValueByte (b : ascii) : bool :=
  let n := N_of_ascii b in
  ((32 <=? n) && (n <? 127) && negb (n =? 34) && negb (n =? 59) &&
   negb (n =? 92))%N.

(** [parseCookieValue(raw, true)]: one pair of enclosing double quotes is
    stripped, and a value with a byte that is not valid is refused. *)
Definition parseCookieValue (raw : string) : option string :=
  let n := String.length raw in
  let raw :=
    if (1 <? n)%nat &&
       bool_decide (String.get 0 raw = Some json.quote) &&
       bool_decide (String.get (n - 1) raw = Some json.quote)
    then String.substring 1 (n - 2) raw
    else raw in
  if forallb validCookieValueByte (list_ascii_of_string raw)
  then Some raw else None.

(** [func readCookies(h Header, filter string) []*Cookie] on the parts of
    the header: a part is skipped if its name is not valid, if it is not
    the name asked for, or if its value is refused. *)
Fixpoint readCookies (parts : list (string * string)) (filter : string)
  : list (string * string) :=
  match parts with
  | [] => []
  | (name, val) :: rest =>
      if negb (isCookieNameValid name) then readCookies rest filter
      else if negb (String.eqb filter "") && negb (String.eqb filter name)
      then readCookies rest filter
      else
        match parseCookieValue val with
        | None => readCookies rest filter
        | Some value => (name, value) :: readCookies rest filter
        end
  end.

(** [r.Cookie(name)]: the value of the first cookie that [readCookies]
    keeps ([None]: [http.ErrNoCookie]). *)
Definition Cookie_ (r : Request) (name : string) : option string :=
  if String.eqb name "" then None
  else
    match readCookies (Cookies r) name with
    | [] => None
    | (_, value) :: _ => Some value
    end.

(** What a handler has written when it returns without [http.Error] or
    [http.Redirect]: the headers it set, the cookies it set with
    [http.SetCookie], the status ([w.WriteHeader], or 200 with the first
    [w.Write]) and the bytes written. *)
Record Writer := {
  header : Header;
  cookies : list Cookie;
  status : Z;
  body : list byte
}.

(** The result of a handler: [http.Error], [http.Redirect], bytes written
    by the handler itself, a value of type [A] handed to
    [json.NewEncoder(w).Encode] after the headers were set, or a run-time
    panic (a slice out of range). *)
Inductive Reply (A : Type) :=
| Error (msg : string) (code : Z)
| Redirect (to : string) (code : Z)
| Wrote (w : Writer)
| Encoded (header : Header) (v : A)
| Panic.
Arguments Error {A} _ _.
Arguments Redirect {A} _ _.
Arguments Wrote {A} _.
Arguments Encoded {A} _ _.
Arguments Panic {A}.

(** [w.WriteHeader(code); w.Write([]byte(text))] on a fresh writer. *)
Definition writeText {A} (code : Z) (text : string) : Reply A :=
  Wrote {| header := ∅; cookies := []; status := code;
           body := list_byte_of_string text |}.

(** [s[n:]] on a string: a panic when [n] exceeds the length. *)
Definition sliceFrom (s : string) (n : nat) : option string :=
  if (n <=? String.length s)%nat
  then Some (String.substring n (String.length s - n) s)
  else None.

End admin.

(** ** main.go: the middleware and the session handlers *)

Section Middleware.
Context {S A : Type}.

(** [func authMiddleware(next http.HandlerFunc) http.HandlerFunc]. *)
Definition authMiddleware (next : admin.Request → S → admin.Reply A * S)
    (r : admin.Request) (s : S) : admin.Reply A * S :=
  match admin.Cookie_ r "session_token" with
  | Some value =>
      if negb (String.eqb value "valid_token")
      then (admin.Redirect "/login" 302, s)
      else next r s
  | None => (admin.Redirect "/login" 302, s)
  end.

End Middleware.

(** [main]: a credential taken from the environment, "admin" when the
    variable is unset or empty ([os.Getenv] returns the empty string for
    both). *)
Definition credential (env : string) : string :=
  if String.eqb env "" then "admin" else env.

(** The cookie that [/login] sets. *)
Definition sessionCookie : admin.Cookie :=
  {| admin.Name := "session_token"; admin.Value := "valid_token";
     admin.CookiePath := "/"; admin.MaxAge := 0; admin.HttpOnly := true;
     admin.Secure := false; admin.CookieSameSite := admin.SameSiteLaxMode |}.

Section Session.

(** The embedded file system [staticFiles.ReadFile], and
    [json.NewDecoder(r.Body).Decode(&creds)] giving the user name and the
    password. *)
Variable ReadFile : string → result (list byte).
Variable decodeCreds : list byte → result (string * string).

(** The handler of [/login] in [main]; [adminUsernameEnv] and
    [adminPasswordEnv] are the environment variables ADMIN_USERNAME and
    ADMIN_PASSWORD. *)
Definition loginHandler {A} (adminUsernameEnv adminPasswordEnv : string)
    (r : admin.Request) (log : Log) : admin.Reply A * Log :=
  let adminUsername := credential adminUsernameEnv in
  let adminPassword := credential adminPasswordEnv in
  if String.eqb (admin.Method r) "GET" then
    match ReadFile "static/login.html" with
    | Err e =>
        (admin.Error "Internal server error" 500,
         logLine log ("Error reading embedded login.html: " ++ e))
    | Ok content =>
        (admin.Wrote
           {| admin.header :=
                http.Set_ ∅ "Content-Type" "text/html; charset=utf-8";
              admin.cookies := []; admin.status := 200;
              admin.body := content |},
         log)
    end
  else if String.eqb (admin.Method r) "POST" then
    match decodeCreds (admin.Body r) with
    | Err _ => (admin.Error "Invalid request body" 400, log)
    | Ok (username, password) =>
        if String.eqb username adminUsername &&
           String.eqb password adminPassword
        then
          (admin.Wrote
             {| admin.header := ∅; admin.cookies := [sessionCookie];
                admin.status := 200;
                admin.body :=
                  list_byte_of_string (quoted "{'message': 'Login successful'}") |},
           log)
        else
          (admin.Error (quoted "{'message': 'Invalid credentials'}") 401, log)
    end
  else (admin.Error "Method not allowed" 405, log).

(** [func logoutHandler(w, r)]. *)
Definition logoutHandler {A} (r : admin.Request) : admin.Reply A :=
  admin.Wrote
    {| admin.header := ∅;
       admin.cookies :=
         [{| admin.Name := "session_token"; admin.Value := "";
             admin.CookiePath := "/"; admin.MaxAge := -1;
             admin.HttpOnly := true; admin.Secure := false;
             admin.CookieSameSite := admin.SameSiteLaxMode |}];
       admin.status := 200;
       admin.body := list_byte_of_string (quoted "{'message': 'Logged out'}") |}.

(** The handler of [/] in [main]. *)
Definition rootHandler {A} (r : admin.Request) (log : Log)
  : admin.Reply A * Log :=
  match admin.Cookie_ r "session_token" with
  | Some value =>
      if negb (String.eqb value "valid_token")
      then (admin.Redirect "/login" 302, log)
      else
        match ReadFile "static/index.html" with
        | Err e =>
            (admin.Error "Internal server error" 500,
             logLine log ("Error reading embedded index.html: " ++ e))
        | Ok content =>
            (admin.Wrote
               {| admin.header :=
                    http.Set_ ∅ "Content-Type" "text/html; charset=utf-8";
                  admin.cookies := []; admin.status := 200;
                  admin.body := content |},
             log)
        end
  | None => (admin.Redirect "/login" 302, log)
  end.

End Session.

(** ** main.go: the recording toggle *)

Definition setRecording (g : Globals) (on : bool) : Globals :=
  {| IsRecording := on; requestLogChan := requestLogChan g;
     opLog := opLog g |}.

(** [func startRecordingHandler(w, r)]. *)
Definition startRecordingHandler {A} (r : admin.Request) (g : Globals)
  : admin.Reply A * Globals :=
  if negb (String.eqb (admin.Method r) "POST")
  then (admin.Error "Method not allowed" 405, g)
  else
    (admin.writeText 200 (quoted "{'message': 'Recording started'}"),
     logPrint (setRecording g true) "Recording started.").

(** [func stopRecordingHandler(w, r)]. *)
Definition stopRecordingHandler {A} (r : admin.Request) (g : Globals)
  : admin.Reply A * Globals :=
  if negb (String.eqb (admin.Method r) "POST")
  then (admin.Error "Method not allowed" 405, g)
  else
    (admin.writeText 200 (quoted "{'message': 'Recording stopped'}"),
     logPrint (setRecording g false) "Recording stopped.").

(** [func getRecordingStatusHandler(w, r)]. *)
Definition getRecordingStatusHandler {A} (r : admin.Request) (g : Globals)
  : admin.Reply A * Globals :=
  if negb (String.eqb (admin.Method r) "GET")
  then (admin.Error "Method not allowed" 405, g)
  else
    let status := if IsRecording g then "recording" else "stopped" in
    (admin.Wrote
       {| admin.header := http.Set_ ∅ "Content-Type" "application/json";
          admin.cookies := []; admin.status := 200;
          admin.body :=
            list_byte_of_string
              (quoted "{'status': '" ++ status ++ quoted "'}") |},
     g).

(** ** main.go: one stored exchange *)

(** [db.QueryRow("SELECT ... FROM requests WHERE id = ?", id)]: the row of
    that id, if any. The rows of [DB] are rows as [LogRequest] writes
    them, with a value in every column, so that the scan of a row that
    was found succeeds. *)
Definition QueryRowByID (db : DB) (id : Z) : option RequestLog.t :=
  List.find (λ row, RequestLog.ID row =? id) (rows db).

Module RequestDetail.

(** The anonymous response struct of [getRequestDetail]. *)
Record t := {
  ID : Z;
  Timestamp : Z;
  Method : string;
  URL : string;
  RequestHeaders : string;
  RequestBodySize : Z;
  IsRequestBodyText : bool;
  StatusCode : Z;
  ResponseHeaders : string;
  ResponseBodySize : Z;
  IsResponseBodyText : bool
}.

End RequestDetail.

Section Stored.
Variable Unmarshal : string → option Header.

(** The Content-Type that the two body handlers set. *)
Definition bodyContentType (headersJSON : string) : Header :=
  let contentType := getContentTypeFromHeaders Unmarshal headersJSON in
  if negb (String.eqb contentType "")
  then http.Set_ ∅ "Content-Type" contentType
  else http.Set_ ∅ "Content-Type" "application/octet-stream".

(** [func getRequestDetail(w, r)]; [fault] is an error of the query other
    than [sql.ErrNoRows]. *)
Definition getRequestDetail (fault : option string) (db : DB)
    (r : admin.Request) (log : Log) : admin.Reply RequestDetail.t * Log :=
  match admin.sliceFrom (admin.Path r) (String.length "/api/requests/") with
  | None => (admin.Panic, log)
  | Some idStr =>
      match Atoi idStr with
      | None => (admin.Error "Invalid request ID" 400, log)
      | Some id =>
          match fault with
          | Some e =>
              (admin.Error "Failed to fetch request details" 500,
               logLine log ("Error fetching request details: " ++ e))
          | None =>
              match QueryRowByID db id with
              | None => (admin.Error "Request not found" 404, log)
              | Some req =>
                  (admin.Encoded
                     (http.Set_ ∅ "Content-Type" "application/json")
                     {| RequestDetail.ID := RequestLog.ID req;
                        RequestDetail.Timestamp := RequestLog.Timestamp req;
                        RequestDetail.Method := RequestLog.Method req;
                        RequestDetail.URL := RequestLog.URL req;
                        RequestDetail.RequestHeaders :=
                          RequestLog.RequestHeaders req;
                        RequestDetail.RequestBodySize :=
                          RequestLog.RequestBodySize req;
                        RequestDetail.IsRequestBodyText :=
                          RequestLog.IsRequestBodyText req;
                        RequestDetail.StatusCode := RequestLog.StatusCode req;
                        RequestDetail.ResponseHeaders :=
                          RequestLog.ResponseHeaders req;
                        RequestDetail.ResponseBodySize :=
                          RequestLog.ResponseBodySize req;
                        RequestDetail.IsResponseBodyText :=
                          RequestLog.IsResponseBodyText req |},
                   log)
              end
          end
      end
  end.

(** [func getRequestBodyHandler(w, r)]. *)
Definition getRequestBodyHandler {A} (fault : option string) (db : DB)
    (r : admin.Request) (log : Log) : admin.Reply A * Log :=
  match admin.sliceFrom (admin.Path r)
          (String.length "/api/requests/body/request/") with
  | None => (admin.Panic, log)
  | Some idStr =>
      match Atoi idStr with
      | None => (admin.Error "Invalid request ID" 400, log)
      | Some id =>
          match fault with
          | Some e =>
              (admin.Error "Failed to fetch request body" 500,
               logLine log ("Error fetching request body for ID " ++ Itoa id
                            ++ ": " ++ e))
          | None =>
              match QueryRowByID db id with
              | None => (admin.Error "Request not found" 404, log)
              | Some row =>
                  let reqBody := RequestLog.RequestBody row in
                  let reqHeaders := RequestLog.RequestHeaders row in
                  (admin.Wrote
                     {| admin.header := bodyContentType reqHeaders;
                        admin.cookies := []; admin.status := 200;
                        admin.body := reqBody |},
                   log)
              end
          end
      end
  end.

(** [func getResponseBodyHandler(w, r)]. *)
Definition getResponseBodyHandler {A} (fault : option string) (db : DB)
    (r : admin.Request) (log : Log) : admin.Reply A * Log :=
  match admin.sliceFrom (admin.Path r)
          (String.length "/api/requests/body/response/") with
  | None => (admin.Panic, log)
  | Some idStr =>
      match Atoi idStr with
      | None => (admin.Error "Invalid request ID" 400, log)
      | Some id =>
          match fault with
          | Some e =>
              (admin.Error "Failed to fetch response body" 500,
               logLine log ("Error fetching response body for ID " ++ Itoa id
                            ++ ": " ++ e))
          | None =>
              match QueryRowByID db id with
              | None => (admin.Error "Request not found" 404, log)
              | Some row =>
                  let respBody := RequestLog.ResponseBody row in
                  let respHeaders := RequestLog.ResponseHeaders row in
                  (admin.Wrote
                     {| admin.header := bodyContentType respHeaders;
                        admin.cookies := []; admin.status := 200;
                        admin.body := respBody |},
                   log)
              end
          end
      end
  end.

End Stored.

(** ** har.go: the HAR export *)

(** The HAR types, with the fields that [exportRequestsToHAR] sets; the
    other fields keep their zero value and are left out. *)

Module HARNameValuePair.
Record t := { Name : string; Value : string }.
End HARNameValuePair.

Module HARCookie.
Record t := { Name : string; Value : string }.
End HARCookie.

Module HARPostData.
Record t := { MimeType : string; Text : string }.
End HARPostData.

Module HARContent.
Record t := { Size : Z; MimeType : string; Text : string }.
End HARContent.

Module HARTimings.
Record t := { Send : Z; Wait : Z; Receive : Z }.
End HARTimings.

Module HARRequest.
Record t := {
  Method : string;
  URL : string;
  HTTPVersion : string;
  Cookies : list HARCookie.t;
  Headers : list HARNameValuePair.t;
  QueryString : list HARNameValuePair.t;
  PostData : option HARPostData.t;
  HeadersSize : Z;
  BodySize : Z
}.
End HARRequest.

Module HARResponse.
Record t := {
  Status : Z;
  StatusText : string;
  HTTPVersion : string;
  Cookies : list HARCookie.t;
  Headers : list HARNameValuePair.t;
  Content : HARContent.t;
  RedirectURL : string;
  HeadersSize : Z;
  BodySize : Z
}.
End HARResponse.

Module HAREntry.
Record t := {
  Pageref : string;
  StartedDateTime : Z;
  Time : Z;
  Request : HARRequest.t;
  Response : HARResponse.t;
  Timings : HARTimings.t
}.
End HAREntry.

Module HARPage.
Record t := { StartedDateTime : Z; ID : string; Title : string }.
End HARPage.

Module HARCreator.
Record t := { Name : string; Version : string }.
End HARCreator.

Module HARLog.
Record t := {
  Version : string;
  Creator : HARCreator.t;
  Entries : list HAREntry.t;
  Pages : list HARPage.t
}.
End HARLog.

Module HAR.
Record t := { Log : HARLog.t }.
End HAR.

(** The two nested loops [for name, values := range m { for _, value :=
    range values { append } }], over the keys in the order [kvs]. *)
Definition nameValuePairs (kvs : list (string * list string))
  : list HARNameValuePair.t :=
  List.flat_map
    (λ kv, List.map (λ value, {| HARNameValuePair.Name := fst kv;
                                 HARNameValuePair.Value := value |})
                    (snd kv))
    kvs.

(** ORDER BY timestamp: on the texts that the driver has stored in the
    column ([timestampText], as for the list query), byte by byte. *)
Definition olderFirst (timestampText : Z → string) (a b : RequestLog.t)
  : Prop :=
  String.leb (timestampText (RequestLog.Timestamp a))
             (timestampText (RequestLog.Timestamp b)) = true.

Global Instance olderFirst_dec timestampText a b
  : Decision (olderFirst timestampText a b).
Proof. unfold olderFirst. apply _. Defined.

Section ExportHAR.

(** [json.Unmarshal] into an [http.Header], with its error; the order in
    which the n-th [range] statement executed visits a map (Go leaves it
    unspecified); the query values [u.Query()] of a raw query;
    [http.StatusText]; [uuid.New().String()] and [time.Now()]; the text
    stored in the column [timestamp] for a time value. *)
Variable Unmarshal : string → result Header.
Variable rangeOrder : nat → Header → list (string * list string).
Variable ParseQuery : string → Header.
Variable StatusText : Z → string.
Variable pageID : string.
Variable now : Z.
Variable timestampText : Z → string.

(** The body of the loop of [exportRequestsToHAR] for the request at index
    [i]; a header map that does not parse ends the export. *)
Definition harEntry (i : nat) (req : RequestLog.t) : result HAREntry.t :=
  match Unmarshal (RequestLog.RequestHeaders req) with
  | Err e =>
      Err ("failed to parse request headers for request "
           ++ Itoa (RequestLog.ID req) ++ ": " ++ e)
  | Ok reqHeaders =>
      match Unmarshal (RequestLog.ResponseHeaders req) with
      | Err e =>
          Err ("failed to parse response headers for request "
               ++ Itoa (RequestLog.ID req) ++ ": " ++ e)
      | Ok respHeaders =>
          let harReqHeaders :=
            nameValuePairs (rangeOrder (3 * i) reqHeaders) in
          let harRespHeaders :=
            nameValuePairs (rangeOrder (3 * i + 1) respHeaders) in
          let queryString :=
            match url.Parse (RequestLog.URL req) with
            | Ok parsedURL =>
                nameValuePairs
                  (rangeOrder (3 * i + 2)
                     (ParseQuery (url.RawQuery parsedURL)))
            | Err _ => []
            end in
          let postData :=
            if 0 <? len (RequestLog.RequestBody req) then
              let mimeType := "application/octet-stream" in
              let contentType := http.Get reqHeaders "Content-Type" in
              let mimeType :=
                if negb (String.eqb contentType "") then contentType
                else mimeType in
              Some {| HARPostData.MimeType := mimeType;
                      HARPostData.Text :=
                        string_of_list_byte (RequestLog.RequestBody req) |}
            else None in
          let mimeType := "application/octet-stream" in
          let contentType := http.Get respHeaders "Content-Type" in
          let mimeType :=
            if negb (String.eqb contentType "") then contentType
            else mimeType in
          let content :=
            {| HARContent.Size := len (RequestLog.ResponseBody req);
               HARContent.MimeType := mimeType;
               HARContent.Text :=
                 string_of_list_byte (RequestLog.ResponseBody req) |} in
          Ok {| HAREntry.Pageref := pageID;
                HAREntry.StartedDateTime := RequestLog.Timestamp req;
                HAREntry.Time := 0;
                HAREntry.Request :=
                  {| HARRequest.Method := RequestLog.Method req;
                     HARRequest.URL := RequestLog.URL req;
                     HARRequest.HTTPVersion := "HTTP/1.1";
                     HARRequest.Cookies := [];
                     HARRequest.Headers := harReqHeaders;
                     HARRequest.QueryString := queryString;
                     HARRequest.PostData := postData;
                     HARRequest.HeadersSize :=
                       Z.of_nat (String.length (RequestLog.RequestHeaders req));
                     HARRequest.BodySize :=
                       len (RequestLog.RequestBody req) |};
                HAREntry.Response :=
                  {| HARResponse.Status := RequestLog.StatusCode req;
                     HARResponse.StatusText :=
                       StatusText (RequestLog.StatusCode req);
                     HARResponse.HTTPVersion := "HTTP/1.1";
                     HARResponse.Cookies := [];
                     HARResponse.Headers := harRespHeaders;
                     HARResponse.Content := content;
                     HARResponse.RedirectURL := "";
                     HARResponse.HeadersSize :=
                       Z.of_nat (String.length (RequestLog.ResponseHeaders req));
                     HARResponse.BodySize :=
                       len (RequestLog.ResponseBody req) |};
                HAREntry.Timings :=
                  {| HARTimings.Send := 0; HARTimings.Wait := 0;
                     HARTimings.Receive := 0 |} |}
      end
  end.

(** The loop [for i, req := range requests], from index [i] on. *)
Fixpoint harEntries (i : nat) (requests : list RequestLog.t)
  : result (list HAREntry.t) :=
  match requests with
  | [] => Ok []
  | req :: rest =>
      match harEntry i req with
      | Err e => Err e
      | Ok entry =>
          match harEntries (S i) rest with
          | Err e => Err e
          | Ok entries => Ok (entry :: entries)
          end
      end
  end.

(** [func exportRequestsToHAR(requests []RequestLog)], which returns the
    HAR value or an error. *)
Definition exportRequestsToHAR (requests : list RequestLog.t) : result HAR.t :=
  match harEntries 0 requests with
  | Err e => Err e
  | Ok entries =>
      Ok {| HAR.Log :=
              {| HARLog.Version := "1.2";
                 HARLog.Creator := {| HARCreator.Name := "dGateway";
                                      HARCreator.Version := "1.0" |};
                 HARLog.Entries := entries;
                 HARLog.Pages :=
                   [{| HARPage.StartedDateTime := now;
                       HARPage.ID := pageID;
                       HARPage.Title := "dGateway Export" |}] |} |}
  end.

(** The nine selected columns, scanned into a fresh [RequestLog]. *)
Definition scanExportRow (row : RequestLog.t) : RequestLog.t :=
  {| RequestLog.ID := RequestLog.ID row;
     RequestLog.Timestamp := RequestLog.Timestamp row;
     RequestLog.Method := RequestLog.Method row;
     RequestLog.URL := RequestLog.URL row;
     RequestLog.RequestHeaders := RequestLog.RequestHeaders row;
     RequestLog.RequestBody := RequestLog.RequestBody row;
     RequestLog.RequestBodySize := 0;
     RequestLog.IsRequestBodyText := false;
     RequestLog.StatusCode := RequestLog.StatusCode row;
     RequestLog.ResponseHeaders := RequestLog.ResponseHeaders row;
     RequestLog.ResponseBody := RequestLog.ResponseBody row;
     RequestLog.ResponseBodySize := 0;
     RequestLog.IsResponseBodyText := false |}.

(** The loop [for rows.Next()] of [exportHARHandler]: a row whose scan
    fails ([scanFault] at its position) is logged and skipped. *)
Fixpoint scanExportRows (scanFault : nat → option string)
    (rows : list RequestLog.t) (log : Log) : list RequestLog.t * Log :=
  match rows with
  | [] => ([], log)
  | row :: rest =>
      match scanFault O with
      | Some e =>
          scanExportRows (λ i, scanFault (S i)) rest
            (logLine log ("Error scanning request: " ++ e))
      | None =>
          let '(requests, log) :=
            scanExportRows (λ i, scanFault (S i)) rest log in
          (scanExportRow row :: requests, log)
      end
  end.

(** [func exportHARHandler(w, r)]; [queryFault] is an error of
    [db.Query]. The encoding of the HAR value is taken to succeed. *)
Definition exportHARHandler (queryFault : option string)
    (scanFault : nat → option string) (db : DB) (r : admin.Request)
    (log : Log) : admin.Reply HAR.t * Log :=
  if negb (String.eqb (admin.Method r) "GET")
  then (admin.Error "Method not allowed" 405, log)
  else
    match queryFault with
    | Some e =>
        (admin.Error "Failed to fetch requests" 500,
         logLine log ("Error fetching requests: " ++ e))
    | None =>
        let '(requests, log) :=
          scanExportRows scanFault
            (merge_sort (olderFirst timestampText) (rows db)) log in
        match exportRequestsToHAR requests with
        | Err e =>
            (admin.Error "Failed to export requests to HAR format" 500,
             logLine log ("Error exporting to HAR: " ++ e))
        | Ok har =>
            (admin.Encoded
               (http.Set_
                  (http.Set_ ∅ "Content-Type" "application/json")
                  "Content-Disposition"
                  (quoted "attachment; filename='dgateway-export.har'"))
               har,
             log)
        end
    end.

End ExportHAR.

(** ** net/http and net/textproto: building the replayed request *)

Module httpreq.

(** The token characters of RFC 7230 ([httpguts.IsTokenRune],
    [validHeaderFieldByte]). *)
Definition isTokenByte (c : ascii) : bool :=
  url.isAlnum c || url.oneOf "!#$%&'*+-.^_`|~" c.

(** [func validMethod(method string) bool]. *)
Definition validMethod (method : string) : bool :=
  (0 <? String.length method)%nat &&
  forallb isTokenByte (list_ascii_of_string method).

(** The second loop of [canonicalMIMEHeaderKey]: a letter is upper case
    at the start and after a hyphen, lower case elsewhere. *)
Fixpoint canonicalLoop (upper : bool) (a : list ascii) : list ascii :=
  match a with
  | [] => []
  | c :: rest =>
      let n := N_of_ascii c in
      let c' :=
        if upper && ((97 <=? n) && (n <=? 122))%N then ascii_of_N (n - 32)
        else if negb upper && ((65 <=? n) && (n <=? 90))%N
             then ascii_of_N (n + 32)
             else c in
      c' :: canonicalLoop (Ascii.eqb c' "-") rest
  end.

(** [textproto.CanonicalMIMEHeaderKey(s)]: a key with a byte that is not
    a token character is returned as it is. *)
Definition CanonicalMIMEHeaderKey (s : string) : string :=
  if forallb isTokenByte (list_ascii_of_string s)
  then string_of_list_ascii (canonicalLoop true (list_ascii_of_string s))
  else s.

(** [strings.LastIndex(s, c)] for a one-byte [c]. *)
Fixpoint lastIndexFrom (s : string) (c : ascii) (i found : Z) : Z :=
  match s with
  | EmptyString => found
  | String x s' =>
      lastIndexFrom s' c (i + 1) (if Ascii.eqb x c then i else found)
  end.

Definition LastIndex (s : string) (c : ascii) : Z := lastIndexFrom s c 0 (-1).

(** [func hasPort(s string) bool] and
    [func removeEmptyPort(host string) string]. *)
Definition hasPort (s : string) : bool := LastIndex s "]" <? LastIndex s ":".

Definition removeEmptyPort (host : string) : string :=
  if hasPort host then
    match GoStrings2.TrimLast host ":" with
    | Some trimmed => trimmed
    | None => host
    end
  else host.

(** The fields of the [*http.Request] that [http.NewRequest] builds. *)
Record t := {
  Method : string;
  URL : url.URL;
  Host : string;
  Header : Header;
  Body : list byte;
  ContentLength : Z
}.

(** [http.NewRequest(method, url, bytes.NewBuffer(body))]. The text of
    the error for a bad method shows the method between double quotes
    (Go formats it with the verb q, which also escapes control
    characters). *)
Definition NewRequest (method rawURL : string) (body : list byte) : result t :=
  let method := if String.eqb method "" then "GET" else method in
  if negb (validMethod method)
  then Err ("net/http: invalid method " ++ quoted "'" ++ method ++ quoted "'")
  else
    match url.Parse rawURL with
    | Err e => Err e
    | Ok u =>
        let u := url.withAuthority u (url.User u)
                   (removeEmptyPort (url.Host u)) in
        Ok {| Method := method; URL := u; Host := url.Host u; Header := ∅;
              Body := body; ContentLength := len body |}
    end.

(** [req.Header.Set(key, value)]. *)
Definition setHeader (req : t) (key value : string) : t :=
  {| Method := Method req; URL := URL req; Host := Host req;
     Header := <[CanonicalMIMEHeaderKey key := [value]]> (Header req);
     Body := Body req; ContentLength := ContentLength req |}.

End httpreq.

(** ** main.go: the replay engine *)

Module ReplayData.
(** The struct [replayData]. *)
Record t := {
  Method : string;
  URL : string;
  Headers : Header;
  Body : string
}.
End ReplayData.

Module Upstream.
(** The fields of the [*http.Response] of the replayed request that the
    program reads. *)
Record t := { StatusCode : Z; Header : Header; Body : io.Body }.
End Upstream.

Module ReplayResult.
(** The struct [result]. *)
Record t := { StatusCode : Z; Headers : Header; Body : string }.
End ReplayResult.

Section Replay.
Context {codec : GzipLib}.

(** The decoder of the request body with [DisallowUnknownFields]; the
    order in which [range replayData.Headers] visits the map; and
    [client.Do], the network. *)
Variable decodeReplay : list byte → result ReplayData.t.
Variable rangeOrder : Header → list (string * list string).
Variable Do : httpreq.t → result Upstream.t.

(** The loop "Add headers". *)
Definition addHeaders (replayReq : httpreq.t) (headers : Header) : httpreq.t :=
  fold_left
    (λ req kv, httpreq.setHeader req (fst kv) (GoStrings.Join (snd kv) ", "))
    (rangeOrder headers) replayReq.

(** [func replayRequest(w, r)]. [sent] lists the requests handed to
    [client.Do] so far. *)
Definition replayRequest (targetFlag : option string) (r : admin.Request)
    (log : Log) (sent : list httpreq.t)
  : admin.Reply ReplayResult.t * Log * list httpreq.t :=
  if negb (String.eqb (admin.Method r) "POST")
  then (admin.Error "Method not allowed" 405, log, sent)
  else
    match decodeReplay (admin.Body r) with
    | Err e =>
        (admin.Error "Invalid request body" 400,
         logLine log ("Error decoding replay data: " ++ e), sent)
    | Ok replayData =>
        let '(target, lines) :=
          replayFinalURL targetFlag (ReplayData.URL replayData) in
        let log := (log ++ lines)%list in
        match target with
        | replayError msg code => (admin.Error msg code, log, sent)
        | replayTo finalURL =>
            match httpreq.NewRequest (ReplayData.Method replayData) finalURL
                    (list_byte_of_string (ReplayData.Body replayData)) with
            | Err e =>
                (admin.Error "Failed to create replay request" 500,
                 logLine log ("Error creating replay request to " ++ finalURL
                              ++ ": " ++ e),
                 sent)
            | Ok replayReq =>
                let replayReq :=
                  addHeaders replayReq (ReplayData.Headers replayData) in
                let sent := (sent ++ [replayReq])%list in
                match Do replayReq with
                | Err e =>
                    (admin.Error "Failed to execute replayed request" 500,
                     logLine log ("Error executing replayed request to "
                                  ++ finalURL ++ ": " ++ e),
                     sent)
                | Ok resp =>
                    let '(respBody, err, _) :=
                      io.ReadAll (Upstream.Body resp) in
                    match err with
                    | Some e =>
                        (admin.Error "Failed to read replayed response body" 500,
                         logLine log
                           ("Error reading replayed response body from "
                            ++ finalURL ++ ": " ++ e),
                         sent)
                    | None =>
                        let lines :=
                          snd (replayBodyBytes finalURL (Upstream.Header resp)
                                 respBody) in
                        let finalRespBody :=
                          replayFinalRespBody finalURL (Upstream.Header resp)
                            respBody in
                        (admin.Encoded
                           (http.Set_ ∅ "Content-Type" "application/json")
                           {| ReplayResult.StatusCode :=
                                Upstream.StatusCode resp;
                              ReplayResult.Headers := Upstream.Header resp;
                              ReplayResult.Body := finalRespBody |},
                         (log ++ lines)%list, sent)
                    end
                end
            end
        end
    end.

End Replay.

(* ===================================================================== *)
(** * Part II: specification-side definitions                             *)
(* ===================================================================== *)

(** ** The content classifier as the specification words it *)

Module ClassifierSpec.

Inductive kind := text | binary.

(** Horizontal tab, line feed, carriage return, or printable ASCII
    [0x20, 0x7E]. *)
Definition printable (b : byte) : bool :=
  match Byte.to_N b with
  | 9%N | 10%N | 13%N => true
  | n => (32 <=? n)%N && (n <=? 126)%N
  end.

(** At most the first 512 bytes. *)
Definition sample (b : list byte) : list byte := take 512 b.

(** The printable fraction of the sample, as an exact rational. *)
Definition printableFraction (b : list byte) : Q :=
  Qmake (Z.of_nat (length (filter (λ x, printable x = true) (sample b))))
        (Pos.of_nat (length (sample b))).

(** The known textual family: text/*, JSON, XML, JavaScript, XHTML. *)
Definition textualFamily (mediaType : string) : bool :=
  GoStrings.HasPrefix mediaType "text/" ||
  existsb (GoStrings.Contains mediaType)
    ["application/json"; "application/xml"; "application/javascript";
     "application/xhtml+xml"].

(** The policy, in order. *)
Definition classify (b : list byte) (declaredMediaType : string) : kind :=
  if textualFamily declaredMediaType then text
  else match b with
       | [] => text
       | _ => if Qle_bool (printableFraction b) (7 # 10) then binary else text
       end.

Definition isText (k : kind) : bool :=
  match k with text => true | binary => false end.

End ClassifierSpec.

(** ** Agreement of the binary64 test with the exact fraction *)

(** The comparison of [isTextData] on a count [t] out of [n] sampled. *)
Definition ratioExceeds (t n : Z) : bool :=
  PrimFloat.ltb f0_7 (PrimFloat.div (float64 t) (float64 n)).

Definition agreesAt (t n : Z) : bool :=
  Bool.eqb (ratioExceeds t n) (7 * n <? 10 * t).

Fixpoint agreesUpToCount (n : Z) (k : nat) : bool :=
  agreesAt (Z.of_nat k) n &&
  match k with O => true | S k' => agreesUpToCount n k' end.

Fixpoint agreesUpToSize (k : nat) : bool :=
  match k with
  | O => true
  | S k' => agreesUpToCount (Z.of_nat k) k && agreesUpToSize k'
  end.

(** ** A reference gzip decoder for evaluation

    The properties below hold for every decoder ([GzipLib]). To evaluate
    them on concrete byte streams, this instance decodes the plainest gzip
    members of RFC 1952: a ten-byte header without optional fields, stored
    (uncompressed) deflate blocks, the CRC-32 and length trailer, and
    nothing after it. On such a stream it returns what [compress/gzip]
    returns; a stream with a bad magic number, a truncated stream and a
    stream with a wrong trailer are rejected as [compress/gzip] rejects
    them. Streams with header options, Huffman-coded blocks or further
    members are outside its domain and are reported as unsupported. *)

Module GzipStored.

Definition byteZ (b : byte) : Z := Z.of_N (Byte.to_N b).

(** [crc32.ChecksumIEEE]: the reflected CRC-32 with polynomial
    [0xEDB88320], bit by bit. *)
Definition crcShift (crc : Z) : Z :=
  if Z.testbit crc 0
  then Z.lxor (Z.shiftr crc 1) 0xEDB88320
  else Z.shiftr crc 1.

Definition crcByte (crc : Z) (b : byte) : Z :=
  Nat.iter 8 crcShift (Z.lxor crc (byteZ b)).

Definition ChecksumIEEE (data : list byte) : Z :=
  Z.lxor (fold_left crcByte data 0xFFFFFFFF) 0xFFFFFFFF.

(** A little-endian unsigned integer. *)
Fixpoint le (bs : list byte) : Z :=
  match bs with
  | [] => 0
  | b :: rest => byteZ b + 256 * le rest
  end.

(** The reader after the header: the bytes that follow it. *)
Definition reader := list byte.

Definition newReader (data : list byte) : result reader :=
  match data with
  | [] => Err "EOF"
  | id1 :: id2 :: cm :: flg :: _ :: _ :: _ :: _ :: _ :: _ :: rest =>
      if negb ((byteZ id1 =? 0x1f) && (byteZ id2 =? 0x8b) && (byteZ cm =? 8))
      then Err "gzip: invalid header"
      else if negb (byteZ flg =? 0)
      then Err "unsupported: optional header fields"
      else Ok rest
  | _ => Err "unexpected EOF"
  end.

(** The stored blocks: the bytes inflated so far and either the rest of
    the stream after the final block or the error. [fuel] bounds the
    number of blocks. *)
Fixpoint inflateStored (fuel : nat) (s : list byte) (out : list byte)
  : list byte * result (list byte) :=
  match fuel with
  | O => (out, Err "unexpected EOF")
  | S fuel' =>
      match s with
      | hd :: l0 :: l1 :: n0 :: n1 :: rest =>
          if Z.land (Z.shiftr (byteZ hd) 1) 3 =? 3
          then (out, Err "flate: corrupt input")
          else if negb (Z.land (Z.shiftr (byteZ hd) 1) 3 =? 0)
          then (out, Err "unsupported: compressed block")
          else if negb (le [n0; n1] =? Z.lxor (le [l0; l1]) 0xFFFF)
          then (out, Err "flate: corrupt input")
          else
            let n := Z.to_nat (le [l0; l1]) in
            if (length rest <? n)%nat
            then ((out ++ rest)%list, Err "unexpected EOF")
            else
              let out := (out ++ take n rest)%list in
              if Z.testbit (byteZ hd) 0
              then (out, Ok (drop n rest))
              else inflateStored fuel' (drop n rest) out
      | [] => (out, Err "unexpected EOF")
      | hd :: _ =>
          if Z.land (Z.shiftr (byteZ hd) 1) 3 =? 3
          then (out, Err "flate: corrupt input")
          else if negb (Z.land (Z.shiftr (byteZ hd) 1) 3 =? 0)
          then (out, Err "unsupported: compressed block")
          else (out, Err "unexpected EOF")
      end
  end.

Definition readAll (r : reader) : list byte * option string :=
  match inflateStored (S (length r)) r [] with
  | (out, Err e) => (out, Some e)
  | (out, Ok trailer) =>
      match trailer with
      | [c0; c1; c2; c3; s0; s1; s2; s3] =>
          if (le [c0; c1; c2; c3] =? ChecksumIEEE out) &&
             (le [s0; s1; s2; s3] =? len out mod 2 ^ 32)
          then (out, None)
          else (out, Some "gzip: invalid checksum")
      | _ :: _ :: _ :: _ :: _ :: _ :: _ :: _ :: _ :: _ =>
          (out, Some "unsupported: data after the first member")
      | _ => (out, Some "unexpected EOF")
      end
  end.

Definition lib : GzipLib :=
  {| gzipReader := reader; NewReader := newReader; ReadAllGzip := readAll |}.

(** The gzip member holding [data] in one final stored block, as a
    compressor at level 0 writes it (for [data] shorter than 65536). *)
Definition store (data : list byte) : list byte :=
  let byteOf (z : Z) : byte :=
    match Byte.of_N (Z.to_N (z mod 256)) with Some b => b | None => Byte.x00 end in
  let le16 z := [byteOf z; byteOf (z / 256)] in
  let le32 z := [byteOf z; byteOf (z / 256); byteOf (z / 65536);
                 byteOf (z / 16777216)] in
  ([Byte.x1f; Byte.x8b; Byte.x08; Byte.x00; Byte.x00; Byte.x00; Byte.x00;
    Byte.x00; Byte.x00; Byte.xff; Byte.x01] ++
   le16 (len data) ++ le16 (Z.lxor (len data) 0xFFFF) ++ data ++
   le32 (ChecksumIEEE data) ++ le32 (len data))%list.

End GzipStored.

(** ** Concrete exchanges for evaluation *)

Module Sample.

(** Replaces apostrophes by double quotes, to write JSON text. *)
Definition dq (s : string) : string :=
  string_of_list_ascii
    (List.map (λ c, if Ascii.eqb c "'" then json.quote else c)
              (list_ascii_of_string s)).

Definition hi : list byte := list_byte_of_string "hi".

(** The 25-byte gzip member that inflates to "hi". *)
Definition gzBody : list byte := GzipStored.store hi.

Definition gzHeader : Header :=
  <["Content-Encoding" := ["gzip"]]>
    (<["Content-Length" := ["25"]]> (<["Content-Type" := ["text/plain"]]> ∅)).

(** A POST whose body is gzip-encoded. *)
Definition gzRequest : Request.t :=
  {| Request.Method := "POST"; Request.URL := "/upload";
     Request.Header := gzHeader;
     Request.Body := {| io.unread := gzBody; io.fault := None |};
     Request.Ctx := None |}.

(** The record [ServeHTTP] attaches to a bodyless GET of "/x". *)
Definition getLog : RequestLog.t :=
  {| RequestLog.ID := 0; RequestLog.Timestamp := 1000;
     RequestLog.Method := "GET"; RequestLog.URL := "/x";
     RequestLog.RequestHeaders := "{}"; RequestLog.RequestBody := [];
     RequestLog.RequestBodySize := 0; RequestLog.IsRequestBodyText := false;
     RequestLog.StatusCode := 0; RequestLog.ResponseHeaders := "";
     RequestLog.ResponseBody := []; RequestLog.ResponseBodySize := 0;
     RequestLog.IsResponseBodyText := false |}.

Definition getRequest : Request.t :=
  {| Request.Method := "GET"; Request.URL := "/x"; Request.Header := ∅;
     Request.Body := io.NopCloser []; Request.Ctx := Some getLog |}.

(** An upstream answer that is gzip-encoded and well formed. *)
Definition gzResponse : Response.t :=
  {| Response.StatusCode := 200; Response.Header := gzHeader;
     Response.Body := {| io.unread := gzBody; io.fault := None |};
     Response.Request := getRequest |}.

(** An upstream answer that claims gzip but is not. *)
Definition badBody : list byte := list_byte_of_string "plainly not gzip".

Definition badResponse : Response.t :=
  {| Response.StatusCode := 200; Response.Header := gzHeader;
     Response.Body := {| io.unread := badBody; io.fault := None |};
     Response.Request := getRequest |}.

End Sample.

(** ** The record candidates, spelled out *)

(** The record [ServeHTTP] creates for request [r] at time [now] when it
    stores [body] as the request body. *)
Definition candidate (now : Z) (r : Request.t) (body : list byte)
  : RequestLog.t :=
  {| RequestLog.ID := 0;
     RequestLog.Timestamp := now;
     RequestLog.Method := Request.Method r;
     RequestLog.URL := Request.URL r;
     RequestLog.RequestHeaders := HeadersToJSON (Request.Header r);
     RequestLog.RequestBody := body;
     RequestLog.RequestBodySize := 0;
     RequestLog.IsRequestBodyText := false;
     RequestLog.StatusCode := 0;
     RequestLog.ResponseHeaders := "";
     RequestLog.ResponseBody := [];
     RequestLog.ResponseBodySize := 0;
     RequestLog.IsResponseBodyText := false |}.

(** The record as [ModifyResponse] completes it for response [resp] when
    it stores [body] as the response body. *)
Definition completed (reqLog : RequestLog.t) (resp : Response.t)
    (body : list byte) : RequestLog.t :=
  RequestLog.setResponseBody
    (RequestLog.setStatusAndHeaders reqLog (Response.StatusCode resp)
       (HeadersToJSON (Response.Header resp)))
    body.

(** Two records that agree on every field but the request body. *)
Definition sameButRequestBody (a b : RequestLog.t) : Prop :=
  RequestLog.ID a = RequestLog.ID b ∧
  RequestLog.Timestamp a = RequestLog.Timestamp b ∧
  RequestLog.Method a = RequestLog.Method b ∧
  RequestLog.URL a = RequestLog.URL b ∧
  RequestLog.RequestHeaders a = RequestLog.RequestHeaders b ∧
  RequestLog.RequestBodySize a = RequestLog.RequestBodySize b ∧
  RequestLog.IsRequestBodyText a = RequestLog.IsRequestBodyText b ∧
  RequestLog.StatusCode a = RequestLog.StatusCode b ∧
  RequestLog.ResponseHeaders a = RequestLog.ResponseHeaders b ∧
  RequestLog.ResponseBody a = RequestLog.ResponseBody b ∧
  RequestLog.ResponseBodySize a = RequestLog.ResponseBodySize b ∧
  RequestLog.IsResponseBodyText a = RequestLog.IsResponseBodyText b.

(** ** The rows the consumer writes, spelled out *)

(** The rows inserted for [recs], in order, after row id [id]. *)
Fixpoint persisted (Unmarshal : string → option Header) (id : Z)
    (recs : list RequestLog.t) : list RequestLog.t :=
  match recs with
  | [] => []
  | r :: rest =>
      insertedRow (id + 1) (populate Unmarshal r)
        :: persisted Unmarshal (id + 1) rest
  end.

(** No insert fails. *)
Definition noFault : nat → option InsertFault := λ _, None.

(** The room left in the channel, as a number of records. *)
Definition room (g : Globals) : nat :=
  Z.to_nat (chan.capacity (requestLogChan g)
            - len (chan.buffer (requestLogChan g))).

(** ** Outcomes of a migration run, for stating its properties *)

Module MigSpec.

(** [Q] holds of the value and state if the run goes on, [E] of the state
    if it ends the process. *)
Definition post {A} (r : Mig.Run A) (Q : A → Mig.State → Prop)
    (E : Mig.State → Prop) : Prop :=
  match r with
  | Mig.Ret a s => Q a s
  | Mig.Exit _ s => E s
  end.

(** The statements that may occur between BEGIN and COMMIT. *)
Definition inTx (st : Mig.Stmt) : Prop :=
  match st with
  | Mig.TableInfo _ | Mig.AlterAdd _ _ _ => True
  | _ => False
  end.

(** The columns the table has once it exists. *)
Definition columnsOf (c : option (list string)) : list string :=
  match c with None => Mig.baseColumns | Some cols => cols end.

(** All four columns of the migration are there, by name. *)
Definition migrated (cols : list string) : Prop :=
  ∀ c, c ∈ Mig.newColumns → Mig.columnExists cols c = true.

(** The state inside the transaction of a run that started on a table
    with columns [cols0]: [cols] is the column list the transaction sees
    and [body] the statements sent since BEGIN. *)
Definition inTransaction (cols0 : list string) (s : Mig.State)
    (cols : list string) (body : list Mig.Stmt) : Prop :=
  Mig.view s = Some (Some cols) ∧
  Mig.committed s = Some cols0 ∧
  Mig.trace s = ([Mig.Open; Mig.CreateTable; Mig.Begin] ++ body)%list ∧
  Forall inTx body ∧
  (∀ x, Mig.columnExists cols0 x = true → Mig.columnExists cols x = true) ∧
  (migrated cols0 → cols = cols0 ∧ List.filter Mig.isAlter body = []).

(** The state of a run that ended the process: nothing of the
    transaction is committed. *)
Definition aborted (c0 : option (list string)) (s : Mig.State) : Prop :=
  Mig.view s = None ∧
  (Mig.committed s = c0 ∨ Mig.committed s = Some (columnsOf c0)) ∧
  (migrated (columnsOf c0) → Mig.alterations s = []).

(** The state of a run that completed. *)
Definition completedRun (c0 : option (list string)) (s : Mig.State) : Prop :=
  ∃ cols body,
    Mig.committed s = Some cols ∧ Mig.view s = None ∧
    migrated cols ∧
    (∀ x, Mig.columnExists (columnsOf c0) x = true →
          Mig.columnExists cols x = true) ∧
    Mig.trace s =
      ([Mig.Open; Mig.CreateTable; Mig.Begin] ++ body ++
       [Mig.Commit; Mig.JournalWAL])%list ∧
    Forall inTx body ∧
    (migrated (columnsOf c0) → cols = columnsOf c0 ∧ Mig.alterations s = []).

End MigSpec.

(** ** The list query as the specification words it *)

Module ListSpec.

(** Clamping to an interval. *)
Definition clamp (lo hi x : Z) : Z := Z.max lo (Z.min hi x).

(** The page size the handler uses for a requested [page_size]: the
    request if it is a number from 1 to 100, the default 50 otherwise. *)
Definition effectivePageSize (requested : string) : Z :=
  match Atoi requested with
  | Some ps => if (1 <=? ps) && (ps <=? 100) then ps else 50
  | None => 50
  end.

(** The page the handler uses: the request if it is a positive number,
    the first page otherwise. *)
Definition effectivePage (requested : string) : Z :=
  match Atoi requested with
  | Some p => if 1 <=? p then p else 1
  | None => 1
  end.

Section Filters.
Variable like : string → string → bool.
Variable compareTimestamp : Z → string → comparison.
Variable timestampText : Z → string.

(** The rows selected by the URL and date filters of the request. *)
Definition matches (p : ListRequests.Params) (row : RequestLog.t) : bool :=
  (if String.eqb (ListRequests.url p) "" then true
   else like ("%" ++ ListRequests.url p ++ "%") (RequestLog.URL row)) &&
  (if String.eqb (ListRequests.start_date p) "" then true
   else match compareTimestamp (RequestLog.Timestamp row)
                (ListRequests.start_date p ++ " 00:00:00") with
        | Lt => false
        | _ => true
        end) &&
  (if String.eqb (ListRequests.end_date p) "" then true
   else match compareTimestamp (RequestLog.Timestamp row)
                (ListRequests.end_date p ++ " 23:59:59") with
        | Gt => false
        | _ => true
        end).

(** The matching rows in the order of the engine: by stored timestamp
    text, descending. *)
Definition listing (db : DB) (p : ListRequests.Params) : list RequestLog.t :=
  merge_sort (sqlite.newerFirst timestampText)
    (List.filter (matches p) (rows db)).

(** The page of the listing that starts after [offset] rows and holds at
    most [pageSize]. *)
Definition pageRows (db : DB) (p : ListRequests.Params) (offset pageSize : Z)
  : list RequestLog.t :=
  take (Z.to_nat pageSize) (drop (Z.to_nat offset) (listing db p)).

End Filters.

(** The rows of a result set whose scan does not fail. *)
Fixpoint surviving {A} (scanFault : nat → option string) (rows : list A)
  : list A :=
  match rows with
  | [] => []
  | row :: rest =>
      match scanFault O with
      | Some _ => surviving (λ i, scanFault (S i)) rest
      | None => row :: surviving (λ i, scanFault (S i)) rest
      end
  end.

(** The lines that the failed scans of a result set of [n] rows write. *)
Fixpoint scanLines (scanFault : nat → option string) (n : nat) : list string :=
  match n with
  | O => []
  | S n' =>
      match scanFault O with
      | Some e =>
          ("Error scanning request: " ++ e)
            :: scanLines (λ i, scanFault (S i)) n'
      | None => scanLines (λ i, scanFault (S i)) n'
      end
  end.

(** No scan fails. *)
Definition noScanFault : nat → option string := λ _, None.

(** The stored texts of the rows of a table are ordered as their
    instants. *)
Definition textsFollowInstants (timestampText : Z → string) (db : DB) : Prop :=
  ∀ a b, a ∈ rows db → b ∈ rows db →
         RequestLog.Timestamp a < RequestLog.Timestamp b →
         String.leb (timestampText (RequestLog.Timestamp b))
                    (timestampText (RequestLog.Timestamp a)) = false.

(** Newest first, by instant. *)
Definition newestFirst (a b : RequestLog.t) : Prop :=
  RequestLog.Timestamp b <= RequestLog.Timestamp a.

(** The conditions and arguments the handler builds for a request. *)
Definition conds (p : ListRequests.Params) : list sqlite.Cond :=
  ((if String.eqb (ListRequests.url p) "" then [] else [sqlite.UrlLike]) ++
   (if String.eqb (ListRequests.start_date p) "" then []
    else [sqlite.TimestampGe]) ++
   (if String.eqb (ListRequests.end_date p) "" then []
    else [sqlite.TimestampLe]))%list.

Definition condArgs (p : ListRequests.Params) : list sqlite.Arg :=
  ((if String.eqb (ListRequests.url p) "" then []
    else [sqlite.Text ("%" ++ ListRequests.url p ++ "%")]) ++
   (if String.eqb (ListRequests.start_date p) "" then []
    else [sqlite.Text (ListRequests.start_date p ++ " 00:00:00")]) ++
   (if String.eqb (ListRequests.end_date p) "" then []
    else [sqlite.Text (ListRequests.end_date p ++ " 23:59:59")]))%list.

(** A store of [n] rows with distinct timestamps, for evaluation. *)
Definition sampleRow (i : nat) : RequestLog.t :=
  {| RequestLog.ID := Z.of_nat i; RequestLog.Timestamp := 1000 + Z.of_nat i;
     RequestLog.Method := "GET"; RequestLog.URL := "/x";
     RequestLog.RequestHeaders := "{}"; RequestLog.RequestBody := [];
     RequestLog.RequestBodySize := 0; RequestLog.IsRequestBodyText := true;
     RequestLog.StatusCode := 200; RequestLog.ResponseHeaders := "{}";
     RequestLog.ResponseBody := []; RequestLog.ResponseBodySize := 0;
     RequestLog.IsResponseBodyText := true |}.

Definition sampleDB (n : nat) : DB :=
  {| rows := List.map sampleRow (seq 1 n); lastRowID := Z.of_nat n |}.

Definition request (page page_size : string) : ListRequests.Params :=
  {| ListRequests.page := page; ListRequests.page_size := page_size;
     ListRequests.url := ""; ListRequests.start_date := "";
     ListRequests.end_date := "" |}.

End ListSpec.

(** ** The shape of parsed URLs *)

(** What [url.Parse] returns is either not opaque, or has a scheme and
    neither authority nor path. *)
Definition wellShaped (u : url.URL) : Prop :=
  url.Opaque u = "" ∨
  (url.Scheme u ≠ "" ∧ url.Host u = "" ∧ url.User u = None ∧ url.Path u = "").

(** ** Interleavings of the proxy, the consumer and the recording switch *)

(** What can happen next to the shared state: an interceptor reaches its
    send with a record, the consumer takes a turn (with the fate of its
    insert), or an administrator posts to one of the recording
    handlers. *)
Inductive Event :=
| Offer (reqLog : RequestLog.t)
| Take (fault : option InsertFault)
| StartRecording
| StopRecording.

Definition postTo (path : string) : admin.Request :=
  {| admin.Method := "POST"; admin.Path := path; admin.Cookies := [];
     admin.Query := {| ListRequests.page := ""; ListRequests.page_size := "";
                       ListRequests.url := ""; ListRequests.start_date := "";
                       ListRequests.end_date := "" |};
     admin.Body := [] |}.

Section Interleaving.
Variable Unmarshal : string → option Header.

Definition step (s : Globals * DB) (e : Event) : Globals * DB :=
  let '(g, db) := s in
  match e with
  | Offer reqLog => (enqueue g reqLog, db)
  | Take fault =>
      match consumerStep Unmarshal fault g db with
      | Some s' => s'
      | None => s
      end
  | StartRecording =>
      ((startRecordingHandler (A := unit) (postTo "/api/start-recording") g).2,
       db)
  | StopRecording =>
      ((stopRecordingHandler (A := unit) (postTo "/api/stop-recording") g).2,
       db)
  end.

Definition run (events : list Event) (s : Globals * DB) : Globals * DB :=
  fold_left step events s.

End Interleaving.

(** The offers made while the recording flag is on; [rec] is the flag at
    the start. *)
Fixpoint offeredWhileRecording (rec : bool) (events : list Event) : nat :=
  match events with
  | [] => 0
  | Offer _ :: rest =>
      ((if rec then 1 else 0) + offeredWhileRecording rec rest)%nat
  | Take _ :: rest => offeredWhileRecording rec rest
  | StartRecording :: rest => offeredWhileRecording true rest
  | StopRecording :: rest => offeredWhileRecording false rest
  end.

(** Log lines that account for a lost record: a drop at the channel, a
    failed insert. *)
Definition isDropLine (line : string) : bool := String.eqb line dropLine.

Definition isInsertFailureLine (line : string) : bool :=
  GoStrings.HasPrefix line "Failed to prepare statement: " ||
  GoStrings.HasPrefix line "Failed to insert log entry: ".

Definition countLines (p : string → bool) (log : Log) : nat :=
  length (List.filter p log).

(** ** Well-formed tables *)

(** Row ids grow with insertion order and stay within the last id handed
    out. *)
Definition idsIncrease (db : DB) : Prop :=
  StronglySorted Z.lt (List.map RequestLog.ID (rows db)) ∧
  Forall (λ row, RequestLog.ID row <= lastRowID db) (rows db).

(** The size and text columns of a row are those of its bodies. *)
Definition derivedColumns (Unmarshal : string → option Header)
    (row : RequestLog.t) : Prop :=
  RequestLog.RequestBodySize row = len (RequestLog.RequestBody row) ∧
  RequestLog.ResponseBodySize row = len (RequestLog.ResponseBody row) ∧
  RequestLog.IsRequestBodyText row =
    isTextData (RequestLog.RequestBody row)
      (getContentTypeFromHeaders Unmarshal (RequestLog.RequestHeaders row)) ∧
  RequestLog.IsResponseBodyText row =
    isTextData (RequestLog.ResponseBody row)
      (getContentTypeFromHeaders Unmarshal (RequestLog.ResponseHeaders row)).

(** The rows that a drain writes when some inserts fail. *)
Fixpoint persistedUnder (Unmarshal : string → option Header)
    (faults : nat → option InsertFault) (id : Z) (recs : list RequestLog.t)
  : list RequestLog.t :=
  match recs with
  | [] => []
  | r :: rest =>
      match faults O with
      | Some _ => persistedUnder Unmarshal (λ i, faults (S i)) id rest
      | None =>
          insertedRow (id + 1) (populate Unmarshal r)
            :: persistedUnder Unmarshal (λ i, faults (S i)) (id + 1) rest
      end
  end.

(** The log line of a failed insert. *)
Definition faultLine (f : InsertFault) : string :=
  match f with
  | PrepareFails e => "Failed to prepare statement: " ++ e
  | ExecFails e => "Failed to insert log entry: " ++ e
  end.

(** The lines that the first [n] inserts write. *)
Fixpoint faultLines (faults : nat → option InsertFault) (n : nat)
  : list string :=
  match n with
  | O => []
  | S n' =>
      match faults O with
      | Some f => faultLine f :: faultLines (λ i, faults (S i)) n'
      | None => faultLines (λ i, faults (S i)) n'
      end
  end.

(** ** The body that a record keeps *)

(** The bytes recorded for a message with headers [h] and body [raw]: the
    inflated body if the message is gzip-encoded and inflates, the body as
    received otherwise. *)
Definition recordedBody {codec : GzipLib} (h : Header) (raw : list byte)
  : list byte :=
  if String.eqb (http.Get h "Content-Encoding") "gzip" &&
     bool_decide ((decompressGzip raw).2 = None)
  then (decompressGzip raw).1
  else raw.

(** ** Globals that were only logged to *)

(** The globals after some log lines, with the flag and the channel as
    they were. *)
Definition onlyLogged (g g' : Globals) : Prop :=
  IsRecording g' = IsRecording g ∧
  requestLogChan g' = requestLogChan g ∧
  ∃ lines, opLog g' = (opLog g ++ lines)%list.

(** ** Accounting for records *)

(** The balance of one state: records stored, queued, and accounted for
    by a log line. *)
Definition balance (s : Globals * DB) : nat :=
  (length (rows s.2) + length (chan.buffer (requestLogChan s.1)) +
   countLines isDropLine (opLog s.1) +
   countLines isInsertFailureLine (opLog s.1))%nat.

(** ** Cookies coming back *)

(** The request that sends back the cookies a handler has set. *)
Definition presenting (cookies : list admin.Cookie) (r : admin.Request)
  : admin.Request :=
  {| admin.Method := admin.Method r; admin.Path := admin.Path r;
     admin.Cookies :=
       List.map (λ c, (admin.Name c, admin.Value c)) cookies;
     admin.Query := admin.Query r; admin.Body := admin.Body r |}.

(** ** The session a request presents *)

(** The values of the parts named session_token whose value net/http
    accepts, in the order sent. *)
Definition sessionValues (r : admin.Request) : list string :=
  omap (λ part : string * string,
          if String.eqb "session_token" part.1
          then admin.parseCookieValue part.2 else None)
       (admin.Cookies r).

(** The first of them is valid_token. *)
Definition admitted (r : admin.Request) : bool :=
  match sessionValues r with
  | value :: _ => String.eqb value "valid_token"
  | [] => false
  end.

(** A part that [r.Cookie] passes over when it looks for the session. *)
Definition passedOver (part : string * string) : Prop :=
  part.1 ≠ "session_token" ∨ admin.parseCookieValue part.2 = None.

(** ** What a HAR entry says of a stored exchange *)

Section HARSpec.
Variable Unmarshal : string → result Header.
Variable pageID : string.

(** The header text parses. *)
Definition parses (headersJSON : string) : Prop :=
  ∃ h, Unmarshal headersJSON = Ok h.

(** The media type reported for a side with headers [h]. *)
Definition mimeTypeOf (h : Header) : string :=
  if String.eqb (http.Get h "Content-Type") "" then "application/octet-stream"
  else http.Get h "Content-Type".

(** [entry] renders the stored exchange [req]: same instant, method, URL
    and status, the body sizes and the response text of the stored
    bodies, post data exactly when the request body is not empty, and
    one header pair for each value of each stored header, in some
    order. *)
Definition renders (req : RequestLog.t) (entry : HAREntry.t) : Prop :=
  let request := HAREntry.Request entry in
  let response := HAREntry.Response entry in
  HAREntry.Pageref entry = pageID ∧
  HAREntry.StartedDateTime entry = RequestLog.Timestamp req ∧
  HARRequest.Method request = RequestLog.Method req ∧
  HARRequest.URL request = RequestLog.URL req ∧
  HARResponse.Status response = RequestLog.StatusCode req ∧
  HARRequest.BodySize request = len (RequestLog.RequestBody req) ∧
  HARResponse.BodySize response = len (RequestLog.ResponseBody req) ∧
  HARContent.Size (HARResponse.Content response)
    = len (RequestLog.ResponseBody req) ∧
  HARContent.Text (HARResponse.Content response)
    = string_of_list_byte (RequestLog.ResponseBody req) ∧
  ∃ reqHeaders respHeaders,
    Unmarshal (RequestLog.RequestHeaders req) = Ok reqHeaders ∧
    Unmarshal (RequestLog.ResponseHeaders req) = Ok respHeaders ∧
    HARRequest.Headers request ≡ₚ nameValuePairs (map_to_list reqHeaders) ∧
    HARResponse.Headers response ≡ₚ nameValuePairs (map_to_list respHeaders) ∧
    HARContent.MimeType (HARResponse.Content response)
      = mimeTypeOf respHeaders ∧
    HARRequest.PostData request =
      match RequestLog.RequestBody req with
      | [] => None
      | _ =>
          Some {| HARPostData.MimeType := mimeTypeOf reqHeaders;
                  HARPostData.Text :=
                    string_of_list_byte (RequestLog.RequestBody req) |}
      end.

End HARSpec.

(** What identifies an exchange in an export. *)
Definition exchangeKey (row : RequestLog.t) : Z * string * string * Z :=
  (RequestLog.Timestamp row, RequestLog.Method row, RequestLog.URL row,
   RequestLog.StatusCode row).

Definition entryKey (entry : HAREntry.t) : Z * string * string * Z :=
  (HAREntry.StartedDateTime entry,
   HARRequest.Method (HAREntry.Request entry),
   HARRequest.URL (HAREntry.Request entry),
   HARResponse.Status (HAREntry.Response entry)).

(** ** The answer to a replay *)

Section ReplaySpec.
Context {codec : GzipLib}.
Variable Do : httpreq.t → result Upstream.t.

(** The reply that reports what came of sending [req]: a failure of the
    transport, a failure to read the answer, or the answer's status,
    headers and body. *)
Definition answerOf (req : httpreq.t) (reply : admin.Reply ReplayResult.t)
  : Prop :=
  match Do req with
  | Err _ => reply = admin.Error "Failed to execute replayed request" 500
  | Ok resp =>
      match io.fault (Upstream.Body resp) with
      | Some _ =>
          reply = admin.Error "Failed to read replayed response body" 500
      | None =>
          ∃ finalURL,
            reply =
              admin.Encoded (http.Set_ ∅ "Content-Type" "application/json")
                {| ReplayResult.StatusCode := Upstream.StatusCode resp;
                   ReplayResult.Headers := Upstream.Header resp;
                   ReplayResult.Body :=
                     replayFinalRespBody finalURL (Upstream.Header resp)
                       (io.unread (Upstream.Body resp)) |}
      end
  end.

End ReplaySpec.

(** The method that [http.NewRequest] uses for a given one. *)
Definition effectiveMethod (method : string) : string :=
  if String.eqb method "" then "GET" else method.

(** ** A sample replay *)

Module SampleReplay.

Definition data : ReplayData.t :=
  {| ReplayData.Method := ""; ReplayData.URL := "/x?a=1";
     ReplayData.Headers := {["accept" := ["text/html"; "text/plain"]]};
     ReplayData.Body := "hi" |}.

Definition decode : list byte → result ReplayData.t := λ _, Ok data.

Definition answer : Upstream.t :=
  {| Upstream.StatusCode := 200;
     Upstream.Header := {["Content-Type" := ["text/plain"]]};
     Upstream.Body := io.NopCloser (list_byte_of_string "ok") |}.

Definition transport : httpreq.t → result Upstream.t := λ _, Ok answer.

Definition order : Header → list (string * list string) := map_to_list.

Definition target : option string := Some "http://api.example.com".

End SampleReplay.

(** ** The shape of a completed migration *)

Module MigShape.

(** The four columns of the migration with their types, in the order of
    the calls. *)
Definition newColumnTypes : list (string * string) :=
  [("request_body_size", "INTEGER"); ("is_request_body_text", "BOOLEAN");
   ("response_body_size", "INTEGER"); ("is_response_body_text", "BOOLEAN")].

(** Those of [l] that the table with columns [cols0] does not have. *)
Definition missingFrom (cols0 : list string) (l : list (string * string))
  : list (string * string) :=
  List.filter (λ ct, negb (Mig.columnExists cols0 ct.1)) l.

Definition alterOf (ct : string * string) : Mig.Stmt :=
  Mig.AlterAdd "requests" ct.1 ct.2.

Definition addedLine (ct : string * string) : string :=
  "Added column " ++ ct.1 ++ " to table requests.".

(** Inside the transaction of a run under [fails] that started on the
    columns [cols0] and has added [added] so far: the transaction sees
    the old columns followed by the added ones, one ALTER was sent and
    one line logged for each of them, in order, and no statement sent so
    far has failed. *)
Definition running (fails : nat → option string) (cols0 : list string)
    (added : list (string * string)) (s : Mig.State) : Prop :=
  Mig.view s = Some (Some (cols0 ++ List.map fst added)%list) ∧
  Mig.committed s = Some cols0 ∧
  Mig.alterations s = List.map alterOf added ∧
  (∀ i, (i < length (Mig.trace s))%nat → fails i = None) ∧
  Mig.out s = List.map addedLine added.

(** The last lines of the log of a completed run, given the outcome of
    the WAL pragma. *)
Definition closingLines (wal : option string) : list string :=
  match wal with
  | Some err => ["Failed to enable WAL mode: " ++ err;
                 "Database initialized successfully."]
  | None => ["Database initialized successfully."]
  end.

End MigShape.

(** ** Walking through the pages of a listing *)

(** The request [p] for another page. *)
Definition withPage (p : ListRequests.Params) (page : string)
  : ListRequests.Params :=
  {| ListRequests.page := page;
     ListRequests.page_size := ListRequests.page_size p;
     ListRequests.url := ListRequests.url p;
     ListRequests.start_date := ListRequests.start_date p;
     ListRequests.end_date := ListRequests.end_date p |}.

(** The rows of an answer ([[]] for an error). *)
Definition requestsOf (a : ListRequests.Answer * Log) : list RequestLog.t :=
  match a.1 with
  | ListRequests.OK response => ListRequests.Requests response
  | ListRequests.Error _ _ => []
  end.

(** The page count of an answer (0 for an error). *)
Definition totalPagesOf (a : ListRequests.Answer * Log) : Z :=
  match a.1 with
  | ListRequests.OK response => ListRequests.TotalPages response
  | ListRequests.Error _ _ => 0
  end.

(** The text of the WHERE clause for a list of conditions. *)
Definition condText (c : sqlite.Cond) : string :=
  match c with
  | sqlite.UrlLike => " AND url LIKE ?"
  | sqlite.TimestampGe => " AND timestamp >= ?"
  | sqlite.TimestampLe => " AND timestamp <= ?"
  end.

Fixpoint whereText (cs : list sqlite.Cond) : string :=
  match cs with
  | [] => ""
  | c :: rest => condText c ++ whereText rest
  end.

(* ===================================================================== *)
(** * Part III: properties                                                *)
(* ===================================================================== *)

(** ** Content classifier *)

Section Classifier.

Lemma agreesUpToCount_spec n k :
  agreesUpToCount n k = true →
  ∀ j, (j ≤ k)%nat → agreesAt (Z.of_nat j) n = true.
Proof.
  induction k as [|k IH]; intros H j Hj; cbn [agreesUpToCount] in H.
  - apply andb_prop in H as [H _]. by replace j with O by lia.
  - apply andb_prop in H as [H1 H2].
    destruct (decide (j = S k)) as [->|]; [done|]. apply IH; [done|lia].
Qed.

Lemma agreesUpToSize_spec K :
  agreesUpToSize K = true →
  ∀ n t, (1 ≤ n ≤ K)%nat → (t ≤ n)%nat →
         agreesAt (Z.of_nat t) (Z.of_nat n) = true.
Proof.
  induction K as [|K IH]; intros H n t Hn Ht; [lia|].
  cbn [agreesUpToSize] in H. apply andb_prop in H as [H1 H2].
  destruct (decide (n = S K)) as [->|].
  - by apply (agreesUpToCount_spec _ _ H1).
  - apply IH; [done|lia|done].
Qed.

(** Every count out of every sample size up to 512, by evaluation of the
    binary64 division and comparison. *)
Lemma agrees_512 : agreesUpToSize 512 = true.
Proof. vm_compute. reflexivity. Qed.

Lemma ratioExceeds_exact t n :
  1 <= n <= 512 → 0 <= t <= n → ratioExceeds t n = (7 * n <? 10 * t).
Proof.
  intros Hn Ht.
  pose proof (agreesUpToSize_spec 512 agrees_512 (Z.to_nat n) (Z.to_nat t)) as H.
  rewrite !Z2Nat.id in H by lia.
  unfold agreesAt in H. apply eqb_prop. apply H; lia.
Qed.

Lemma countTextChars_acc l acc :
  countTextChars l acc = acc + countTextChars l 0.
Proof.
  revert acc. induction l as [|b l IH]; intros acc; simpl; [lia|].
  rewrite IH, (IH (if isTextChar b then 0 + 1 else 0)).
  destruct (isTextChar b); lia.
Qed.

Lemma isTextChar_printable b : isTextChar b = ClassifierSpec.printable b.
Proof. by destruct b. Qed.

Lemma countTextChars_filter l :
  countTextChars l 0 =
  Z.of_nat (length (filter (λ x, ClassifierSpec.printable x = true) l)).
Proof.
  induction l as [|b l IH]; [done|].
  simpl. rewrite countTextChars_acc, IH, filter_cons, isTextChar_printable.
  destruct (decide (ClassifierSpec.printable b = true)) as [Hp|Hp].
  - rewrite Hp. simpl. lia.
  - apply not_true_is_false in Hp. rewrite Hp. lia.
Qed.

Lemma min_spec a b : min a b = Z.min a b.
Proof. unfold min. destruct (Z.ltb_spec a b); lia. Qed.

Lemma slice_to_sample b :
  slice_to b (min (len b) 512) = ClassifierSpec.sample b.
Proof.
  unfold slice_to, ClassifierSpec.sample, len. rewrite min_spec.
  destruct (decide (length b ≤ 512)%nat).
  - rewrite Z.min_l, Nat2Z.id by lia. by rewrite !take_ge by lia.
  - rewrite Z.min_r by lia. done.
Qed.

Lemma len_sample b :
  Z.of_nat (length (ClassifierSpec.sample b)) = min (len b) 512.
Proof.
  unfold ClassifierSpec.sample, len. rewrite length_take, min_spec. lia.
Qed.

Lemma contentTypeIsText_family ct :
  contentTypeIsText ct = ClassifierSpec.textualFamily ct.
Proof.
  unfold contentTypeIsText, ClassifierSpec.textualFamily. cbn [existsb].
  by rewrite orb_false_r, !orb_assoc.
Qed.

(** C4. The classifier applies its policy in order: a declared media type
    of the textual family gives text (so "text/plain" gives text for
    every payload); otherwise the empty payload gives text; otherwise the
    answer is text exactly when, over the first min(512, len) bytes, the
    fraction of bytes that are tab, line feed, carriage return or in
    [0x20, 0x7E] exceeds 0.70. The binary64 arithmetic of the code agrees
    with the exact fraction on every input. *)
Theorem isTextData_policy (b : list byte) (contentType : string) :
  isTextData b contentType =
    ClassifierSpec.isText (ClassifierSpec.classify b contentType)
  ∧ isTextData b "text/plain" = true.
Proof.
  split; [|done].
  unfold isTextData, ClassifierSpec.classify.
  rewrite <- contentTypeIsText_family.
  destruct (contentTypeIsText contentType); [done|].
  destruct b as [|x b]; [done|].
  set (d := x :: b).
  replace (len d =? 0) with false by (unfold len; simpl; lia).
  rewrite slice_to_sample, countTextChars_filter.
  fold (ratioExceeds
          (Z.of_nat (length (filter (λ x, ClassifierSpec.printable x = true)
                                    (ClassifierSpec.sample d))))
          (min (len d) 512)).
  pose proof (len_sample d) as Hlen.
  pose proof (length_filter (λ x, ClassifierSpec.printable x = true)
                (ClassifierSpec.sample d)) as Hf.
  assert (1 <= min (len d) 512 <= 512) as Hn.
  { rewrite min_spec. unfold len, d. simpl. lia. }
  rewrite ratioExceeds_exact by lia.
  unfold ClassifierSpec.printableFraction.
  set (p := Z.of_nat (length (filter _ _))) in *.
  set (m := length (ClassifierSpec.sample d)) in *.
  assert (Z.pos (Pos.of_nat m) = Z.of_nat m) as E by lia.
  rewrite <- Hlen.
  destruct (Qle_bool (p # Pos.of_nat m) (7 # 10)) eqn:Hq; cbn [ClassifierSpec.isText].
  - apply Qle_bool_iff in Hq. unfold Qle in Hq. cbn [Qnum Qden] in Hq.
    apply Z.ltb_ge. lia.
  - apply Z.ltb_lt.
    destruct (Z.le_gt_cases (10 * p) (7 * Z.of_nat m)) as [Hle|]; [|lia].
    exfalso. apply not_true_iff_false in Hq. apply Hq.
    apply Qle_bool_iff. unfold Qle. cbn [Qnum Qden]. lia.
Qed.

End Classifier.

(** ** Capture interceptor *)

Section InterceptorProps.
Context {codec : GzipLib}.

(** [ModifyResponse] on a response whose body reads without error and whose
    encoding is not gzip. *)
Lemma ModifyResponse_identity resp g reqLog :
  Request.Ctx (Response.Request resp) = Some reqLog →
  io.fault (Response.Body resp) = None →
  http.Get (Response.Header resp) "Content-Encoding" ≠ "gzip" →
  let raw := io.unread (Response.Body resp) in
  ModifyResponse resp g =
    (None,
     {| Response.StatusCode := Response.StatusCode resp;
        Response.Header := Response.Header resp;
        Response.Body := io.NopCloser raw;
        Response.Request :=
          Request.WithContext (Response.Request resp) (completed reqLog resp raw) |},
     enqueue g (completed reqLog resp raw)).
Proof.
  intros Hctx Hfault Hce raw. unfold ModifyResponse, io.ReadAll.
  rewrite Hctx, Hfault.
  apply String.eqb_neq in Hce. rewrite Hce. reflexivity.
Qed.

(** [ModifyResponse] on a gzip response that fails to inflate. *)
Lemma ModifyResponse_gzip_failure resp g reqLog partial e :
  Request.Ctx (Response.Request resp) = Some reqLog →
  io.fault (Response.Body resp) = None →
  http.Get (Response.Header resp) "Content-Encoding" = "gzip" →
  decompressGzip (io.unread (Response.Body resp)) = (partial, Some e) →
  let raw := io.unread (Response.Body resp) in
  ModifyResponse resp g =
    (None,
     {| Response.StatusCode := Response.StatusCode resp;
        Response.Header := Response.Header resp;
        Response.Body := io.NopCloser raw;
        Response.Request :=
          Request.WithContext (Response.Request resp) (completed reqLog resp raw) |},
     enqueue (logPrint g ("Error decompressing response body: " ++ e))
             (completed reqLog resp raw)).
Proof.
  intros Hctx Hfault Hce Hgz raw. unfold ModifyResponse, io.ReadAll.
  rewrite Hctx, Hfault, Hce, Hgz. reflexivity.
Qed.

(** [ModifyResponse] on a gzip response that inflates. *)
Lemma ModifyResponse_gzip_success resp g reqLog d :
  Request.Ctx (Response.Request resp) = Some reqLog →
  io.fault (Response.Body resp) = None →
  http.Get (Response.Header resp) "Content-Encoding" = "gzip" →
  decompressGzip (io.unread (Response.Body resp)) = (d, None) →
  ModifyResponse resp g =
    (None,
     {| Response.StatusCode := Response.StatusCode resp;
        Response.Header :=
          http.Set_ (http.Del (Response.Header resp) "Content-Encoding")
                    "Content-Length" (Itoa (len d));
        Response.Body := io.NopCloser d;
        Response.Request :=
          Request.WithContext (Response.Request resp) (completed reqLog resp d) |},
     enqueue g (completed reqLog resp d)).
Proof.
  intros Hctx Hfault Hce Hgz. unfold ModifyResponse, io.ReadAll.
  rewrite Hctx, Hfault, Hce, Hgz. reflexivity.
Qed.

(** C1 (as amended). Whatever happens to logging, [ModifyResponse] returns
    no error on a readable response and hands on the upstream status; the
    body and the headers handed on are the upstream's, byte for byte,
    unless the response is gzip-encoded and inflates, in which case the
    body handed on is the inflated one, Content-Encoding is deleted,
    Content-Length is the inflated length, and every other header is the
    upstream's. The response handed on does not depend on the recording
    flag or on the state of the log channel. *)
Theorem ModifyResponse_client_response resp g reqLog :
  Request.Ctx (Response.Request resp) = Some reqLog →
  io.fault (Response.Body resp) = None →
  let raw := io.unread (Response.Body resp) in
  let h := Response.Header resp in
  let gz := decompressGzip raw in
  let inflates :=
    String.eqb (http.Get h "Content-Encoding") "gzip" &&
    bool_decide (gz.2 = None) in
  let '(err, resp', _) := ModifyResponse resp g in
  err = None ∧
  Response.StatusCode resp' = Response.StatusCode resp ∧
  Response.Body resp' = io.NopCloser (if inflates then gz.1 else raw) ∧
  Response.Header resp' =
    (if inflates
     then http.Set_ (http.Del h "Content-Encoding") "Content-Length"
            (Itoa (len gz.1))
     else h) ∧
  (∀ k, k ≠ "Content-Encoding" → k ≠ "Content-Length" →
        Response.Header resp' !! k = h !! k) ∧
  (∀ g2, (ModifyResponse resp g2).1 = (err, resp')).
Proof.
  intros Hctx Hfault raw h gz inflates.
  destruct (String.eqb (http.Get h "Content-Encoding") "gzip") eqn:Hce.
  - apply String.eqb_eq in Hce.
    destruct gz as [d [e|]] eqn:Hgz.
    + pose proof (λ g, ModifyResponse_gzip_failure resp g reqLog d e
                         Hctx Hfault Hce Hgz) as E.
      rewrite (E g). subst inflates. simpl.
      repeat split; try done. intros g2. by rewrite (E g2).
    + pose proof (λ g, ModifyResponse_gzip_success resp g reqLog d
                         Hctx Hfault Hce Hgz) as E.
      rewrite (E g). subst inflates. simpl.
      repeat split; try done.
      * intros k Hk1 Hk2. unfold http.Set_, http.Del.
        rewrite lookup_insert_ne by done. by rewrite lookup_delete_ne.
      * intros g2. by rewrite (E g2).
  - apply String.eqb_neq in Hce.
    pose proof (λ g, ModifyResponse_identity resp g reqLog Hctx Hfault Hce) as E.
    simpl in E. rewrite (E g). subst inflates. simpl.
    repeat split; try done. intros g2. by rewrite (E g2).
Qed.

(** C2 (as amended). For a gzip-encoded answer that inflates, the record
    stores the inflated body, but its response headers are the headers as
    the upstream sent them, serialised before the body is decoded:
    Content-Encoding is still gzip there and Content-Length is untouched.
    It is the response handed on to the client whose Content-Encoding is
    removed and whose Content-Length is the inflated size. *)
Theorem ModifyResponse_stored_headers_as_received resp g reqLog d :
  Request.Ctx (Response.Request resp) = Some reqLog →
  io.fault (Response.Body resp) = None →
  http.Get (Response.Header resp) "Content-Encoding" = "gzip" →
  decompressGzip (io.unread (Response.Body resp)) = (d, None) →
  let '(_, resp', g') := ModifyResponse resp g in
  ∃ stored,
    Request.Ctx (Response.Request resp') = Some stored ∧
    g' = enqueue g stored ∧
    RequestLog.ResponseBody stored = d ∧
    RequestLog.ResponseHeaders stored = HeadersToJSON (Response.Header resp) ∧
    RequestLog.StatusCode stored = Response.StatusCode resp ∧
    http.Get (Response.Header resp') "Content-Encoding" = "" ∧
    http.Get (Response.Header resp') "Content-Length" = Itoa (len d) ∧
    Response.Body resp' = io.NopCloser d.
Proof.
  intros Hctx Hfault Hce Hgz.
  rewrite (ModifyResponse_gzip_success resp g reqLog d Hctx Hfault Hce Hgz).
  exists (completed reqLog resp d). repeat split; try done.
  - unfold http.Get, http.Set_, http.Del; cbn [Response.Header].
    rewrite lookup_insert_ne by done. by rewrite lookup_delete_eq.
  - unfold http.Get, http.Set_; cbn [Response.Header].
    by rewrite lookup_insert_eq.
Qed.

(** C3. A gzip-encoded answer that fails to inflate is not fatal:
    [ModifyResponse] returns no error, hands on the raw bytes and the
    headers as received, stores the raw bytes with the headers as
    received, and offers the record to the log channel exactly as for any
    other answer; with recording on and room in the channel the record is
    appended to it. *)
Theorem ModifyResponse_gzip_failure_not_fatal resp g reqLog partial e :
  Request.Ctx (Response.Request resp) = Some reqLog →
  io.fault (Response.Body resp) = None →
  http.Get (Response.Header resp) "Content-Encoding" = "gzip" →
  decompressGzip (io.unread (Response.Body resp)) = (partial, Some e) →
  let raw := io.unread (Response.Body resp) in
  let '(err, resp', g') := ModifyResponse resp g in
  ∃ stored,
    err = None ∧
    Response.StatusCode resp' = Response.StatusCode resp ∧
    Response.Header resp' = Response.Header resp ∧
    Response.Body resp' = io.NopCloser raw ∧
    Request.Ctx (Response.Request resp') = Some stored ∧
    RequestLog.ResponseBody stored = raw ∧
    RequestLog.ResponseHeaders stored = HeadersToJSON (Response.Header resp) ∧
    g' = enqueue (logPrint g ("Error decompressing response body: " ++ e))
                 stored ∧
    (IsRecording g = true →
     len (chan.buffer (requestLogChan g)) < chan.capacity (requestLogChan g) →
     chan.buffer (requestLogChan g') =
       (chan.buffer (requestLogChan g) ++ [stored])%list).
Proof.
  intros Hctx Hfault Hce Hgz raw.
  rewrite (ModifyResponse_gzip_failure resp g reqLog partial e
             Hctx Hfault Hce Hgz).
  exists (completed reqLog resp raw). repeat split; try done.
  intros Hrec Hroom. unfold enqueue, chan.trySend, logPrint.
  cbn [IsRecording requestLogChan]. rewrite Hrec.
  apply Z.ltb_lt in Hroom. rewrite Hroom. reflexivity.
Qed.

(** C10. For a gzip-encoded request whose body inflates, [ServeHTTP]
    forwards a fresh stream over the original, still compressed bytes with
    the request headers untouched, and attaches a record whose request body
    is the inflated one and whose request headers are the headers as
    received (Content-Encoding: gzip and the received Content-Length
    included). The record is the record of the undecoded request in every
    field but the request body, and [ModifyResponse] later leaves its
    request facet as it is. *)
Theorem ServeHTTP_gzip_request_frame now r g d :
  io.fault (Request.Body r) = None →
  http.Get (Request.Header r) "Content-Encoding" = "gzip" →
  decompressGzip (io.unread (Request.Body r)) = (d, None) →
  let raw := io.unread (Request.Body r) in
  ∃ newReq stored,
    ServeHTTP now r g = (Forward newReq, g) ∧
    Request.Body newReq = io.NopCloser raw ∧
    Request.Header newReq = Request.Header r ∧
    Request.Method newReq = Request.Method r ∧
    Request.URL newReq = Request.URL r ∧
    Request.Ctx newReq = Some stored ∧
    stored = candidate now r d ∧
    RequestLog.RequestBody stored = d ∧
    RequestLog.RequestHeaders stored = HeadersToJSON (Request.Header r) ∧
    sameButRequestBody stored (candidate now r raw) ∧
    (∀ resp body,
       RequestLog.RequestBody (completed stored resp body) = d ∧
       RequestLog.RequestHeaders (completed stored resp body) =
         HeadersToJSON (Request.Header r)).
Proof.
  intros Hfault Hce Hgz raw.
  exists (Request.WithContext (Request.withBody r (io.NopCloser raw))
            (candidate now r d)), (candidate now r d).
  split.
  - unfold ServeHTTP, io.ReadAll. rewrite Hfault.
    cbn [Request.withBody Request.Header]. rewrite Hce, Hgz. reflexivity.
  - repeat split; done.
Qed.

End InterceptorProps.

(** The statement above at the gzip-encoded sample answer. *)
Lemma ModifyResponse_client_response_witness :
  Request.Ctx (Response.Request Sample.gzResponse) = Some Sample.getLog ∧
  io.fault (Response.Body Sample.gzResponse) = None ∧
  let '(err, resp', _) :=
    ModifyResponse (codec := GzipStored.lib) Sample.gzResponse (mainGlobals true) in
  err = None ∧ Response.StatusCode resp' = 200.
Proof.
  split; [reflexivity|]. split; [reflexivity|].
  pose proof (ModifyResponse_client_response (codec := GzipStored.lib)
                Sample.gzResponse (mainGlobals true) Sample.getLog
                eq_refl eq_refl) as W.
  cbv zeta in W.
  destruct (ModifyResponse Sample.gzResponse (mainGlobals true)) as [[err resp'] g'].
  destruct W as (W1 & W2 & _). split; [exact W1 | exact W2].
Defined.

(** C1, as stated, fails: for a well-formed gzip answer the body handed on
    is the inflated "hi", not the 25 bytes the upstream sent, and the
    Content-Length handed on is "2", not the upstream's "25". *)
Lemma forwarded_gzip_body_differs :
  let '(err, resp', _) :=
    ModifyResponse (codec := GzipStored.lib) Sample.gzResponse (mainGlobals true) in
  err = None ∧
  io.unread (Response.Body resp') = Sample.hi ∧
  io.unread (Response.Body resp') ≠ io.unread (Response.Body Sample.gzResponse) ∧
  Response.Header Sample.gzResponse !! "Content-Length" = Some ["25"] ∧
  Response.Header resp' !! "Content-Length" = Some ["2"].
Proof.
  vm_compute. repeat split; try reflexivity. discriminate.
Qed.

(** The statement above at the gzip-encoded sample answer: the record keeps
    the upstream headers, the client gets the corrected ones. *)
Lemma ModifyResponse_stored_headers_as_received_witness :
  Request.Ctx (Response.Request Sample.gzResponse) = Some Sample.getLog ∧
  io.fault (Response.Body Sample.gzResponse) = None ∧
  http.Get (Response.Header Sample.gzResponse) "Content-Encoding" = "gzip" ∧
  decompressGzip (codec := GzipStored.lib)
    (io.unread (Response.Body Sample.gzResponse)) = (Sample.hi, None) ∧
  let '(_, resp', g') :=
    ModifyResponse (codec := GzipStored.lib) Sample.gzResponse (mainGlobals true) in
  ∃ stored,
    Request.Ctx (Response.Request resp') = Some stored ∧
    g' = enqueue (mainGlobals true) stored ∧
    RequestLog.ResponseBody stored = Sample.hi ∧
    RequestLog.ResponseHeaders stored =
      HeadersToJSON (Response.Header Sample.gzResponse) ∧
    RequestLog.StatusCode stored = Response.StatusCode Sample.gzResponse ∧
    http.Get (Response.Header resp') "Content-Encoding" = "" ∧
    http.Get (Response.Header resp') "Content-Length" = Itoa (len Sample.hi) ∧
    Response.Body resp' = io.NopCloser Sample.hi.
Proof.
  assert (decompressGzip (codec := GzipStored.lib)
            (io.unread (Response.Body Sample.gzResponse)) = (Sample.hi, None))
    as Hgz by (vm_compute; reflexivity).
  split; [reflexivity|]. split; [reflexivity|]. split; [reflexivity|].
  split; [exact Hgz|].
  exact (ModifyResponse_stored_headers_as_received (codec := GzipStored.lib)
           Sample.gzResponse (mainGlobals true) Sample.getLog Sample.hi
           eq_refl eq_refl eq_refl Hgz).
Defined.

(** C2, as stated, fails: for a well-formed gzip answer the record stores
    the inflated "hi" together with the headers as received, in which
    Content-Encoding is still gzip and Content-Length still "25"; they are
    not the headers with Content-Encoding removed and Content-Length "2". *)
Lemma stored_gzip_headers_not_corrected :
  let '(_, resp', _) :=
    ModifyResponse (codec := GzipStored.lib) Sample.gzResponse (mainGlobals true) in
  ∃ stored,
    Request.Ctx (Response.Request resp') = Some stored ∧
    RequestLog.ResponseBody stored = Sample.hi ∧
    RequestLog.ResponseHeaders stored =
      Sample.dq "{'Content-Encoding':['gzip'],'Content-Length':['25'],'Content-Type':['text/plain']}" ∧
    RequestLog.ResponseHeaders stored ≠
      HeadersToJSON
        (http.Set_ (http.Del (Response.Header Sample.gzResponse) "Content-Encoding")
                   "Content-Length" (Itoa (len Sample.hi))).
Proof.
  vm_compute. eexists. repeat split; try reflexivity. discriminate.
Qed.

(** The statement above at the sample answer that claims gzip but is not:
    the raw bytes go on and the record is queued. *)
Lemma ModifyResponse_gzip_failure_not_fatal_witness :
  Request.Ctx (Response.Request Sample.badResponse) = Some Sample.getLog ∧
  io.fault (Response.Body Sample.badResponse) = None ∧
  http.Get (Response.Header Sample.badResponse) "Content-Encoding" = "gzip" ∧
  decompressGzip (codec := GzipStored.lib)
    (io.unread (Response.Body Sample.badResponse))
    = ([], Some "gzip: invalid header") ∧
  let '(err, resp', g') :=
    ModifyResponse (codec := GzipStored.lib) Sample.badResponse (mainGlobals true) in
  err = None ∧
  Response.Body resp' = io.NopCloser Sample.badBody ∧
  Response.Header resp' = Sample.gzHeader ∧
  length (chan.buffer (requestLogChan g')) = 1%nat.
Proof.
  assert (decompressGzip (codec := GzipStored.lib)
            (io.unread (Response.Body Sample.badResponse))
          = ([], Some "gzip: invalid header")) as Hgz by (vm_compute; reflexivity).
  split; [reflexivity|]. split; [reflexivity|]. split; [reflexivity|].
  split; [exact Hgz|].
  pose proof (ModifyResponse_gzip_failure_not_fatal (codec := GzipStored.lib)
                Sample.badResponse (mainGlobals true) Sample.getLog [] _
                eq_refl eq_refl eq_refl Hgz) as W.
  cbv zeta in W.
  destruct (ModifyResponse Sample.badResponse (mainGlobals true))
    as [[err resp'] g'].
  destruct W as (stored & W1 & _ & W3 & W4 & _ & _ & _ & _ & W9).
  repeat split; [exact W1 | exact W4 | exact W3 |].
  rewrite W9; [reflexivity | reflexivity | reflexivity].
Defined.

(** The statement above at the gzip-encoded sample request. *)
Lemma ServeHTTP_gzip_request_frame_witness :
  io.fault (Request.Body Sample.gzRequest) = None ∧
  http.Get (Request.Header Sample.gzRequest) "Content-Encoding" = "gzip" ∧
  decompressGzip (codec := GzipStored.lib)
    (io.unread (Request.Body Sample.gzRequest)) = (Sample.hi, None) ∧
  ∃ newReq stored,
    ServeHTTP (codec := GzipStored.lib) 1000 Sample.gzRequest (mainGlobals true)
      = (Forward newReq, mainGlobals true) ∧
    Request.Body newReq = io.NopCloser Sample.gzBody ∧
    Request.Ctx newReq = Some stored ∧
    RequestLog.RequestBody stored = Sample.hi ∧
    RequestLog.RequestHeaders stored =
      Sample.dq "{'Content-Encoding':['gzip'],'Content-Length':['25'],'Content-Type':['text/plain']}".
Proof.
  assert (decompressGzip (codec := GzipStored.lib)
            (io.unread (Request.Body Sample.gzRequest)) = (Sample.hi, None))
    as Hgz by (vm_compute; reflexivity).
  split; [reflexivity|]. split; [reflexivity|]. split; [exact Hgz|].
  destruct (ServeHTTP_gzip_request_frame (codec := GzipStored.lib) 1000
              Sample.gzRequest (mainGlobals true) Sample.hi
              eq_refl eq_refl Hgz)
    as (newReq & stored & W1 & W2 & _ & _ & _ & W6 & W7 & W8 & W9 & _).
  exists newReq, stored. repeat split; try assumption.
Defined.

(** ** Persistence pipeline *)

Section Pipeline.
Variable Unmarshal : string → option Header.

Lemma enqueue_room g r :
  IsRecording g = true →
  len (chan.buffer (requestLogChan g)) < chan.capacity (requestLogChan g) →
  enqueue g r =
    setChan g {| chan.buffer := (chan.buffer (requestLogChan g) ++ [r])%list;
                 chan.capacity := chan.capacity (requestLogChan g) |}.
Proof.
  intros Hrec Hroom. unfold enqueue, chan.trySend. rewrite Hrec.
  apply Z.ltb_lt in Hroom. by rewrite Hroom.
Qed.

Lemma enqueue_full g r :
  IsRecording g = true →
  chan.capacity (requestLogChan g) <= len (chan.buffer (requestLogChan g)) →
  enqueue g r = logPrint g dropLine.
Proof.
  intros Hrec Hfull. unfold enqueue, chan.trySend. rewrite Hrec.
  apply Z.ltb_ge in Hfull. by rewrite Hfull.
Qed.

Lemma enqueue_off g r : IsRecording g = false → enqueue g r = g.
Proof. intros Hrec. unfold enqueue. by rewrite Hrec. Qed.

(** A burst of producers fills the room that is left and drops the rest,
    one log line per drop. *)
Lemma producersRun_burst recs g :
  IsRecording g = true →
  producersRun recs g =
    {| IsRecording := true;
       requestLogChan :=
         {| chan.buffer :=
              (chan.buffer (requestLogChan g) ++ take (room g) recs)%list;
            chan.capacity := chan.capacity (requestLogChan g) |};
       opLog :=
         (opLog g ++ replicate (length recs - room g) dropLine)%list |}.
Proof.
  revert g. induction recs as [|r recs IH]; intros g Hrec.
  - destruct g as [rc [b c] l]. simpl in *. subst rc.
    rewrite take_nil, !app_nil_r. reflexivity.
  - unfold producersRun in *. cbn [fold_left].
    destruct (Z.lt_ge_cases (len (chan.buffer (requestLogChan g)))
                (chan.capacity (requestLogChan g))) as [Hroom|Hfull].
    + rewrite (enqueue_room g r Hrec Hroom), IH by done.
      destruct g as [rc [b c] l]. unfold room, setChan, len in *. simpl in *.
      rewrite length_app. simpl.
      replace (Z.to_nat (c - Z.of_nat (length b)))
        with (S (Z.to_nat (c - Z.of_nat (length b + 1)))) by lia.
      simpl. rewrite <- app_assoc. reflexivity.
    + rewrite (enqueue_full g r Hrec) by lia. rewrite IH by done.
      destruct g as [rc [b c] l]. unfold room, logPrint, logLine, len in *.
      simpl in *.
      replace (Z.to_nat (c - Z.of_nat (length b))) with O by lia.
      rewrite Nat.sub_0_r, take_0, <- app_assoc. reflexivity.
Qed.

(** The consumer, left alone with working storage, empties the channel in
    arrival order with one insert per record. *)
Lemma consumerRun_drains turns g db :
  (length (chan.buffer (requestLogChan g)) ≤ turns)%nat →
  consumerRun Unmarshal turns noFault g db =
    ({| IsRecording := IsRecording g;
        requestLogChan :=
          {| chan.buffer := [];
             chan.capacity := chan.capacity (requestLogChan g) |};
        opLog := opLog g |},
     {| rows :=
          (rows db ++ persisted Unmarshal (lastRowID db)
                        (chan.buffer (requestLogChan g)))%list;
        lastRowID := lastRowID db + len (chan.buffer (requestLogChan g)) |}).
Proof.
  revert g db. induction turns as [|turns IH]; intros g db Hlen;
    destruct g as [rc [b c] l]; destruct db as [rs id]; simpl in *.
  - destruct b; [|simpl in Hlen; lia]. simpl.
    rewrite app_nil_r. unfold len. simpl. by rewrite Z.add_0_r.
  - unfold consumerStep, chan.recv. simpl.
    destruct b as [|r b]; simpl.
    + rewrite app_nil_r. unfold len. simpl. by rewrite Z.add_0_r.
    + change (λ i : nat, noFault (S i)) with noFault.
      rewrite IH by (simpl in *; lia). simpl.
      rewrite <- app_assoc. simpl. unfold len. simpl.
      do 2 f_equal. lia.
Qed.

Lemma length_persisted id recs :
  length (persisted Unmarshal id recs) = length recs.
Proof. revert id. induction recs; intros; simpl; [done|]. by rewrite IHrecs. Qed.

(** C5. The log channel made by [main] has capacity 100 and the producers'
    send never waits: on a full channel it leaves the channel as it is and
    writes one drop line. Hence N > 100 records offered while the consumer
    takes nothing leave exactly the first 100 in the channel and N - 100
    drop lines in the log; the consumer, once it runs with working
    storage, inserts exactly those 100 records, in arrival order. *)
Theorem pipeline_overflow (recs : list RequestLog.t) (db : DB) :
  100 < len recs →
  let g := producersRun recs (mainGlobals true) in
  chan.capacity (requestLogChan (mainGlobals true)) = 100 ∧
  (∀ g0 r, IsRecording g0 = true →
           chan.capacity (requestLogChan g0)
             <= len (chan.buffer (requestLogChan g0)) →
           requestLogChan (enqueue g0 r) = requestLogChan g0 ∧
           opLog (enqueue g0 r) = (opLog g0 ++ [dropLine])%list) ∧
  chan.buffer (requestLogChan g) = take 100 recs ∧
  len (chan.buffer (requestLogChan g)) = 100 ∧
  opLog g = replicate (length recs - 100) dropLine ∧
  let '(g', db') := consumerRun Unmarshal (length recs) noFault g db in
  chan.buffer (requestLogChan g') = [] ∧
  opLog g' = opLog g ∧
  rows db' = (rows db ++ persisted Unmarshal (lastRowID db) (take 100 recs))%list ∧
  len (rows db') = len (rows db) + 100.
Proof.
  intros HN g. unfold len in HN.
  assert (producersRun recs (mainGlobals true) =
          {| IsRecording := true;
             requestLogChan := {| chan.buffer := take 100 recs;
                                  chan.capacity := 100 |};
             opLog := replicate (length recs - 100) dropLine |}) as Hg.
  { rewrite producersRun_burst by done. reflexivity. }
  subst g. rewrite Hg. cbn [requestLogChan chan.buffer opLog].
  split; [done|]. split.
  { intros g0 r Hrec Hfull. by rewrite (enqueue_full g0 r Hrec Hfull). }
  split; [done|]. split.
  { unfold len. rewrite length_take. lia. }
  split; [done|].
  rewrite consumerRun_drains by (cbn; rewrite length_take; lia).
  cbn [requestLogChan chan.buffer opLog rows].
  repeat split; try done.
  unfold len. rewrite length_app, length_persisted, length_take. lia.
Qed.

End Pipeline.

(** The statement above for a burst of 103 records: 100 queued and
    inserted, 3 dropped. *)
Lemma pipeline_overflow_witness :
  let recs := replicate 103 Sample.getLog in
  let db := {| rows := []; lastRowID := 0 |} in
  100 < len recs ∧
  let g := producersRun recs (mainGlobals true) in
  len (chan.buffer (requestLogChan g)) = 100 ∧
  opLog g = [dropLine; dropLine; dropLine] ∧
  len (rows (consumerRun (λ _, None) (length recs) noFault g db).2) = 100.
Proof.
  intros recs db.
  pose proof (pipeline_overflow (λ _, None) recs db) as W.
  assert (100 < len recs) as HN by (vm_compute; reflexivity).
  split; [exact HN|].
  specialize (W HN). cbv zeta in W.
  destruct W as (_ & _ & _ & W4 & W5 & W6).
  split; [exact W4|]. split; [exact W5|].
  destruct (consumerRun (λ _, None) (length recs) noFault
              (producersRun recs (mainGlobals true)) db) as [g' db'].
  destruct W6 as (_ & _ & _ & W10). exact W10.
Defined.

(** ** Schema migration *)

Section Migration.
Import Mig MigSpec.

Lemma post_bind {A B} (m : M A) (k : A → M B) s Q E :
  post (m s) (λ a s', post (k a s') Q E) E → post ((m ≫= k) s) Q E.
Proof.
  unfold mbind, M_bind, bind, post. destruct (m s); auto.
Qed.

Lemma post_mono {A} (r : Run A) (Q Q' : A → State → Prop) (E E' : State → Prop) :
  post r Q E → (∀ a s, Q a s → Q' a s) → (∀ s, E s → E' s) → post r Q' E'.
Proof. destruct r; simpl; auto. Qed.

Lemma columnExists_app_l cols extra x :
  columnExists cols x = true → columnExists (cols ++ extra) x = true.
Proof.
  induction cols as [|c cols IH]; simpl; [done|].
  destruct (String.eqb c x); auto.
Qed.

Lemma columnExists_app_r cols x : columnExists (cols ++ [x]) x = true.
Proof.
  induction cols as [|c cols IH]; simpl.
  - by rewrite String.eqb_refl.
  - destruct (String.eqb c x); auto.
Qed.

(** One call of [addColumnIfNotExists] inside the transaction. *)
Lemma addColumn_post fails t c ty s cols :
  view s = Some (Some cols) →
  post (addColumnIfNotExists fails t c ty s)
    (λ _ s',
       committed s' = committed s ∧
       ∃ cols' extra,
         view s' = Some (Some cols') ∧
         trace s' = (trace s ++ extra)%list ∧ Forall inTx extra ∧
         columnExists cols' c = true ∧
         (∀ x, columnExists cols x = true → columnExists cols' x = true) ∧
         (columnExists cols c = true →
          cols' = cols ∧ List.filter isAlter extra = []))
    (λ s',
       committed s' = committed s ∧ view s' = None ∧
       ∃ extra,
         trace s' = (trace s ++ extra)%list ∧
         (columnExists cols c = true → List.filter isAlter extra = [])).
Proof.
  intros Hview. unfold addColumnIfNotExists.
  apply post_bind. cbn [send post].
  destruct (fails (length (trace s))) as [err|].
  { cbn. repeat split; try done. by exists [TableInfo t]. }
  apply post_bind. cbn [getView post view]. rewrite Hview.
  destruct (columnExists cols c) eqn:Hex; cbn [negb].
  { cbn. split; [done|]. exists cols, [TableInfo t].
    repeat split; try done. repeat constructor. }
  apply post_bind. unfold execAlter.
  apply post_bind. cbn [send post].
  apply post_bind. cbn [getView post view trace committed out].
  destruct (fails (length (trace s ++ [TableInfo t]))) as [err|].
  { cbn. repeat split; try done.
    exists [TableInfo t; AlterAdd t c ty]. rewrite <- app_assoc. done. }
  destruct (existsb _ _).
  { cbn. repeat split; try done.
    exists [TableInfo t; AlterAdd t c ty]. rewrite <- app_assoc. done. }
  cbn. split; [done|]. exists (cols ++ [c])%list, [TableInfo t; AlterAdd t c ty].
  rewrite <- app_assoc. repeat split; try done.
  - repeat constructor.
  - apply columnExists_app_r.
  - intros x. apply columnExists_app_l.
Qed.

(** A call for one of the four columns keeps the transaction state. *)
Lemma addColumn_step fails cols0 c ty s cols body :
  c ∈ newColumns →
  inTransaction cols0 s cols body →
  post (addColumnIfNotExists fails "requests" c ty s)
    (λ _ s', ∃ cols' body',
       inTransaction cols0 s' cols' body' ∧
       columnExists cols' c = true ∧
       (∀ x, columnExists cols x = true → columnExists cols' x = true))
    (λ s', view s' = None ∧ committed s' = Some cols0 ∧
           (migrated cols0 → alterations s' = [])).
Proof.
  intros Hc (Hview & Hcom & Htr & Hbody & Hmono & Hmig).
  eapply post_mono; [apply (addColumn_post fails _ c ty s cols Hview)| |].
  - intros _ s' (Hcom' & cols' & extra & Hv' & Htr' & Hextra & Hex & Hm' & Hsame).
    exists cols', (body ++ extra)%list. split; [|split; [done|done]].
    repeat split.
    + done.
    + congruence.
    + rewrite Htr', Htr. by rewrite <- app_assoc.
    + by apply Forall_app.
    + intros x Hx. apply Hm', Hmono, Hx.
    + destruct (Hmig H) as [-> _]. apply Hsame, H, Hc.
    + destruct (Hmig H) as [-> Hb]. rewrite List.filter_app, Hb.
      by destruct (Hsame (H c Hc)) as [_ ->].
  - intros s' (Hcom' & Hv' & extra & Htr' & Hsame).
    repeat split; [done|congruence|].
    intros Hm. destruct (Hmig Hm) as [-> Hb].
    unfold alterations. rewrite Htr', Htr.
    rewrite !List.filter_app, Hb, (Hsame (Hm c Hc)). reflexivity.
Qed.

Lemma InitDB_post fails c0 :
  post (InitDB fails (start c0)) (λ _ s, completedRun c0 s) (aborted c0).
Proof.
  unfold InitDB.
  apply post_bind. cbn [send post start trace length].
  destruct (fails 0%nat) as [err|].
  { cbn. unfold aborted. cbn. auto. }
  apply post_bind. cbn [send post start trace length app].
  destruct (fails 1%nat) as [err|].
  { cbn. unfold aborted. cbn. auto. }
  apply post_bind. cbn [getCommitted post committed start].
  apply post_bind. cbn [setCommitted post committed view trace out start].
  apply post_bind. cbn [send post trace length app].
  destruct (fails 2%nat) as [err|].
  { cbn. unfold aborted. cbn. repeat split; auto. right. by destruct c0. }
  apply post_bind. cbn [getCommitted post committed].
  apply post_bind. cbn [setView post committed view trace out].
  set (cols0 := columnsOf c0).
  replace (match c0 with Some _ => c0 | None => Some baseColumns end)
    with (Some cols0) by (by destruct c0).
  set (s0 := {| committed := Some cols0; view := Some (Some cols0);
                trace := [Open; CreateTable; Begin]; out := [] |}).
  assert (inTransaction cols0 s0 cols0 []) as Hinv.
  { repeat split; auto. }
  assert (∀ c, c ∈ newColumns → c ∈ newColumns) as Hin by auto.
  assert (∀ s', view s' = None ∧ committed s' = Some cols0 ∧
                (migrated cols0 → alterations s' = []) → aborted c0 s') as Hab.
  { intros s' (Hv & Hcm & Hal). repeat split; auto. }
  apply post_bind.
  eapply post_mono;
    [apply (addColumn_step fails cols0 "request_body_size" _ _ _ _
              ltac:(set_solver) Hinv) | | exact Hab].
  intros _ s1 (cols1 & body1 & Hinv1 & Hex1 & Hm1). cbn beta.
  apply post_bind.
  eapply post_mono;
    [apply (addColumn_step fails cols0 "is_request_body_text" _ _ _ _
              ltac:(set_solver) Hinv1) | | exact Hab].
  intros _ s2 (cols2 & body2 & Hinv2 & Hex2 & Hm2). cbn beta.
  apply post_bind.
  eapply post_mono;
    [apply (addColumn_step fails cols0 "response_body_size" _ _ _ _
              ltac:(set_solver) Hinv2) | | exact Hab].
  intros _ s3 (cols3 & body3 & Hinv3 & Hex3 & Hm3). cbn beta.
  apply post_bind.
  eapply post_mono;
    [apply (addColumn_step fails cols0 "is_response_body_text" _ _ _ _
              ltac:(set_solver) Hinv3) | | exact Hab].
  intros _ s4 (cols4 & body4 & Hinv4 & Hex4 & Hm4). cbn beta.
  destruct Hinv4 as (Hview & Hcom & Htr & Hbody & Hmono & Hmig).
  assert (migrated cols4) as Hall.
  { intros c Hc. unfold newColumns in Hc.
    repeat (apply elem_of_cons in Hc as [->|Hc]); auto.
    by apply elem_of_nil in Hc. }
  apply post_bind. cbn [send post].
  destruct (fails (length (trace s4))) as [err|].
  { cbn. apply Hab. cbn. repeat split; auto.
    intros Hm. unfold alterations. cbn. rewrite Htr. cbn.
    rewrite List.filter_app. destruct (Hmig Hm) as [_ ->]. reflexivity. }
  apply post_bind. cbn [getView post view].
  apply post_bind. cbn [setCommitted post committed view trace out].
  apply post_bind. cbn [setView post committed view trace out].
  rewrite Hview, Htr.
  assert (∀ o, completedRun c0
            {| committed := Some cols4; view := None;
               trace := (([Open; CreateTable; Begin] ++ body4) ++ [Commit])
                          ++ [JournalWAL];
               out := o |}) as Hdone.
  { intros o. exists cols4, body4. cbn. repeat split; auto.
    - by rewrite <- !app_assoc.
    - by destruct (Hmig H).
    - unfold alterations. cbn. rewrite !List.filter_app.
      destruct (Hmig H) as [_ ->]. reflexivity. }
  apply post_bind. apply post_bind. cbn [send post trace].
  destruct (fails _) as [err|]; cbn; apply Hdone.
Qed.

(** C8. Start-up migration is idempotent. If a first run completes, it has
    committed the four columns, all added between one BEGIN and one
    COMMIT; a second run on the store it leaves sends no ALTER statement
    and leaves the column list as it is, whatever else happens to it.
    Each call of [addColumnIfNotExists] for a column that is already in
    the table sends no ALTER; and a run that ends the process has
    committed no addition. *)
Theorem InitDB_idempotent fails1 fails2 c0 s1 :
  InitDB fails1 (start c0) = Ret tt s1 →
  let r2 := InitDB fails2 (start (committed s1)) in
  (∃ cols body,
     committed s1 = Some cols ∧ migrated cols ∧
     trace s1 = ([Open; CreateTable; Begin] ++ body ++ [Commit; JournalWAL])%list ∧
     Forall inTx body) ∧
  alterations (final r2) = [] ∧
  committed (final r2) = committed s1 ∧
  (∀ fails t c ty s cols,
     view s = Some (Some cols) → columnExists cols c = true →
     let r := addColumnIfNotExists fails t c ty s in
     alterations (final r) = alterations s ∧
     committed (final r) = committed s ∧
     (∀ s', r = Ret tt s' → view s' = view s)) ∧
  (∀ fails c msg s,
     InitDB fails (start c) = Exit msg s →
     committed s = c ∨ committed s = Some (columnsOf c)).
Proof.
  intros Hrun r2.
  pose proof (InitDB_post fails1 c0) as H1. rewrite Hrun in H1.
  destruct H1 as (cols & body & Hcom & Hview & Hmig & Hmono & Htr & Hbody & _).
  split; [by exists cols, body|].
  pose proof (InitDB_post fails2 (committed s1)) as H2. fold r2 in H2.
  rewrite Hcom in *. cbn [columnsOf] in H2.
  assert (alterations (final r2) = [] ∧ committed (final r2) = Some cols) as [Ha Hc].
  { destruct r2 as [[] s2|msg s2]; cbn [post final] in *.
    - destruct H2 as (cols2 & body2 & Hc2 & _ & _ & _ & _ & _ & Hsame).
      destruct (Hsame Hmig) as [-> Hal]. done.
    - destruct H2 as (_ & Hc2 & Hal). split; [by apply Hal|].
      by destruct Hc2. }
  split; [done|]. split; [done|]. split.
  - intros fails t c ty s cols' Hv Hex r.
    pose proof (addColumn_post fails t c ty s cols' Hv) as Hp. fold r in Hp.
    destruct r as [[] s'|msg s']; cbn [post final] in *.
    + destruct Hp as (Hc' & cols'' & extra & Hv' & Htr' & _ & _ & _ & Hsame).
      destruct (Hsame Hex) as [-> Hf].
      repeat split; [|done|].
      * unfold alterations. by rewrite Htr', List.filter_app, Hf, app_nil_r.
      * intros s'' [= <-]. congruence.
    + destruct Hp as (Hc' & _ & extra & Htr' & Hf).
      repeat split; [|done|done].
      unfold alterations. by rewrite Htr', List.filter_app, (Hf Hex), app_nil_r.
  - intros fails c msg s Hexit.
    pose proof (InitDB_post fails c) as Hp. rewrite Hexit in Hp.
    by destruct Hp as (_ & Hc' & _).
Qed.

End Migration.

(** The statement above for a fresh store and a database that never
    fails. *)
Lemma InitDB_idempotent_witness :
  let s1 := Mig.final (Mig.InitDB (λ _, None) (Mig.start None)) in
  Mig.InitDB (λ _, None) (Mig.start None) = Mig.Ret tt s1 ∧
  Mig.alterations
    (Mig.final (Mig.InitDB (λ _, None) (Mig.start (Mig.committed s1)))) = [] ∧
  Mig.committed
    (Mig.final (Mig.InitDB (λ _, None) (Mig.start (Mig.committed s1))))
  = Mig.committed s1.
Proof.
  intros s1.
  assert (Mig.InitDB (λ _, None) (Mig.start None) = Mig.Ret tt s1) as Hrun
    by (vm_compute; reflexivity).
  split; [exact Hrun|].
  destruct (InitDB_idempotent (λ _, None) (λ _, None) None s1 Hrun)
    as (_ & W2 & W3 & _).
  split; [exact W2 | exact W3].
Defined.

(** ** Replay engine: text or binary *)

Section StringFacts.
Import GoStrings.
Local Arguments String.append !_ _ / : simpl nomatch.

Lemma HasPrefix_iff s p : HasPrefix s p = true ↔ ∃ r, s = (p ++ r)%string.
Proof.
  revert s. induction p as [|a p IH]; intros s; simpl.
  - split; [by exists s | done].
  - destruct s as [|b s]; simpl.
    + split; [done | by intros [r ?]].
    + rewrite andb_true_iff, IH. split.
      * intros [Hab [r ->]]. apply Ascii.eqb_eq in Hab as ->. by exists r.
      * intros [r [= -> ->]]. split; [apply Ascii.eqb_refl | by exists r].
Qed.

Lemma Contains_iff s sub :
  Contains s sub = true ↔ ∃ a b, s = (a ++ sub ++ b)%string.
Proof.
  induction s as [|c s IH]; simpl.
  - rewrite orb_false_r, HasPrefix_iff. split.
    + intros [r ->]. by exists ""%string, r.
    + intros [a [b Hs]]. destruct a; simpl in Hs; [by exists b | done].
  - rewrite orb_true_iff, HasPrefix_iff, IH. split.
    + intros [[r ->] | [a [b ->]]]; [by exists ""%string, r |].
      by exists (String c a), b.
    + intros [a [b Hs]]. destruct a as [|c' a]; simpl in Hs.
      * left. by exists b.
      * right. injection Hs as -> ->. by exists a, b.
Qed.

Lemma append_assoc (a b c : string) :
  ((a ++ b) ++ c)%string = (a ++ b ++ c)%string.
Proof. induction a as [|x a IH]; simpl; [done|]. by rewrite IH. Qed.

Lemma Contains_suffix s x y :
  Contains s (x ++ y) = true → Contains s y = true.
Proof.
  rewrite !Contains_iff. intros [a [b ->]].
  exists (a ++ x)%string, b. by rewrite !append_assoc.
Qed.

End StringFacts.

Section ReplayProps.
Context {codec : GzipLib}.

Lemma contentTypeIsText_replayIsText ct :
  contentTypeIsText ct = true → replayIsText ct = true.
Proof.
  unfold contentTypeIsText, replayIsText.
  rewrite !orb_true_iff. intros [[[[H|H]|H]|H]|H].
  - auto.
  - left; left; right. by apply (Contains_suffix ct "application/" "json").
  - left; right. by apply (Contains_suffix ct "application/" "xml").
  - right. by apply (Contains_suffix ct "application/" "javascript").
  - left; right. by apply (Contains_suffix ct "application/xhtml+" "xml").
Qed.

(** C7 (as amended). The replay engine decides text or binary from the
    declared Content-Type alone: text when it starts with "text/" or
    contains "json", "xml" or "javascript", binary otherwise; the bytes
    are not inspected and there is no rule for the empty payload. Every
    media type the classifier's first rule calls text is text here too.
    After the decompression attempt, a text body is returned as it is and
    a binary body in base64. *)
Theorem replay_text_decision (finalURL : string) (header : Header)
    (respBody : list byte) :
  let contentType := http.Get header "Content-Type" in
  let bodyBytes := fst (replayBodyBytes finalURL header respBody) in
  replayFinalRespBody finalURL header respBody =
    (if replayIsText contentType
     then string_of_list_byte bodyBytes
     else base64.EncodeToString bodyBytes) ∧
  replayIsText contentType =
    (GoStrings.HasPrefix contentType "text/" ||
     GoStrings.Contains contentType "json" ||
     GoStrings.Contains contentType "xml" ||
     GoStrings.Contains contentType "javascript") ∧
  (contentTypeIsText contentType = true → replayIsText contentType = true) ∧
  bodyBytes =
    (if String.eqb (http.Get header "Content-Encoding") "gzip"
     then match decompressGzip respBody with
          | (d, None) => d
          | (_, Some _) => respBody
          end
     else respBody).
Proof.
  intros contentType bodyBytes. repeat split.
  - apply contentTypeIsText_replayIsText.
  - subst bodyBytes. unfold replayBodyBytes.
    destruct (String.eqb _ "gzip"); [|done].
    by destruct (decompressGzip respBody) as [d [e|]].
Qed.

End ReplayProps.

(** C7, as stated, fails. A printable body with no Content-Type is text
    for the classifier and binary for the replay engine, which returns it
    in base64; binary bytes declared "image/svg+xml" are binary for the
    classifier and text for the replay engine. *)
Lemma replay_decision_differs_from_classifier :
  let hello := list_byte_of_string "hello" in
  let noType : Header := ∅ in
  let svg : Header := <["Content-Type" := ["image/svg+xml"]]> ∅ in
  let zeros := [Byte.x00; Byte.x01; Byte.x02; Byte.x03] in
  isTextData hello (http.Get noType "Content-Type") = true ∧
  replayIsText (http.Get noType "Content-Type") = false ∧
  replayFinalRespBody (codec := GzipStored.lib) "" noType hello = "aGVsbG8=" ∧
  isTextData zeros (http.Get svg "Content-Type") = false ∧
  replayIsText (http.Get svg "Content-Type") = true.
Proof. vm_compute. repeat split; reflexivity. Qed.

(** ** List query *)

Section ListQuery.
Import ListRequests ListSpec.
Variable like : string → string → bool.
Variable compareTimestamp : Z → string → comparison.
Variable timestampText : Z → string.

Lemma build_pageSize p : bPageSize (build p) = effectivePageSize (page_size p).
Proof.
  unfold build, effectivePageSize.
  destruct (String.eqb (url p) ""), (String.eqb (start_date p) ""),
    (String.eqb (end_date p) ""); cbn [negb bPageSize];
    (destruct (String.eqb_spec (page_size p) "") as [->|_]; cbn [negb];
     [reflexivity|];
     destruct (Atoi (page_size p)) as [ps|]; [|reflexivity];
     replace (0 <? ps) with (1 <=? ps) by lia; reflexivity).
Qed.

Lemma build_page p : bPage (build p) = effectivePage (page p).
Proof.
  unfold build, effectivePage.
  destruct (String.eqb (url p) ""), (String.eqb (start_date p) ""),
    (String.eqb (end_date p) ""); cbn [negb bPage];
    (destruct (String.eqb_spec (page p) "") as [->|_]; cbn [negb];
     [reflexivity|];
     destruct (Atoi (page p)) as [n|]; [|reflexivity];
     replace (0 <? n) with (1 <=? n) by lia; reflexivity).
Qed.

Lemma effectivePageSize_range s : 1 <= effectivePageSize s <= 100.
Proof.
  unfold effectivePageSize. destruct (Atoi s) as [ps|]; [|lia].
  destruct (Z.leb_spec 1 ps), (Z.leb_spec ps 100); simpl; lia.
Qed.

Lemma effectivePage_pos s : 1 <= effectivePage s.
Proof.
  unfold effectivePage. destruct (Atoi s) as [n|]; [|lia].
  destruct (Z.leb_spec 1 n); lia.
Qed.

(** The two statements carry the same conditions, and the count query is
    run with the arguments of the list query less the last two. *)
Lemma build_queries p :
  sqlite.parseQuery sqlite.listHead sqlite.listTail (query (build p))
    = Some (conds p) ∧
  sqlite.parseQuery sqlite.countHead "" (countQuery (build p))
    = Some (conds p) ∧
  args (build p) =
    (condArgs p ++ [sqlite.Int (bPageSize (build p));
                    sqlite.Int (bOffset (build p))])%list ∧
  bOffset (build p) = wrap64 ((bPage (build p) - 1) * bPageSize (build p)).
Proof.
  unfold build, conds, condArgs.
  destruct (String.eqb (url p) ""), (String.eqb (start_date p) ""),
    (String.eqb (end_date p) ""); cbn [negb];
    repeat split; reflexivity.
Qed.

Lemma length_condArgs p : length (condArgs p) = length (conds p).
Proof.
  unfold conds, condArgs.
  by destruct (String.eqb (url p) ""), (String.eqb (start_date p) ""),
    (String.eqb (end_date p) "").
Qed.

Lemma whereHolds_matches p extra row :
  sqlite.whereHolds like compareTimestamp (conds p) (condArgs p ++ extra) row
  = matches like compareTimestamp p row.
Proof.
  unfold conds, condArgs, matches.
  destruct (String.eqb (url p) ""), (String.eqb (start_date p) ""),
    (String.eqb (end_date p) ""); cbn;
    rewrite ?andb_true_r, ?andb_assoc; try reflexivity; by destruct extra.
Qed.

Lemma filter_ext_bool {A} (f g : A → bool) l :
  (∀ x, f x = g x) → List.filter f l = List.filter g l.
Proof. intros E. induction l as [|x l IH]; simpl; [done|]. by rewrite E, IH. Qed.

(** The scanning loop keeps the rows whose scan succeeds and writes one
    line for each of the others. *)
Lemma scanListRows_surviving scanFault l log :
  scanListRows scanFault l log =
    (List.map sqlite.scanListRow (surviving scanFault l),
     (log ++ scanLines scanFault (length l))%list).
Proof.
  revert scanFault log. induction l as [|row l IH]; intros scanFault log.
  - cbn. by rewrite app_nil_r.
  - cbn [scanListRows surviving scanLines length].
    destruct (scanFault O) as [e|].
    + rewrite IH. unfold logLine. by rewrite <- app_assoc.
    + by rewrite IH.
Qed.

Lemma surviving_all {A} scanFault (l : list A) :
  (∀ i, scanFault i = None) →
  surviving scanFault l = l ∧ scanLines scanFault (length l) = [].
Proof.
  revert scanFault. induction l as [|x l IH]; intros scanFault Hnone; [done|].
  cbn. rewrite Hnone. destruct (IH (λ i, scanFault (S i))) as [-> ->]; [|done].
  intros i. apply Hnone.
Qed.

Lemma surviving_sublist {A} scanFault (l : list A) :
  surviving scanFault l `sublist_of` l.
Proof.
  revert scanFault. induction l as [|x l IH]; intros scanFault; [done|].
  cbn. destruct (scanFault O); [apply sublist_cons|apply sublist_skip]; apply IH.
Qed.

(** What the handler answers when both queries succeed, in terms of the
    request. *)
Lemma getRequests_answer scanFault db p log :
  let cut :=
    pageRows like compareTimestamp timestampText db p
      (wrap64 ((effectivePage (page p) - 1) * effectivePageSize (page_size p)))
      (effectivePageSize (page_size p)) in
  getRequests like compareTimestamp timestampText None None scanFault db p log =
    (OK {| Requests := List.map sqlite.scanListRow (surviving scanFault cut);
           Page := effectivePage (page p);
           PageSize := effectivePageSize (page_size p);
           TotalCount :=
             len (List.filter (matches like compareTimestamp p) (rows db));
           TotalPages :=
             Z.quot (len (List.filter (matches like compareTimestamp p) (rows db))
                     + effectivePageSize (page_size p) - 1)
                    (effectivePageSize (page_size p)) |},
     (log ++ scanLines scanFault (length cut))%list).
Proof.
  cbv zeta. unfold getRequests, sqlite.QueryCount, sqlite.QueryList.
  destruct (build_queries p) as (Hq & Hc & Ha & Ho).
  rewrite Hq, Hc, Ha, Ho, build_page, build_pageSize.
  rewrite length_app. cbn [length].
  replace (length (condArgs p) + 2 - 2)%nat with (length (condArgs p)) by lia.
  rewrite take_app_length, length_condArgs, Nat.eqb_refl.
  rewrite <- length_condArgs, drop_app_length.
  pose proof (effectivePageSize_range (page_size p)) as Hr.
  unfold sqlite.limitOffset.
  replace (effectivePageSize (page_size p) <? 0) with false by lia.
  rewrite (filter_ext_bool
             (sqlite.whereHolds like compareTimestamp (conds p) (condArgs p))
             (matches like compareTimestamp p));
    [|intros row; rewrite <- (app_nil_r (condArgs p)); apply whereHolds_matches].
  rewrite (filter_ext_bool
             (sqlite.whereHolds like compareTimestamp (conds p) (condArgs p ++ _))
             (matches like compareTimestamp p));
    [|intros row; apply whereHolds_matches].
  rewrite scanListRows_surviving. reflexivity.
Qed.

Lemma StronglySorted_sublist {A} (R : relation A) (l1 l2 : list A) :
  l1 `sublist_of` l2 → StronglySorted R l2 → StronglySorted R l1.
Proof.
  induction 1 as [|x l1 l2 Hsub IH|x l1 l2 Hsub IH]; intros Hs.
  - constructor.
  - apply StronglySorted_inv in Hs as [Hs Hall]. constructor; [auto|].
    rewrite Forall_forall in *. intros y Hy. apply Hall.
    by eapply elem_of_sublist.
  - apply StronglySorted_inv in Hs as [Hs _]. auto.
Qed.

(** Scanning keeps the timestamp, hence any order on it. *)
Lemma StronglySorted_scan (R : Z → Z → Prop) (l : list RequestLog.t) :
  StronglySorted (λ a b, R (RequestLog.Timestamp a) (RequestLog.Timestamp b)) l →
  StronglySorted (λ a b, R (RequestLog.Timestamp a) (RequestLog.Timestamp b))
    (List.map sqlite.scanListRow l).
Proof.
  induction 1 as [|x l Hs IH Hall]; simpl; constructor; [done|].
  rewrite Forall_forall in *. intros y Hy.
  apply list_elem_of_In, in_map_iff in Hy as (z & <- & Hz).
  apply list_elem_of_In in Hz. exact (Hall z Hz).
Qed.

(** The byte order on texts is transitive. *)
Lemma compare_le_trans (a b c : string) :
  String.compare a b ≠ Gt → String.compare b c ≠ Gt → String.compare a c ≠ Gt.
Proof.
  revert b c. induction a as [|x a IH]; intros [|y b] [|z c]; cbn; try done.
  unfold Ascii.compare.
  destruct (N.compare_spec (N_of_ascii x) (N_of_ascii y)) as [E1|L1|G1];
    destruct (N.compare_spec (N_of_ascii y) (N_of_ascii z)) as [E2|L2|G2];
    destruct (N.compare_spec (N_of_ascii x) (N_of_ascii z)) as [E3|L3|G3];
    try done; try lia.
  apply IH.
Qed.

Lemma leb_trans (a b c : string) :
  String.leb a b = true → String.leb b c = true → String.leb a c = true.
Proof.
  unfold String.leb. intros H1 H2.
  pose proof (compare_le_trans a b c) as H.
  destruct (String.compare a b), (String.compare b c), (String.compare a c);
    try done; by destruct H.
Qed.

Lemma listing_sorted db p :
  StronglySorted (sqlite.newerFirst timestampText)
    (listing like compareTimestamp timestampText db p).
Proof.
  apply StronglySorted_merge_sort.
  - intros a b c. unfold sqlite.newerFirst. intros H1 H2.
    by eapply leb_trans.
  - intros a b. unfold sqlite.newerFirst.
    destruct (String.leb_total (timestampText (RequestLog.Timestamp b))
                (timestampText (RequestLog.Timestamp a))); auto.
Qed.

Lemma listing_length db p :
  len (listing like compareTimestamp timestampText db p)
  = len (List.filter (matches like compareTimestamp p) (rows db)).
Proof.
  unfold len, listing. by rewrite merge_sort_Permutation.
Qed.

Lemma listing_rows db p row :
  row ∈ listing like compareTimestamp timestampText db p → row ∈ rows db.
Proof.
  unfold listing. rewrite merge_sort_Permutation.
  intros H. apply list_elem_of_In, filter_In in H as [H _].
  by apply list_elem_of_In.
Qed.

(** Where the stored texts follow the instants, the order of the engine is
    newest first. *)
Lemma newerFirst_newestFirst db (l : list RequestLog.t) :
  textsFollowInstants timestampText db →
  (∀ row, row ∈ l → row ∈ rows db) →
  StronglySorted (sqlite.newerFirst timestampText) l →
  StronglySorted newestFirst l.
Proof.
  intros Hfollow Hin Hs.
  induction Hs as [|x l Hs IH Hall]; constructor.
  - apply IH. intros row Hrow. apply Hin. by right.
  - rewrite Forall_forall in *. intros y Hy. unfold newestFirst.
    destruct (Z.le_gt_cases (RequestLog.Timestamp y) (RequestLog.Timestamp x))
      as [Hle|Hgt]; [done|].
    pose proof (Hall y Hy) as Hxy. unfold sqlite.newerFirst in Hxy.
    rewrite (Hfollow x y) in Hxy; [done| | |lia].
    + apply Hin. by left.
    + apply Hin. by right.
Qed.

Lemma totalPages_ceiling total pageSize :
  0 <= total → 1 <= pageSize →
  let pages := Z.quot (total + pageSize - 1) pageSize in
  (pages - 1) * pageSize < total <= pages * pageSize.
Proof.
  intros Ht Hp pages. subst pages.
  rewrite Z.quot_div_nonneg by lia.
  pose proof (Z.div_mod (total + pageSize - 1) pageSize ltac:(lia)) as Hd.
  pose proof (Z.mod_pos_bound (total + pageSize - 1) pageSize ltac:(lia)) as Hm.
  nia.
Qed.

(** C6 (as amended). If the count query fails the handler answers 500
    "Failed to fetch request count", if the list query fails 500 "Failed to
    fetch requests", each with one log line. Otherwise it answers with a
    page size from 1 to 100: the requested one if it is a number in that
    range, the default 50 if it is absent, not a number or out of range (it
    is not clamped to the nearer bound). The rows are the matching rows
    ordered by stored timestamp text descending, cut by OFFSET
    (page - 1) * pageSize and LIMIT pageSize, less the rows whose scan
    fails, each of which writes a log line; where the stored texts follow
    the instants the order is newest first. The total count is the number
    of rows matching the URL and date filters, whatever the pagination, and
    the page count is the ceiling of total over page size. With 120
    matching rows and page_size=50 there are 3 pages, and page=3 holds the
    remaining 20 rows. *)
Theorem list_query_pagination (countFault queryFault : option string)
    (scanFault : nat → option string) (db : DB) (p : Params) (log : Log) :
  let answer :=
    getRequests like compareTimestamp timestampText countFault queryFault
      scanFault db p log in
  let matching := List.filter (matches like compareTimestamp p) (rows db) in
  let whole := listing like compareTimestamp timestampText db p in
  let pageSize := effectivePageSize (page_size p) in
  let offset := wrap64 ((effectivePage (page p) - 1) * pageSize) in
  let cut := pageRows like compareTimestamp timestampText db p offset pageSize in
  (∀ e, countFault = Some e →
        answer = (Error "Failed to fetch request count" 500,
                  logLine log ("Error fetching request count: " ++ e))) ∧
  (∀ e, countFault = None → queryFault = Some e →
        answer = (Error "Failed to fetch requests" 500,
                  logLine log ("Error fetching requests: " ++ e))) ∧
  (countFault = None → queryFault = None →
   ∃ resp,
    answer.1 = OK resp ∧
    answer.2 = (log ++ scanLines scanFault (length cut))%list ∧
    PageSize resp = pageSize ∧
    1 <= PageSize resp <= 100 ∧
    (page_size p = "" → PageSize resp = 50) ∧
    (∀ ps, Atoi (page_size p) = Some ps → 1 <= ps <= 100 → PageSize resp = ps) ∧
    (∀ ps, Atoi (page_size p) = Some ps → ¬ (1 <= ps <= 100) → PageSize resp = 50) ∧
    Page resp = effectivePage (page p) ∧
    Requests resp = List.map sqlite.scanListRow (surviving scanFault cut) ∧
    ((∀ i, scanFault i = None) →
     Requests resp = List.map sqlite.scanListRow cut ∧ answer.2 = log) ∧
    ((Page resp - 1) * PageSize resp < 2 ^ 63 →
     offset = (Page resp - 1) * PageSize resp) ∧
    StronglySorted (sqlite.newerFirst timestampText) whole ∧
    whole ≡ₚ matching ∧
    StronglySorted (sqlite.newerFirst timestampText) (Requests resp) ∧
    (textsFollowInstants timestampText db →
     StronglySorted newestFirst whole ∧
     StronglySorted newestFirst (Requests resp)) ∧
    TotalCount resp = len matching ∧
    (∀ p' scanFault' log',
       url p' = url p → start_date p' = start_date p →
       end_date p' = end_date p →
       ∃ resp', (getRequests like compareTimestamp timestampText None None
                   scanFault' db p' log').1 = OK resp' ∧
                TotalCount resp' = TotalCount resp) ∧
    (TotalPages resp - 1) * PageSize resp < TotalCount resp
      <= TotalPages resp * PageSize resp ∧
    (TotalCount resp = 120 → page_size p = "50" →
     TotalPages resp = 3 ∧
     (page p = "3" → (∀ i, scanFault i = None) →
      length (Requests resp) = 20%nat ∧
      Requests resp = List.map sqlite.scanListRow (drop 100 whole)))).
Proof.
  cbv zeta. split.
  { intros e ->. reflexivity. }
  split.
  { intros e -> ->. unfold getRequests, sqlite.QueryCount, sqlite.QueryList.
    destruct (build_queries p) as (_ & Hc & Ha & _). rewrite Hc, Ha.
    rewrite length_app. cbn [length].
    replace (length (condArgs p) + 2 - 2)%nat with (length (condArgs p)) by lia.
    by rewrite take_app_length, length_condArgs, Nat.eqb_refl. }
  intros -> ->. rewrite getRequests_answer.
  eexists. split; [reflexivity|].
  cbn [fst snd Requests Page PageSize TotalCount TotalPages].
  pose proof (effectivePageSize_range (page_size p)) as Hps.
  pose proof (effectivePage_pos (page p)) as Hpg.
  assert (Hcut : ∀ offset pageSize,
            pageRows like compareTimestamp timestampText db p offset pageSize
              `sublist_of` listing like compareTimestamp timestampText db p).
  { intros offset pageSize. unfold pageRows.
    etrans; [apply sublist_take|apply sublist_drop]. }
  split; [done|]. split; [done|]. split; [done|]. split.
  { intros ->. reflexivity. }
  split.
  { intros ps Hat Hr. unfold effectivePageSize. rewrite Hat.
    replace (1 <=? ps) with true by lia. by replace (ps <=? 100) with true by lia. }
  split.
  { intros ps Hat Hr. unfold effectivePageSize. rewrite Hat.
    destruct (Z.leb_spec 1 ps), (Z.leb_spec ps 100); simpl; lia. }
  split; [done|]. split; [done|]. split.
  { intros Hnone.
    destruct (surviving_all scanFault
                (pageRows like compareTimestamp timestampText db p
                   (wrap64 ((effectivePage (page p) - 1)
                            * effectivePageSize (page_size p)))
                   (effectivePageSize (page_size p))) Hnone) as [-> ->].
    by rewrite app_nil_r. }
  split.
  { intros Hlt. unfold wrap64.
    rewrite Z.mod_small by nia. lia. }
  split; [apply listing_sorted|]. split; [apply merge_sort_Permutation|]. split.
  { apply (StronglySorted_scan
             (λ a b, String.leb (timestampText b) (timestampText a) = true)).
    eapply StronglySorted_sublist; [apply surviving_sublist|].
    eapply StronglySorted_sublist; [apply Hcut|].
    apply listing_sorted. }
  split.
  { intros Hfollow.
    assert (StronglySorted newestFirst
              (listing like compareTimestamp timestampText db p)) as Hwhole.
    { eapply newerFirst_newestFirst; [done|apply listing_rows|apply listing_sorted]. }
    split; [done|].
    apply (StronglySorted_scan (λ a b, b <= a)).
    eapply StronglySorted_sublist; [apply surviving_sublist|].
    eapply StronglySorted_sublist; [apply Hcut|]. done. }
  split; [done|]. split.
  { intros p' scanFault' log' Hu Hs He. rewrite getRequests_answer.
    eexists. split; [reflexivity|].
    cbn [TotalCount]. f_equal. apply filter_ext_bool. intros row.
    unfold matches. by rewrite Hu, Hs, He. }
  split.
  { apply totalPages_ceiling; [unfold len; lia | lia]. }
  intros Htotal Hsz. rewrite Hsz in *.
  change (effectivePageSize "50") with 50 in *.
  rewrite Htotal. split; [reflexivity|].
  intros Hp Hnone. rewrite Hp. change (effectivePage "3") with 3.
  destruct (surviving_all scanFault
              (pageRows like compareTimestamp timestampText db p
                 (wrap64 ((3 - 1) * 50)) 50) Hnone) as [-> _].
  unfold pageRows.
  change (Z.to_nat (wrap64 ((3 - 1) * 50))) with 100%nat.
  change (Z.to_nat 50) with 50%nat.
  rewrite <- listing_length in Htotal. unfold len in Htotal.
  assert (take 50 (drop 100 (listing like compareTimestamp timestampText db p))
          = drop 100 (listing like compareTimestamp timestampText db p)) as ->.
  { apply take_ge. rewrite length_drop. lia. }
  split; [|reflexivity].
  rewrite length_map, length_drop. lia.
Qed.

End ListQuery.

(** C6, as stated, fails on the page size: a request for 500 rows per page
    is answered with the default 50, not with the upper bound 100, and a
    request for 0 with 50, not with the lower bound 1. *)
Lemma page_size_not_clamped :
  let db := ListSpec.sampleDB 3 in
  let answer size :=
    (ListRequests.getRequests (λ _ _, true) (λ _ _, Eq) Itoa None None
       ListSpec.noScanFault db (ListSpec.request "1" size) []).1 in
  (∃ resp, answer "500" = ListRequests.OK resp ∧
           ListRequests.PageSize resp = 50 ∧
           ListSpec.clamp 1 100 500 = 100) ∧
  (∃ resp, answer "0" = ListRequests.OK resp ∧
           ListRequests.PageSize resp = 50 ∧
           ListSpec.clamp 1 100 0 = 1).
Proof.
  split; eexists; (split; [vm_compute; reflexivity|]); split; reflexivity.
Qed.

(** The example of the specification, evaluated: 120 rows, page_size=50,
    page=3. *)
Example list_query_page_three :
  match (ListRequests.getRequests (λ _ _, true) (λ _ _, Eq) Itoa None None
           ListSpec.noScanFault (ListSpec.sampleDB 120)
           (ListSpec.request "3" "50") []).1 with
  | ListRequests.OK resp =>
      ListRequests.TotalCount resp = 120 ∧
      ListRequests.TotalPages resp = 3 ∧
      List.map RequestLog.ID (ListRequests.Requests resp)
        = List.map Z.of_nat (rev (seq 1 20))
  | ListRequests.Error _ _ => False
  end.
Proof. vm_compute. repeat split; reflexivity. Qed.

(** The statement above on a table of three rows when the scan of the
    second row of the page fails: the first and the third are returned,
    newest first, and one line is written. *)
Lemma list_query_pagination_witness :
  let db := ListSpec.sampleDB 3 in
  let p := ListSpec.request "1" "50" in
  let scanFault := λ i : nat,
    if (i =? 1)%nat then Some "unsupported Scan" else None in
  let answer :=
    ListRequests.getRequests (λ _ _, true) (λ _ _, Eq) Itoa None None
      scanFault db p [] in
  ListSpec.textsFollowInstants Itoa db ∧
  ∃ resp,
    answer.1 = ListRequests.OK resp ∧
    List.map RequestLog.ID (ListRequests.Requests resp) = [3; 1] ∧
    answer.2 = ["Error scanning request: unsupported Scan"] ∧
    StronglySorted ListSpec.newestFirst (ListRequests.Requests resp).
Proof.
  intros db p scanFault answer.
  assert (ListSpec.textsFollowInstants Itoa db) as Hfollow.
  { intros a b Ha Hb. unfold db in Ha, Hb.
    cbn [rows ListSpec.sampleDB List.map seq] in Ha, Hb.
    rewrite !elem_of_cons, elem_of_nil in Ha, Hb.
    destruct Ha as [->|[->|[->|[]]]], Hb as [->|[->|[->|[]]]]; cbn;
      intros Hlt; first [lia | vm_compute; reflexivity]. }
  split; [exact Hfollow|].
  destruct (proj2 (proj2
              (list_query_pagination (λ _ _, true) (λ _ _, Eq) Itoa None None
                 scanFault db p [])) eq_refl eq_refl)
    as (resp & Hok & Hlog & _ & _ & _ & _ & _ & _ & Hrows & _ & _ & _ & _ & _
        & Hnewest & _).
  exists resp. split; [exact Hok|]. split; [|split].
  - rewrite Hrows. vm_compute. reflexivity.
  - unfold answer. rewrite Hlog. vm_compute. reflexivity.
  - exact (proj2 (Hnewest Hfollow)).
Defined.

(** ** Replay engine: where the request goes *)

Section ReplayURL.
Import url.

Lemma setPath_frame u p u' :
  setPath u p = Ok u' →
  Scheme u' = Scheme u ∧ Opaque u' = Opaque u ∧ User u' = User u ∧
  Host u' = Host u ∧ RawQuery u' = RawQuery u ∧ ForceQuery u' = ForceQuery u ∧
  Fragment u' = Fragment u.
Proof.
  unfold setPath. destruct (unescape p encodePath); [|done].
  intros [= <-]. done.
Qed.

Lemma setPathIgnoringError_frame u p :
  let u' := setPathIgnoringError u p in
  Scheme u' = Scheme u ∧ Opaque u' = Opaque u ∧ User u' = User u ∧
  Host u' = Host u ∧ RawQuery u' = RawQuery u ∧ ForceQuery u' = ForceQuery u ∧
  Fragment u' = Fragment u.
Proof.
  unfold setPathIgnoringError. destruct (setPath u p) eqn:E; [|done].
  by apply setPath_frame in E.
Qed.

Lemma setFragment_frame u f u' :
  setFragment u f = Ok u' →
  Scheme u' = Scheme u ∧ Opaque u' = Opaque u ∧ User u' = User u ∧
  Host u' = Host u ∧ Path u' = Path u.
Proof.
  unfold setFragment. destruct (unescape f encodeFragment); [|done].
  intros [= <-]. done.
Qed.

Lemma cutQuery_frame u rest u1 rest' :
  cutQuery u rest = (u1, rest') →
  Scheme u1 = Scheme u ∧ Opaque u1 = Opaque u ∧ Host u1 = Host u ∧
  User u1 = User u ∧ Path u1 = Path u.
Proof.
  unfold cutQuery.
  destruct (GoStrings2.TrimLast rest "?");
    [destruct (_ =? _)%nat; [by intros [= <- <-]|]|];
    (destruct (GoStrings2.Cut rest "?") as [[b a]|]; by intros [= <- <-]).
Qed.

Lemma parse_wellShaped s u : parse s = Ok u → wellShaped u.
Proof.
  unfold parse, wellShaped.
  destruct (stringContainsCTLByte s); [done|].
  destruct (String.eqb s "*"); [intros [= <-]; by left|].
  destruct (getScheme s) as [[scheme rest]|]; [|done].
  destruct (cutQuery _ rest) as [u1 rest'] eqn:Hq.
  apply cutQuery_frame in Hq as (Hs & Ho & Hh & Hu & Hp). cbn in Hs, Ho, Hh, Hu, Hp.
  destruct (negb (GoStrings.HasPrefix rest' "/") && negb (String.eqb (Scheme u1) ""))
    eqn:Hop.
  { intros [= <-]. right. cbn.
    apply andb_true_iff in Hop as [_ Hop]. apply negb_true_iff in Hop.
    apply String.eqb_neq in Hop. done. }
  destruct (_ && firstSegmentHasColon rest'); [done|].
  destruct (_ && GoStrings.HasPrefix rest' "//").
  { destruct (cutAuthority rest') as [a r].
    destruct (parseAuthority a) as [[user host]|]; [|done].
    intros E. apply setPath_frame in E as (_ & -> & _). by left. }
  destruct (_ && GoStrings.HasPrefix rest' "/").
  - intros E. apply setPath_frame in E as (_ & -> & _). by left.
  - intros E. apply setPath_frame in E as (_ & -> & _). by left.
Qed.

Lemma Parse_wellShaped s u : Parse s = Ok u → wellShaped u.
Proof.
  unfold Parse.
  destruct (cutFragment s) as [s' frag].
  destruct (parse s') as [u0|] eqn:E; [|done].
  apply parse_wellShaped in E.
  destruct (String.eqb frag ""); [by intros [= <-]|].
  intros F. apply setFragment_frame in F as (Hs & Ho & Hu & Hh & Hp).
  unfold wellShaped in *. rewrite Hs, Ho, Hu, Hh, Hp. exact E.
Qed.

Lemma unescapeDecode_nonempty s mode : unescapeDecode s mode = "" → s = "".
Proof.
  destruct s as [|c s]; [done|]. simpl. repeat case_match; discriminate.
Qed.

Lemma EscapedPath_empty u : Path u = "" → EscapedPath u = "".
Proof.
  intros Hp. unfold EscapedPath. rewrite Hp.
  destruct (String.eqb_spec (RawPath u) "") as [->|Hraw]; [done|].
  cbn [negb andb]. unfold unescape.
  destruct (unescapeCheck (RawPath u) encodePath); cbn.
  - by rewrite andb_false_r.
  - destruct (String.eqb_spec (unescapeDecode (RawPath u) encodePath) "")
      as [E|_].
    + by apply unescapeDecode_nonempty in E.
    + by rewrite andb_false_r.
Qed.

Lemma resolve_relative t ref :
  wellShaped t → wellShaped ref →
  Scheme ref = "" → Host ref = "" → User ref = None →
  let r := ResolveReference t ref in
  Scheme r = Scheme t ∧ Host r = Host t ∧ User r = User t.
Proof.
  intros Wt Wr Hs Hh Hu. unfold ResolveReference. rewrite Hs, Hh, Hu.
  cbn [String.eqb negb orb].
  destruct Wr as [Ho|[Hne _]]; [|done]. rewrite Ho. cbn [String.eqb negb].
  destruct (String.eqb (Path ref) "" && negb (String.eqb (Opaque t) "")) eqn:Hop.
  - apply andb_true_iff in Hop as [_ Hop]. apply negb_true_iff in Hop.
    apply String.eqb_neq in Hop.
    destruct Wt as [Ht|(_ & Hth & Htu & _)]; [done|].
    rewrite Hth, Htu.
    destruct (_ && String.eqb (RawQuery ref) "");
      [destruct (String.eqb (Fragment ref) "")|]; done.
  - match goal with |- context [setPathIgnoringError ?u ?p] =>
      pose proof (setPathIgnoringError_frame u p) as F end.
    cbv zeta in F. destruct F as (F1 & _ & F3 & F4 & _).
    cbv zeta. rewrite F1, F3, F4.
    destruct (_ && String.eqb (RawQuery ref) "");
      [destruct (String.eqb (Fragment ref) "")|]; done.
Qed.

Lemma resolve_absolute t ref :
  Scheme ref ≠ "" →
  ResolveReference t ref =
    setPathIgnoringError ref (resolvePath (EscapedPath ref) "").
Proof.
  intros Hs. unfold ResolveReference.
  apply String.eqb_neq in Hs. by rewrite Hs.
Qed.

Lemma resolvePath_rooted base ref :
  GoStrings.HasPrefix ref "/" = true →
  resolvePath base ref = resolvePath "" ref.
Proof.
  intros H. unfold resolvePath. rewrite H.
  destruct ref; [done|]. reflexivity.
Qed.

Lemma resolve_rooted t ref :
  wellShaped ref →
  Scheme ref = "" → Host ref = "" → User ref = None →
  GoStrings.HasPrefix (EscapedPath ref) "/" = true →
  ResolveReference t ref =
    setPathIgnoringError
      (withAuthority (withScheme ref (Scheme t)) (User t) (Host t))
      (resolvePath "" (EscapedPath ref)).
Proof.
  intros Wr Hs Hh Hu Hroot. unfold ResolveReference. rewrite Hs, Hh, Hu.
  cbn [String.eqb negb orb].
  destruct Wr as [Ho|[Hne _]]; [|done]. rewrite Ho. cbn [String.eqb negb].
  destruct (String.eqb_spec (Path ref) "") as [Hp|Hp].
  { apply EscapedPath_empty in Hp. rewrite Hp in Hroot. done. }
  cbn [andb]. by rewrite (resolvePath_rooted _ _ Hroot).
Qed.

(** C9 (as amended). The replay engine parses the configured target and
    the caller's URL and sends the request to the reference resolved
    against the target. For a URL without scheme, host and user
    information the result has the target's scheme, host and user
    information; if its path starts with a slash, the target's path and
    query play no part. A URL with a scheme is resolved without the
    target: scheme, host, user information and query are the caller's and
    the path is the caller's with its dot segments removed. The relative
    URL /foo?q=1 with target http://api.example.com goes to
    http://api.example.com/foo?q=1. *)
Theorem replay_url_resolution (targetStr replayURL : string) (t ref : URL) :
  Parse targetStr = Ok t →
  Parse replayURL = Ok ref →
  let r := ResolveReference t ref in
  replayFinalURL (Some targetStr) replayURL = (replayTo (String_ r), []) ∧
  (Scheme ref = "" → Host ref = "" → User ref = None →
   Scheme r = Scheme t ∧ Host r = Host t ∧ User r = User t ∧
   (GoStrings.HasPrefix (EscapedPath ref) "/" = true →
    r = setPathIgnoringError
          (withAuthority (withScheme ref (Scheme t)) (User t) (Host t))
          (resolvePath "" (EscapedPath ref)) ∧
    RawQuery r = RawQuery ref)) ∧
  (Scheme ref ≠ "" →
   r = setPathIgnoringError ref (resolvePath (EscapedPath ref) "") ∧
   Scheme r = Scheme ref ∧ Host r = Host ref ∧ User r = User ref ∧
   RawQuery r = RawQuery ref ∧
   ∀ t', ResolveReference t' ref = r) ∧
  replayFinalURL (Some "http://api.example.com") "/foo?q=1"
    = (replayTo "http://api.example.com/foo?q=1", []).
Proof.
  intros Ht Hr r.
  pose proof (Parse_wellShaped _ _ Ht) as Wt.
  pose proof (Parse_wellShaped _ _ Hr) as Wr.
  split; [unfold replayFinalURL; by rewrite Ht, Hr|].
  split; [|split; [|by vm_compute]].
  - intros Hs Hh Hu.
    destruct (resolve_relative t ref Wt Wr Hs Hh Hu) as (R1 & R2 & R3).
    repeat split; try done.
    + by apply resolve_rooted.
    + subst r. rewrite (resolve_rooted t ref Wr Hs Hh Hu H).
      match goal with |- context [setPathIgnoringError ?u ?p] =>
        pose proof (setPathIgnoringError_frame u p) as F end.
      cbv zeta in F. by destruct F as (_ & _ & _ & _ & -> & _).
  - intros Hs. subst r. rewrite (resolve_absolute t ref Hs).
    match goal with |- context [setPathIgnoringError ?u ?p] =>
      pose proof (setPathIgnoringError_frame u p) as F end.
    cbv zeta in F. destruct F as (F1 & _ & F3 & F4 & F5 & _).
    repeat split; try done.
    intros t'. apply resolve_absolute, Hs.
Qed.

End ReplayURL.

(** The statement above for a target with a path and a query of its own:
    a rooted reference keeps neither. *)
Lemma replay_url_resolution_witness :
  url.Parse "http://api.example.com/v1/items?k=1"
    = Ok (url.withQuery
            (url.withPath
               (url.withAuthority (url.withScheme url.empty "http") None
                  "api.example.com")
               "/v1/items")
            false "k=1") ∧
  url.Parse "/foo?q=1"
    = Ok (url.withQuery (url.withPath url.empty "/foo") false "q=1") ∧
  replayFinalURL (Some "http://api.example.com/v1/items?k=1") "/foo?q=1"
    = (replayTo "http://api.example.com/foo?q=1", []).
Proof.
  assert (url.Parse "http://api.example.com/v1/items?k=1"
          = Ok (url.withQuery
                  (url.withPath
                     (url.withAuthority (url.withScheme url.empty "http") None
                        "api.example.com")
                     "/v1/items")
                  false "k=1")) as Ht by (vm_compute; reflexivity).
  assert (url.Parse "/foo?q=1"
          = Ok (url.withQuery (url.withPath url.empty "/foo") false "q=1"))
    as Hr by (vm_compute; reflexivity).
  split; [exact Ht|]. split; [exact Hr|].
  destruct (replay_url_resolution _ _ _ _ Ht Hr) as (W & _).
  rewrite W. vm_compute. reflexivity.
Defined.

(** C9, as stated, fails for absolute URLs: they are not always used as
    they are. Dot segments are removed from the path and the scheme is
    put in lower case. *)
Lemma absolute_replay_url_is_normalised :
  fst (replayFinalURL (Some "http://api.example.com") "http://a/b/../c")
    = replayTo "http://a/c" ∧
  fst (replayFinalURL (Some "http://api.example.com") "HTTP://a/b")
    = replayTo "http://a/b" ∧
  "http://a/c" ≠ "http://a/b/../c" ∧ "http://a/b" ≠ "HTTP://a/b".
Proof. vm_compute. repeat split; try reflexivity; discriminate. Qed.

(* ===================================================================== *)
(** * Part IV: further properties of the code                             *)
(* ===================================================================== *)

(** ** The interceptor on every input *)

Section InterceptorTotal.
Context {codec : GzipLib}.

Lemma onlyLogged_refl g : onlyLogged g g.
Proof. repeat split. exists []. by rewrite app_nil_r. Qed.

Lemma onlyLogged_logPrint g line : onlyLogged g (logPrint g line).
Proof. repeat split. by exists [line]. Qed.

Lemma recordedBody_plain h raw :
  http.Get h "Content-Encoding" ≠ "gzip" → recordedBody h raw = raw.
Proof.
  intros Hce. unfold recordedBody. apply String.eqb_neq in Hce.
  by rewrite Hce.
Qed.

Lemma recordedBody_failure h raw partial e :
  decompressGzip raw = (partial, Some e) → recordedBody h raw = raw.
Proof.
  intros Hgz. unfold recordedBody. rewrite Hgz. cbn [snd].
  rewrite bool_decide_eq_false_2 by done. by rewrite andb_false_r.
Qed.

Lemma recordedBody_success h raw d :
  http.Get h "Content-Encoding" = "gzip" →
  decompressGzip raw = (d, None) → recordedBody h raw = d.
Proof.
  intros Hce Hgz. unfold recordedBody. rewrite Hce, Hgz. cbn [snd fst].
  rewrite bool_decide_eq_true_2 by done. reflexivity.
Qed.

(** [ServeHTTP] on a readable request. *)
Lemma ServeHTTP_readable now r g :
  io.fault (Request.Body r) = None →
  let raw := io.unread (Request.Body r) in
  ∃ g',
    onlyLogged g g' ∧
    ServeHTTP now r g =
      (Forward (Request.WithContext (Request.withBody r (io.NopCloser raw))
                  (candidate now r (recordedBody (Request.Header r) raw))),
       g').
Proof.
  intros Hfault raw. unfold ServeHTTP, io.ReadAll. rewrite Hfault.
  cbn [Request.withBody Request.Header]. fold raw.
  destruct (String.eqb (http.Get (Request.Header r) "Content-Encoding") "gzip")
    eqn:Hce.
  - apply String.eqb_eq in Hce.
    destruct (decompressGzip raw) as [d [e|]] eqn:Hgz.
    + eexists. split; [apply onlyLogged_logPrint|].
      by rewrite (recordedBody_failure _ _ _ _ Hgz).
    + exists g. split; [apply onlyLogged_refl|].
      by rewrite (recordedBody_success _ _ _ Hce Hgz).
  - apply String.eqb_neq in Hce. exists g. split; [apply onlyLogged_refl|].
    by rewrite (recordedBody_plain _ _ Hce).
Qed.

(** [ModifyResponse] on a readable response of a request that carries its
    record. *)
Lemma ModifyResponse_readable resp g reqLog :
  Request.Ctx (Response.Request resp) = Some reqLog →
  io.fault (Response.Body resp) = None →
  let stored :=
    completed reqLog resp
      (recordedBody (Response.Header resp) (io.unread (Response.Body resp))) in
  ∃ resp' g0,
    onlyLogged g g0 ∧
    Request.Ctx (Response.Request resp') = Some stored ∧
    ModifyResponse resp g = (None, resp', enqueue g0 stored).
Proof.
  intros Hctx Hfault stored. subst stored.
  destruct (String.eqb (http.Get (Response.Header resp) "Content-Encoding")
              "gzip") eqn:Hce.
  - apply String.eqb_eq in Hce.
    destruct (decompressGzip (io.unread (Response.Body resp)))
      as [d [e|]] eqn:Hgz.
    + rewrite (recordedBody_failure _ _ _ _ Hgz).
      rewrite (ModifyResponse_gzip_failure resp g reqLog d e Hctx Hfault Hce Hgz).
      do 2 eexists. split; [apply onlyLogged_logPrint|]. split; [|reflexivity]. reflexivity.
    + rewrite (recordedBody_success _ _ _ Hce Hgz).
      rewrite (ModifyResponse_gzip_success resp g reqLog d Hctx Hfault Hce Hgz).
      do 2 eexists. split; [apply onlyLogged_refl|]. split; [|reflexivity]. reflexivity.
  - apply String.eqb_neq in Hce. rewrite (recordedBody_plain _ _ Hce).
    pose proof (ModifyResponse_identity resp g reqLog Hctx Hfault Hce) as E.
    cbv zeta in E. rewrite E.
    do 2 eexists. split; [apply onlyLogged_refl|]. split; [|reflexivity]. reflexivity.
Qed.

(** What [enqueue] does to the channel, in every case. *)
Lemma enqueue_cases g reqLog :
  IsRecording (enqueue g reqLog) = IsRecording g ∧
  chan.capacity (requestLogChan (enqueue g reqLog))
    = chan.capacity (requestLogChan g) ∧
  ((IsRecording g = true ∧
    len (chan.buffer (requestLogChan g)) < chan.capacity (requestLogChan g) ∧
    chan.buffer (requestLogChan (enqueue g reqLog))
      = (chan.buffer (requestLogChan g) ++ [reqLog])%list ∧
    opLog (enqueue g reqLog) = opLog g) ∨
   (IsRecording g = true ∧
    chan.capacity (requestLogChan g) <= len (chan.buffer (requestLogChan g)) ∧
    requestLogChan (enqueue g reqLog) = requestLogChan g ∧
    opLog (enqueue g reqLog) = (opLog g ++ [dropLine])%list) ∨
   (IsRecording g = false ∧ enqueue g reqLog = g)).
Proof.
  unfold enqueue, chan.trySend.
  destruct (IsRecording g) eqn:Hrec; [|by repeat split; auto].
  destruct (Z.ltb_spec (len (chan.buffer (requestLogChan g)))
              (chan.capacity (requestLogChan g))) as [Hroom|Hfull].
  - cbn. rewrite Hrec. repeat split. left. by repeat split.
  - cbn. rewrite Hrec. repeat split. right. left. by repeat split.
Qed.

(** X1. [ServeHTTP] never touches the recording flag or the log channel.
    It answers 500 "Error reading request body" exactly when the request
    body cannot be read, and logs the error; otherwise it forwards the
    request with its method, URL and headers, a fresh stream over exactly
    the bytes read, and a record whose request body is the inflated body
    for a gzip request that inflates and the bytes as received in every
    other case, a gzip body that does not inflate included, which costs
    one log line. *)
Theorem ServeHTTP_rejects_or_forwards now r g :
  let raw := io.unread (Request.Body r) in
  let '(served, g') := ServeHTTP now r g in
  onlyLogged g g' ∧
  match io.fault (Request.Body r) with
  | Some e =>
      served = httpError "Error reading request body" 500 ∧
      opLog g' = logLine (opLog g) ("Error reading request body: " ++ e)
  | None =>
      served =
        Forward
          {| Request.Method := Request.Method r;
             Request.URL := Request.URL r;
             Request.Header := Request.Header r;
             Request.Body := {| io.unread := raw; io.fault := None |};
             Request.Ctx :=
               Some (candidate now r
                       (recordedBody (Request.Header r) raw)) |} ∧
      (http.Get (Request.Header r) "Content-Encoding" ≠ "gzip" ∨
       (decompressGzip raw).2 = None → opLog g' = opLog g) ∧
      (∀ e, http.Get (Request.Header r) "Content-Encoding" = "gzip" →
            (decompressGzip raw).2 = Some e →
            opLog g' =
              logLine (opLog g) ("Error decompressing request body: " ++ e))
  end.
Proof.
  intros raw. unfold ServeHTTP, io.ReadAll. fold raw.
  destruct (io.fault (Request.Body r)) as [e|] eqn:Hfault.
  - split; [apply onlyLogged_logPrint|]. by split.
  - cbn [Request.withBody Request.Header].
    destruct (String.eqb (http.Get (Request.Header r) "Content-Encoding")
                "gzip") eqn:Hce.
    + apply String.eqb_eq in Hce.
      destruct (decompressGzip raw) as [d [e|]] eqn:Hgz; cbn [snd].
      * split; [apply onlyLogged_logPrint|].
        rewrite (recordedBody_failure _ _ _ _ Hgz).
        split; [reflexivity|]. split.
        -- intros [H|H]; [by rewrite Hce in H | discriminate].
        -- intros e' _ [= <-]. reflexivity.
      * split; [apply onlyLogged_refl|].
        rewrite (recordedBody_success _ _ _ Hce Hgz).
        split; [reflexivity|]. split; [done|]. intros e' _ [=].
    + apply String.eqb_neq in Hce. split; [apply onlyLogged_refl|].
      rewrite (recordedBody_plain _ _ Hce).
      split; [reflexivity|]. split; [done|]. intros e' H. by rewrite H in Hce.
Qed.

(** X2. One call of [ModifyResponse] never changes the recording flag or
    the capacity of the channel, only adds lines to the log, and queues at
    most one record, which is the record it leaves in the context. It
    queues nothing when it returns an error, when the request carries no
    record, or when recording is off. The error it returns is the error of
    reading the response body, and without a record in the context the
    response is returned as it came, its body unread. *)
Theorem ModifyResponse_queues_at_most_once resp g :
  let '(err, resp', g') := ModifyResponse resp g in
  IsRecording g' = IsRecording g ∧
  chan.capacity (requestLogChan g') = chan.capacity (requestLogChan g) ∧
  (∃ lines, opLog g' = (opLog g ++ lines)%list) ∧
  (chan.buffer (requestLogChan g') = chan.buffer (requestLogChan g) ∨
   ∃ stored,
     Request.Ctx (Response.Request resp') = Some stored ∧
     chan.buffer (requestLogChan g') =
       (chan.buffer (requestLogChan g) ++ [stored])%list) ∧
  (err ≠ None ∨ Request.Ctx (Response.Request resp) = None ∨
   IsRecording g = false →
   requestLogChan g' = requestLogChan g) ∧
  err = match Request.Ctx (Response.Request resp) with
        | Some _ => io.fault (Response.Body resp)
        | None => None
        end ∧
  (Request.Ctx (Response.Request resp) = None → resp' = resp).
Proof.
  destruct (Request.Ctx (Response.Request resp)) as [reqLog|] eqn:Hctx.
  - destruct (io.fault (Response.Body resp)) as [e|] eqn:Hfault.
    + unfold ModifyResponse, io.ReadAll. rewrite Hctx, Hfault.
      repeat split; try done; [eexists; reflexivity | by left].
    + destruct (ModifyResponse_readable resp g reqLog Hctx Hfault)
        as (resp' & g0 & (Hrec & Hchan & lines & Hlog) & Hstored & ->).
      destruct (enqueue_cases g0
                  (completed reqLog resp
                     (recordedBody (Response.Header resp)
                        (io.unread (Response.Body resp)))))
        as (Hr & Hc & Hcases).
      rewrite Hr, Hc, Hrec, Hchan.
      split; [done|]. split; [done|].
      destruct Hcases as [(Hon & _ & Hb & Hl) | [(_ & _ & Hq & Hl) | (Hoff & ->)]].
      * split; [exists lines; by rewrite Hl|]. split.
        -- right. eexists. split; [exact Hstored|]. by rewrite Hb, Hchan.
        -- split; [|by split].
           intros [H|[H|H]]; [done | done |]. congruence.
      * split.
        { exists (lines ++ [dropLine])%list. rewrite Hl, Hlog.
          by rewrite app_assoc. }
        split; [left; by rewrite Hq, Hchan|].
        split; [|by split]. intros _. by rewrite Hq, Hchan.
      * split; [by exists lines|]. split; [left; by rewrite Hchan|].
        split; [|by split]. done.
  - unfold ModifyResponse. rewrite Hctx.
    repeat split; try done; [eexists; reflexivity | by left].
Qed.

(** X3. A request that [ServeHTTP] forwards and whose readable answer then
    passes through [ModifyResponse], with recording on and room in the
    channel, adds exactly one record to the channel. The record carries
    the time of arrival, the method, the URL and the headers of the
    request, the status and the headers of the answer as received, and the
    two bodies, each inflated if it was gzip-encoded and inflates. *)
Theorem exchange_is_recorded now r g newReq g1 resp :
  ServeHTTP now r g = (Forward newReq, g1) →
  Response.Request resp = newReq →
  io.fault (Response.Body resp) = None →
  IsRecording g = true →
  len (chan.buffer (requestLogChan g)) < chan.capacity (requestLogChan g) →
  let '(err, _, g2) := ModifyResponse resp g1 in
  ∃ stored,
    err = None ∧
    chan.buffer (requestLogChan g2) =
      (chan.buffer (requestLogChan g) ++ [stored])%list ∧
    RequestLog.Timestamp stored = now ∧
    RequestLog.Method stored = Request.Method r ∧
    RequestLog.URL stored = Request.URL r ∧
    RequestLog.RequestHeaders stored = HeadersToJSON (Request.Header r) ∧
    RequestLog.RequestBody stored =
      recordedBody (Request.Header r) (io.unread (Request.Body r)) ∧
    RequestLog.StatusCode stored = Response.StatusCode resp ∧
    RequestLog.ResponseHeaders stored = HeadersToJSON (Response.Header resp) ∧
    RequestLog.ResponseBody stored =
      recordedBody (Response.Header resp) (io.unread (Response.Body resp)).
Proof.
  intros Hserve Hreq Hfault Hrec Hroom.
  assert (io.fault (Request.Body r) = None) as Hrfault.
  { unfold ServeHTTP, io.ReadAll in Hserve.
    destruct (io.fault (Request.Body r)); [discriminate|done]. }
  destruct (ServeHTTP_readable now r g Hrfault) as (g1' & Hg1 & E).
  rewrite E in Hserve. injection Hserve as <- <-.
  destruct Hg1 as (Hrec1 & Hchan1 & _).
  assert (Request.Ctx (Response.Request resp) =
          Some (candidate now r
                  (recordedBody (Request.Header r)
                     (io.unread (Request.Body r))))) as Hctx
    by (by rewrite Hreq).
  destruct (ModifyResponse_readable resp g1' _ Hctx Hfault)
    as (resp' & g0 & (Hrec0 & Hchan0 & _) & _ & ->).
  eexists. split; [reflexivity|]. split.
  - rewrite enqueue_room by (rewrite ?Hrec0, ?Hchan0, ?Hrec1, ?Hchan1; done).
    cbn. by rewrite Hchan0, Hchan1.
  - repeat split.
Qed.

End InterceptorTotal.

(** The statement above for the gzip-encoded sample request answered by
    the gzip-encoded sample answer: both recorded bodies are inflated. *)
Lemma exchange_is_recorded_witness :
  let g := mainGlobals true in
  let served := ServeHTTP (codec := GzipStored.lib) 1000 Sample.gzRequest g in
  ∃ newReq,
    served = (Forward newReq, g) ∧
    let resp := {| Response.StatusCode := 200;
                   Response.Header := Sample.gzHeader;
                   Response.Body := {| io.unread := Sample.gzBody;
                                       io.fault := None |};
                   Response.Request := newReq |} in
    let '(err, _, g2) := ModifyResponse (codec := GzipStored.lib) resp g in
    ∃ stored,
      err = None ∧
      chan.buffer (requestLogChan g2) = [stored] ∧
      RequestLog.RequestBody stored = Sample.hi ∧
      RequestLog.ResponseBody stored = Sample.hi.
Proof.
  intros g served. eexists. split; [vm_compute; reflexivity|].
  match goal with
  | |- let resp := ?R in _ =>
      pose proof (exchange_is_recorded (codec := GzipStored.lib) 1000
                    Sample.gzRequest g _ g R
                    ltac:(vm_compute; reflexivity) eq_refl eq_refl eq_refl
                    ltac:(vm_compute; reflexivity)) as W
  end.
  intros resp. fold resp in W.
  destruct (ModifyResponse resp g) as [[err resp'] g2].
  destruct W as (stored & H1 & H2 & _ & _ & _ & _ & H7 & _ & _ & H10).
  exists stored. split; [exact H1|]. split; [exact H2|].
  split; [rewrite H7 | rewrite H10]; vm_compute; reflexivity.
Defined.

(** ** The log pipeline under every interleaving *)

Section PipelineInvariants.
Variable Unmarshal : string → option Header.

Lemma startRecording_state g :
  (startRecordingHandler (A := unit) (postTo "/api/start-recording") g).2 =
    logPrint (setRecording g true) "Recording started.".
Proof. reflexivity. Qed.

Lemma stopRecording_state g :
  (stopRecordingHandler (A := unit) (postTo "/api/stop-recording") g).2 =
    logPrint (setRecording g false) "Recording stopped.".
Proof. reflexivity. Qed.

Lemma run_app events1 events2 s :
  run Unmarshal (events1 ++ events2) s =
    run Unmarshal events2 (run Unmarshal events1 s).
Proof. apply fold_left_app. Qed.

(** X4. Whatever the proxy, the consumer and the administrators do, in
    whatever order, the channel keeps the capacity it was made with and
    never holds more records than that: from the state set up by [main],
    never more than 100. *)
Theorem channel_never_exceeds_capacity (events : list Event)
    (recordOnStart : bool) (db : DB) :
  let g := (run Unmarshal events (mainGlobals recordOnStart, db)).1 in
  chan.capacity (requestLogChan g) = 100 ∧
  len (chan.buffer (requestLogChan g)) <= 100.
Proof.
  cbv zeta.
  assert (∀ s,
            chan.capacity (requestLogChan s.1) = 100 →
            len (chan.buffer (requestLogChan s.1)) <= 100 →
            chan.capacity (requestLogChan (run Unmarshal events s).1) = 100 ∧
            len (chan.buffer (requestLogChan (run Unmarshal events s).1))
              <= 100) as Hinv.
  { induction events as [|e events IH]; intros s Hcap Hlen; [done|].
    cbn [run fold_left]. apply IH; destruct s as [g d]; cbn [fst] in *.
    - destruct e as [reqLog|fault| |]; cbn [step fst]; try done.
      + destruct (enqueue_cases g reqLog) as (_ & -> & _). done.
      + unfold consumerStep, chan.recv.
        destruct (chan.buffer (requestLogChan g)); [done|].
        destruct (LogRequest _ _ _ _ _). done.
    - destruct e as [reqLog|fault| |]; cbn [step fst]; try done.
      + destruct (enqueue_cases g reqLog)
          as (_ & _ & [(_ & Hroom & -> & _) | [(_ & _ & -> & _) | (_ & ->)]]);
          try done.
        unfold len in *. rewrite length_app. cbn [length]. lia.
      + unfold consumerStep, chan.recv.
        destruct (chan.buffer (requestLogChan g)) as [|x b] eqn:Hb;
          [cbn [fst]; rewrite ?Hb; unfold len in *; cbn [length] in *; lia|].
        destruct (LogRequest _ _ _ _ _). cbn [fst requestLogChan chan.buffer].
        unfold len in *. rewrite ?Hb in Hlen. cbn [length] in Hlen. lia. }
  apply Hinv; [reflexivity | unfold len; cbn; lia].
Qed.

Lemma countLines_app p (l1 l2 : Log) :
  countLines p (l1 ++ l2)%list = (countLines p l1 + countLines p l2)%nat.
Proof. unfold countLines. by rewrite List.filter_app, length_app. Qed.

Lemma isInsertFailureLine_fault f : isInsertFailureLine (faultLine f) = true.
Proof.
  unfold isInsertFailureLine.
  destruct f as [e|e]; cbn [faultLine].
  - replace (GoStrings.HasPrefix _ "Failed to prepare statement: ")
      with true; [done|].
    symmetry. apply HasPrefix_iff. by exists e.
  - replace (GoStrings.HasPrefix _ "Failed to insert log entry: ")
      with true; [by rewrite orb_true_r|].
    symmetry. apply HasPrefix_iff. by exists e.
Qed.

Lemma isDropLine_fault f : isDropLine (faultLine f) = false.
Proof. destruct f; reflexivity. Qed.

Lemma balance_step s e :
  (balance (step Unmarshal s e) =
   balance s + offeredWhileRecording (IsRecording s.1) [e])%nat ∧
  IsRecording (step Unmarshal s e).1 =
    match e with
    | StartRecording => true
    | StopRecording => false
    | _ => IsRecording s.1
    end.
Proof.
  destruct s as [g db]. unfold balance.
  destruct e as [reqLog|fault| |]; cbn [step fst snd offeredWhileRecording].
  - destruct (enqueue_cases g reqLog)
      as (Hr & _ & [(Hon & _ & Hb & Hl) | [(Hon & _ & Hq & Hl) | (Hoff & E)]]).
    + rewrite Hr, Hb, Hl, Hon, length_app. cbn [length]. split; [lia|done].
    + rewrite Hr, Hq, Hl, Hon, !countLines_app. split; [|done].
      change (countLines isDropLine [dropLine]) with 1%nat.
      change (countLines isInsertFailureLine [dropLine]) with 0%nat. lia.
    + rewrite E, Hoff. split; [lia|done].
  - unfold consumerStep, chan.recv.
    destruct (chan.buffer (requestLogChan g)) as [|x b] eqn:Hb.
    + cbn [fst snd]. rewrite Hb. split; [lia|done].
    + unfold LogRequest.
      destruct fault as [f|];
        [|cbn; rewrite length_app; cbn; split; [unfold countLines; lia|done]].
      destruct f as [e|e];
        cbn [fst snd rows requestLogChan chan.buffer opLog IsRecording length];
        unfold logLine; rewrite !countLines_app;
        [pose proof (isInsertFailureLine_fault (PrepareFails e)) as Hf;
         pose proof (isDropLine_fault (PrepareFails e)) as Hd
        |pose proof (isInsertFailureLine_fault (ExecFails e)) as Hf;
         pose proof (isDropLine_fault (ExecFails e)) as Hd];
        cbn [faultLine] in Hf, Hd; unfold countLines at 2 4;
        cbn [List.filter]; rewrite Hf, Hd; cbn [length]; split; (lia || done).
  - rewrite startRecording_state. unfold logPrint, setRecording, logLine.
    cbn [fst snd opLog requestLogChan IsRecording].
    rewrite !countLines_app. split; [|done].
    change (countLines isDropLine ["Recording started."]) with 0%nat.
    change (countLines isInsertFailureLine ["Recording started."]) with 0%nat.
    lia.
  - rewrite stopRecording_state. unfold logPrint, setRecording, logLine.
    cbn [fst snd opLog requestLogChan IsRecording].
    rewrite !countLines_app. split; [|done].
    change (countLines isDropLine ["Recording stopped."]) with 0%nat.
    change (countLines isInsertFailureLine ["Recording stopped."]) with 0%nat.
    lia.
Qed.

Lemma balance_run events s :
  (balance (run Unmarshal events s) =
   balance s + offeredWhileRecording (IsRecording s.1) events)%nat.
Proof.
  revert s. induction events as [|e events IH]; intros s.
  - cbn. lia.
  - cbn [run fold_left]. fold (run Unmarshal events (step Unmarshal s e)).
    rewrite IH. destruct (balance_step s e) as [-> ->].
    destruct e; cbn [offeredWhileRecording]; lia.
Qed.

(** X5. No record vanishes silently. Under every interleaving from the
    state set up by [main], each record offered while recording was on is
    in exactly one place: a row of the table, the channel, or a line of
    the log, written when the channel was full or when the insert
    failed. Records offered while recording was off are in none of them. *)
Theorem every_offer_is_accounted_for (events : list Event)
    (recordOnStart : bool) (db : DB) :
  let '(g', db') := run Unmarshal events (mainGlobals recordOnStart, db) in
  (length (rows db') + length (chan.buffer (requestLogChan g')) +
   countLines isDropLine (opLog g') +
   countLines isInsertFailureLine (opLog g') =
   length (rows db) + offeredWhileRecording recordOnStart events)%nat.
Proof.
  pose proof (balance_run events (mainGlobals recordOnStart, db)) as H.
  destruct (run Unmarshal events (mainGlobals recordOnStart, db)) as [g' db'].
  unfold balance in H. cbn in H. lia.
Qed.

(** X6. A failed insert costs the one record and nothing else: the
    consumer, whatever inserts fail, empties the channel, writes one log
    line per failure, inserts every other record in arrival order under
    consecutive ids, and leaves the earlier rows, the flag and the
    capacity as they were. *)
Theorem consumer_survives_insert_failures (turns : nat)
    (faults : nat → option InsertFault) (g : Globals) (db : DB) :
  (length (chan.buffer (requestLogChan g)) ≤ turns)%nat →
  let queued := chan.buffer (requestLogChan g) in
  let written := persistedUnder Unmarshal faults (lastRowID db) queued in
  consumerRun Unmarshal turns faults g db =
    ({| IsRecording := IsRecording g;
        requestLogChan :=
          {| chan.buffer := [];
             chan.capacity := chan.capacity (requestLogChan g) |};
        opLog := (opLog g ++ faultLines faults (length queued))%list |},
     {| rows := (rows db ++ written)%list;
        lastRowID := lastRowID db + len written |}).
Proof.
  revert faults g db. induction turns as [|turns IH]; intros faults g db Hlen;
    destruct g as [rc [b c] l]; destruct db as [rs id];
    cbn [requestLogChan chan.buffer chan.capacity IsRecording opLog rows
         lastRowID] in *.
  - destruct b; [|cbn in Hlen; lia]. cbn.
    rewrite !app_nil_r. unfold len. cbn. by rewrite Z.add_0_r.
  - cbn [consumerRun]. unfold consumerStep, chan.recv.
    cbn [requestLogChan chan.buffer chan.capacity IsRecording opLog].
    destruct b as [|r b].
    + cbn. rewrite !app_nil_r. unfold len. cbn. by rewrite Z.add_0_r.
    + unfold LogRequest. cbn [rows lastRowID].
      destruct (faults O) as [f|] eqn:Hf.
      * assert (∀ line,
          consumerRun Unmarshal turns (λ i, faults (S i))
            {| IsRecording := rc;
               requestLogChan := {| chan.buffer := b; chan.capacity := c |};
               opLog := logLine l line |} {| rows := rs; lastRowID := id |} =
          ({| IsRecording := rc;
              requestLogChan := {| chan.buffer := []; chan.capacity := c |};
              opLog := (l ++ line :: faultLines (λ i, faults (S i))
                                          (length b))%list |},
           {| rows := (rs ++ persistedUnder Unmarshal (λ i, faults (S i)) id b)%list;
              lastRowID :=
                id + len (persistedUnder Unmarshal (λ i, faults (S i)) id b) |}))
          as E.
        { intros line. rewrite IH by (cbn in *; lia). cbn.
          unfold logLine. by rewrite <- app_assoc. }
        cbn [persistedUnder faultLines length]. rewrite Hf.
        destruct f as [e|e]; cbn [faultLine]; apply E.
      * rewrite IH by (cbn in *; lia).
        cbn [persistedUnder faultLines length requestLogChan chan.buffer
             chan.capacity IsRecording opLog rows lastRowID].
        rewrite Hf, <- app_assoc. cbn [app]. unfold len. cbn [length].
        do 2 f_equal. lia.
Qed.

End PipelineInvariants.

(** The statement above for three queued records of which the second
    fails to insert: two rows, one log line, an empty channel. *)
Lemma consumer_survives_insert_failures_witness :
  let g := producersRun (replicate 3 Sample.getLog) (mainGlobals true) in
  let faults := λ i : nat, match i with
                           | 1%nat => Some (ExecFails "disk full")
                           | _ => None
                           end in
  let '(g', db') :=
    consumerRun (λ _, None) 3 faults g {| rows := []; lastRowID := 0 |} in
  chan.buffer (requestLogChan g') = [] ∧
  opLog g' = ["Failed to insert log entry: disk full"] ∧
  List.map RequestLog.ID (rows db') = [1; 2].
Proof.
  intros g faults.
  rewrite (consumer_survives_insert_failures (λ _, None) 3 faults g
             {| rows := []; lastRowID := 0 |}
             ltac:(vm_compute; lia)).
  vm_compute. repeat split.
Defined.

(** ** Decimal texts *)

Section Decimal.

Lemma digitsValue_acc d acc :
  digitsValue (NilEmpty.string_of_uint d) (Z.pos acc) =
    Some (Z.pos (Pos.of_uint_acc d acc)).
Proof.
  revert acc. induction d; intros acc;
    cbn [NilEmpty.string_of_uint digitsValue Pos.of_uint_acc];
    [reflexivity|..];
    match goal with
    | |- context [digitValue ?c] =>
        let v := eval vm_compute in (digitValue c) in
        change (digitValue c) with v; cbv iota
    end;
    match goal with
    | |- digitsValue _ ?z = _ =>
        match goal with
        | |- _ = Some (Z.pos (Pos.of_uint_acc _ ?a)) =>
            replace z with (Z.pos a) by lia
        end
    end; apply IHd.
Qed.

Lemma digitsValue_uint d :
  digitsValue (NilEmpty.string_of_uint d) 0 = Some (Z.of_N (Pos.of_uint d)).
Proof.
  induction d; cbn [NilEmpty.string_of_uint digitsValue Pos.of_uint];
    [reflexivity|..];
    match goal with
    | |- context [digitValue ?c] =>
        let v := eval vm_compute in (digitValue c) in
        change (digitValue c) with v; cbv iota
    end;
    [exact IHd|..]; cbn [Z.mul Z.add Z.of_N]; apply digitsValue_acc.
Qed.

(** [Atoi] reads back what [Itoa] prints. *)
Lemma Atoi_Itoa n : 0 <= n < 2 ^ 63 → Atoi (Itoa n) = Some n.
Proof.
  intros Hn. unfold Itoa. destruct n as [|p|p]; [reflexivity| |lia].
  cbn [Z.to_int NilZero.string_of_int].
  pose proof (DecimalPos.Unsigned.of_to p) as Hof.
  pose proof (digitsValue_uint (Pos.to_uint p)) as Hdig.
  rewrite Hof in Hdig. cbn [Z.of_N] in Hdig.
  assert (∀ s, s ≠ EmptyString →
               (∀ rest, s ≠ String "-" rest) → (∀ rest, s ≠ String "+" rest) →
               digitsValue s 0 = Some (Z.pos p) → Atoi s = Some (Z.pos p))
    as Hatoi.
  { intros s Hne Hminus Hplus Hs. unfold Atoi.
    destruct s as [|c s]; [done|].
    destruct (Ascii.eqb_spec c "-") as [->|Hc1]; [by destruct (Hminus s)|].
    destruct (Ascii.eqb_spec c "+") as [->|Hc2]; [by destruct (Hplus s)|].
    assert ((let '(neg, digits) :=
               match String c s with
               | String "-" rest => (true, rest)
               | String "+" rest => (false, rest)
               | _ => (false, String c s)
               end in
             match digits with
             | EmptyString => None
             | _ =>
                 match digitsValue digits 0 with
                 | None => None
                 | Some n =>
                     let v := if neg then - n else n in
                     if (- 2 ^ 63 <=? v) && (v <=? 2 ^ 63 - 1) then Some v
                     else None
                 end
             end) =
            match digitsValue (String c s) 0 with
            | None => None
            | Some n =>
                if (- 2 ^ 63 <=? n) && (n <=? 2 ^ 63 - 1) then Some n else None
            end) as E.
    { destruct c as [[] [] [] [] [] [] [] []]; try reflexivity;
        exfalso; (by apply Hc1) || (by apply Hc2). }
    etransitivity; [exact E|]. rewrite Hs.
    replace (- 2 ^ 63 <=? Z.pos p) with true by (symmetry; apply Z.leb_le; lia).
    replace (Z.pos p <=? 2 ^ 63 - 1) with true by (symmetry; apply Z.leb_le; lia).
    reflexivity. }
  destruct (Pos.to_uint p) eqn:Hu;
    [by apply DecimalPos.Unsigned.to_uint_nonnil in Hu|..];
    cbn [NilZero.string_of_uint]; apply Hatoi; try done.
Qed.

End Decimal.

(** ** The table and the handlers that read one row *)

Section StoredRows.
Variable Unmarshal : string → option Header.

Local Arguments String.append !_ _ / : simpl nomatch.

Lemma substring_all s : String.substring 0 (String.length s) s = s.
Proof. induction s as [|c s IH]; [done|]. cbn. by rewrite IH. Qed.

Lemma sliceFrom_prefix pre s :
  admin.sliceFrom (pre ++ s) (String.length pre) = Some s.
Proof.
  unfold admin.sliceFrom.
  assert (String.length (pre ++ s) = String.length pre + String.length s)%nat
    as Hlen by (induction pre; cbn; [done|by f_equal]).
  rewrite Hlen.
  replace (String.length pre <=? String.length pre + String.length s)%nat
    with true by (symmetry; apply Nat.leb_le; lia).
  replace (String.length pre + String.length s - String.length pre)%nat
    with (String.length s) by lia.
  f_equal. clear Hlen.
  induction pre as [|c pre IH]; cbn; [apply substring_all|exact IH].
Qed.

(** What one event does to the table. *)
Lemma step_table s e :
  (step Unmarshal s e).2 = s.2 ∨
  ∃ logEntry,
    (step Unmarshal s e).2 =
      {| rows := (rows s.2 ++ [insertedRow (lastRowID s.2 + 1)
                                 (populate Unmarshal logEntry)])%list;
         lastRowID := lastRowID s.2 + 1 |}.
Proof.
  destruct s as [g db]. destruct e as [reqLog|fault| |]; cbn [step snd];
    try by left.
  unfold consumerStep, chan.recv.
  destruct (chan.buffer (requestLogChan g)) as [|x b]; [by left|].
  unfold LogRequest. destruct fault as [[e|e]|]; [by left | by left |].
  right. by exists x.
Qed.

Lemma derivedColumns_inserted id logEntry :
  derivedColumns Unmarshal (insertedRow id (populate Unmarshal logEntry)).
Proof. by repeat split. Qed.

Lemma idsIncrease_insert db row :
  idsIncrease db →
  RequestLog.ID row = lastRowID db + 1 →
  idsIncrease {| rows := (rows db ++ [row])%list;
                 lastRowID := lastRowID db + 1 |}.
Proof.
  intros [Hsorted Hbound] Hid. split; cbn [rows lastRowID].
  - rewrite map_app. apply StronglySorted_app_2.
    + intros x1 x2 H1 H2. apply list_elem_of_singleton in H2 as ->.
      apply list_elem_of_fmap in H1 as (r & -> & Hr).
      rewrite Forall_forall in Hbound. specialize (Hbound r Hr). lia.
    + exact Hsorted.
    + repeat constructor.
  - apply Forall_app. split.
    + eapply Forall_impl; [exact Hbound|]. cbn. intros; lia.
    + repeat constructor. lia.
Qed.

Lemma run_table_grows events s :
  idsIncrease s.2 →
  rows s.2 `prefix_of` rows (run Unmarshal events s).2 ∧
  lastRowID s.2 <= lastRowID (run Unmarshal events s).2 ∧
  idsIncrease (run Unmarshal events s).2.
Proof.
  revert s. induction events as [|e events IH]; intros s Hids.
  - cbn. split; [done|]. split; [lia|done].
  - cbn [run fold_left]. fold (run Unmarshal events (step Unmarshal s e)).
    destruct (step_table s e) as [E|[logEntry E]].
    + rewrite <- E. apply IH; by rewrite E.
    + destruct (IH (step Unmarshal s e)) as (Hp & Hl & Hi).
      * rewrite E. by apply idsIncrease_insert.
      * rewrite E in Hp, Hl. cbn [rows lastRowID] in Hp, Hl.
        split; [by eapply prefix_app_l|]. split; [lia|done].
Qed.

Lemma run_table_derived events s :
  Forall (derivedColumns Unmarshal) (rows s.2) →
  Forall (derivedColumns Unmarshal) (rows (run Unmarshal events s).2).
Proof.
  revert s. induction events as [|e events IH]; intros s Hder; [done|].
  cbn [run fold_left]. fold (run Unmarshal events (step Unmarshal s e)).
  apply IH. destruct (step_table s e) as [->|[logEntry ->]]; [done|].
  cbn [rows]. apply Forall_app. split; [done|]. repeat constructor.
Qed.

(** X7. The table only grows, and stays well formed, whatever the proxy,
    the consumer and the administrators do: the rows that were there stay
    as they are, in place; row ids increase strictly with insertion order,
    so that no id is used twice; and in every row the two size columns are
    the lengths of the stored bodies and the two text flags are the
    classifier's verdict on them, whatever the record offered claimed. *)
Theorem table_only_grows_well_formed (events : list Event) (g : Globals)
    (db : DB) :
  idsIncrease db →
  Forall (derivedColumns Unmarshal) (rows db) →
  let db' := (run Unmarshal events (g, db)).2 in
  rows db `prefix_of` rows db' ∧
  lastRowID db <= lastRowID db' ∧
  idsIncrease db' ∧
  NoDup (List.map RequestLog.ID (rows db')) ∧
  Forall (derivedColumns Unmarshal) (rows db').
Proof.
  intros Hids Hder. cbv zeta.
  destruct (run_table_grows events (g, db) Hids) as (Hp & Hl & Hi).
  pose proof (run_table_derived events (g, db) Hder) as Hd.
  split; [done|]. split; [done|]. split; [done|]. split; [|done].
  destruct Hi as [Hsorted _]. revert Hsorted.
  generalize (List.map RequestLog.ID (rows (run Unmarshal events (g, db)).2)).
  intros l Hl'. induction Hl' as [|x l Hs IHs Hx]; constructor; [|done].
  intros Hin. rewrite Forall_forall in Hx. specialize (Hx x Hin). lia.
Qed.

Lemma QueryRowByID_fresh db id :
  Forall (λ row, RequestLog.ID row <= lastRowID db) (rows db) →
  lastRowID db < id →
  List.find (λ row, RequestLog.ID row =? id) (rows db) = None.
Proof.
  intros Hbound Hid. induction Hbound as [|row rs Hrow _ IH]; [done|].
  cbn. replace (RequestLog.ID row =? id) with false; [exact IH|].
  symmetry. apply Z.eqb_neq. lia.
Qed.

Lemma QueryRowByID_prefix db db' id row :
  rows db `prefix_of` rows db' →
  QueryRowByID db id = Some row → QueryRowByID db' id = Some row.
Proof.
  intros [k Hk] Hfind. unfold QueryRowByID in *. rewrite Hk.
  revert Hfind. generalize (rows db). intros l.
  induction l as [|x l IH]; [done|]. cbn.
  destruct (RequestLog.ID x =? id); [done|exact IH].
Qed.

Lemma QueryRowByID_inserted db row :
  idsIncrease db →
  RequestLog.ID row = lastRowID db + 1 →
  QueryRowByID {| rows := (rows db ++ [row])%list;
                  lastRowID := lastRowID db + 1 |} (lastRowID db + 1)
    = Some row.
Proof.
  intros [_ Hbound] Hid. unfold QueryRowByID. cbn [rows].
  pose proof (QueryRowByID_fresh db (lastRowID db + 1) Hbound ltac:(lia)) as Hn.
  revert Hn. generalize (rows db). intros l.
  induction l as [|x l IH]; cbn.
  - intros _. by rewrite Hid, Z.eqb_refl.
  - destruct (RequestLog.ID x =? lastRowID db + 1); [done|exact IH].
Qed.

(** X8. What was stored is what is served. After [LogRequest] has
    inserted a record, and whatever happens afterwards, the two body
    handlers answer the path that ends in the new row id with status 200
    and exactly the request body and the response body of the record,
    under the Content-Type found in the stored headers of that side
    (application/octet-stream when there is none), and the detail handler
    reports the lengths of these two bodies. *)
Theorem stored_bodies_are_served (logEntry : RequestLog.t) (db : DB)
    (log : Log) (events : list Event) (g : Globals)
    (r1 r2 r3 : admin.Request) (log' : Log) :
  idsIncrease db →
  0 <= lastRowID db < 2 ^ 63 - 1 →
  let db1 := (LogRequest Unmarshal None logEntry db log).1 in
  let db2 := (run Unmarshal events (g, db1)).2 in
  let id := Itoa (lastRowID db + 1) in
  admin.Path r1 = "/api/requests/body/request/" ++ id →
  admin.Path r2 = "/api/requests/body/response/" ++ id →
  admin.Path r3 = "/api/requests/" ++ id →
  getRequestBodyHandler (A := unit) Unmarshal None db2 r1 log' =
    (admin.Wrote
       {| admin.header :=
            bodyContentType Unmarshal (RequestLog.RequestHeaders logEntry);
          admin.cookies := []; admin.status := 200;
          admin.body := RequestLog.RequestBody logEntry |}, log') ∧
  getResponseBodyHandler (A := unit) Unmarshal None db2 r2 log' =
    (admin.Wrote
       {| admin.header :=
            bodyContentType Unmarshal (RequestLog.ResponseHeaders logEntry);
          admin.cookies := []; admin.status := 200;
          admin.body := RequestLog.ResponseBody logEntry |}, log') ∧
  ∃ h detail,
    getRequestDetail None db2 r3 log' = (admin.Encoded h detail, log') ∧
    RequestDetail.ID detail = lastRowID db + 1 ∧
    RequestDetail.RequestBodySize detail
      = len (RequestLog.RequestBody logEntry) ∧
    RequestDetail.ResponseBodySize detail
      = len (RequestLog.ResponseBody logEntry) ∧
    RequestDetail.StatusCode detail = RequestLog.StatusCode logEntry.
Proof.
  intros Hids Hrange db1 db2 id Hp1 Hp2 Hp3.
  set (row := insertedRow (lastRowID db + 1) (populate Unmarshal logEntry)).
  assert (QueryRowByID db2 (lastRowID db + 1) = Some row) as Hrow.
  { apply (QueryRowByID_prefix db1).
    - apply (run_table_grows events (g, db1)). by apply idsIncrease_insert.
    - by apply QueryRowByID_inserted. }
  assert (Atoi id = Some (lastRowID db + 1)) as Hatoi
    by (apply Atoi_Itoa; lia).
  split; [|split].
  - unfold getRequestBodyHandler. rewrite Hp1.
    rewrite (sliceFrom_prefix "/api/requests/body/request/" id).
    by rewrite Hatoi, Hrow.
  - unfold getResponseBodyHandler. rewrite Hp2.
    rewrite (sliceFrom_prefix "/api/requests/body/response/" id).
    by rewrite Hatoi, Hrow.
  - unfold getRequestDetail. rewrite Hp3.
    rewrite (sliceFrom_prefix "/api/requests/" id).
    rewrite Hatoi, Hrow. do 2 eexists. split; [reflexivity|]. by repeat split.
Qed.

(** X9. The body handlers serve nothing but stored bodies. Whenever the
    response body handler writes an answer, the text after the prefix of
    the path is the decimal form of the id of a row of the table, the
    bytes written are the response body of the first such row, the status
    is 200 and nothing is logged; the method of the request is not looked
    at. A path that stops at the prefix, or goes on with anything that is
    not an integer, is answered 400 before the table is consulted, even
    when the table cannot be read. *)
Theorem body_handler_serves_only_stored_bodies (fault : option string)
    (db : DB) (r : admin.Request) (log : Log) :
  let reply := getResponseBodyHandler (A := unit) Unmarshal fault db r log in
  (∀ w log',
     reply = (admin.Wrote w, log') →
     ∃ idStr id row,
       admin.Path r = String.substring 0 28 (admin.Path r) ++ idStr ∧
       Atoi idStr = Some id ∧
       row ∈ rows db ∧ RequestLog.ID row = id ∧
       QueryRowByID db id = Some row ∧
       admin.body w = RequestLog.ResponseBody row ∧
       admin.status w = 200 ∧ fault = None ∧ log' = log) ∧
  (∀ idStr,
     admin.Path r = "/api/requests/body/response/" ++ idStr →
     Atoi idStr = None →
     reply = (admin.Error "Invalid request ID" 400, log)) ∧
  (admin.Path r = "/api/requests/body/response/" →
   reply = (admin.Error "Invalid request ID" 400, log)).
Proof.
  cbv zeta. split; [|split].
  - intros w log' Hreply. unfold getResponseBodyHandler in Hreply.
    destruct (admin.sliceFrom (admin.Path r) _) as [idStr|] eqn:Hslice;
      [|discriminate].
    destruct (Atoi idStr) as [id|] eqn:Hatoi; [|discriminate].
    destruct fault as [e|]; [discriminate|].
    destruct (QueryRowByID db id) as [row|] eqn:Hrow; [|discriminate].
    injection Hreply as <- <-.
    exists idStr, id, row.
    pose proof Hrow as Hfind. unfold QueryRowByID in Hfind.
    apply find_some in Hfind as [Hin Hid].
    repeat split; try done.
    + unfold admin.sliceFrom in Hslice.
      destruct (_ <=? _)%nat eqn:Hle; [|discriminate].
      injection Hslice as <-. apply Nat.leb_le in Hle.
      change (String.length "/api/requests/body/response/") with 28%nat in *.
      revert Hle. generalize (admin.Path r). intros p.
      do 28 (destruct p as [|? p]; [cbn; lia|]).
      intros _. cbn. do 28 f_equal.
      rewrite Nat.sub_0_r, substring_all. by destruct p.
    + by apply list_elem_of_In.
    + by apply Z.eqb_eq.
  - intros idStr Hp Hatoi. unfold getResponseBodyHandler. rewrite Hp.
    rewrite (sliceFrom_prefix "/api/requests/body/response/" idStr).
    by rewrite Hatoi.
  - intros Hp. unfold getResponseBodyHandler. by rewrite Hp.
Qed.

End StoredRows.

(** The statement above for an empty table and four events: two offers,
    an insert that works and one that fails. *)
Lemma table_only_grows_well_formed_witness :
  let db := {| rows := []; lastRowID := 0 |} in
  let events := [Offer Sample.getLog; Take None; Offer Sample.getLog;
                 Take (Some (ExecFails "disk full"))] in
  idsIncrease db ∧
  Forall (derivedColumns (λ _, None)) (rows db) ∧
  NoDup (List.map RequestLog.ID
           (rows (run (λ _, None) events (mainGlobals true, db)).2)).
Proof.
  intros db events.
  assert (idsIncrease db) as H1 by (split; constructor).
  assert (Forall (derivedColumns (λ _, None)) (rows db)) as H2 by constructor.
  split; [exact H1|]. split; [exact H2|].
  exact (proj1 (proj2 (proj2 (proj2
           (table_only_grows_well_formed (λ _, None) events
              (mainGlobals true) db H1 H2))))).
Defined.

(** The statement above for the first record stored in an empty table:
    it is served under the id 1. *)
Lemma stored_bodies_are_served_witness :
  let db := {| rows := []; lastRowID := 0 |} in
  let logEntry := completed Sample.getLog Sample.badResponse Sample.badBody in
  let r := {| admin.Method := "GET";
              admin.Path := "/api/requests/body/response/1";
              admin.Cookies := [];
              admin.Query := admin.Query (postTo "");
              admin.Body := [] |} in
  idsIncrease db ∧
  0 <= lastRowID db < 2 ^ 63 - 1 ∧
  getResponseBodyHandler (A := unit) (λ _, None) None
    (LogRequest (λ _, None) None logEntry db []).1 r [] =
    (admin.Wrote
       {| admin.header := <["Content-Type" := ["application/octet-stream"]]> ∅;
          admin.cookies := []; admin.status := 200;
          admin.body := Sample.badBody |}, []).
Proof.
  intros db logEntry r.
  assert (idsIncrease db) as H1 by (split; constructor).
  assert (0 <= lastRowID db < 2 ^ 63 - 1) as H2 by (cbn; lia).
  split; [exact H1|]. split; [exact H2|].
  exact (proj1 (proj2
           (stored_bodies_are_served (λ _, None) logEntry db [] []
              (mainGlobals true)
              {| admin.Method := "GET";
                 admin.Path := "/api/requests/body/request/1";
                 admin.Cookies := [];
                 admin.Query := admin.Query (postTo "");
                 admin.Body := [] |}
              r
              {| admin.Method := "GET"; admin.Path := "/api/requests/1";
                 admin.Cookies := [];
                 admin.Query := admin.Query (postTo "");
                 admin.Body := [] |}
              [] H1 H2 eq_refl eq_refl eq_refl))).
Defined.

(** ** The recording switch *)

Section RecordingSwitch.
Context {codec : GzipLib}.

Lemma ModifyResponse_off resp g :
  IsRecording g = false →
  requestLogChan (ModifyResponse resp g).2 = requestLogChan g.
Proof.
  intros Hoff.
  destruct (Request.Ctx (Response.Request resp)) as [reqLog|] eqn:Hctx.
  - destruct (io.fault (Response.Body resp)) as [e|] eqn:Hfault.
    + unfold ModifyResponse, io.ReadAll. by rewrite Hctx, Hfault.
    + destruct (ModifyResponse_readable resp g reqLog Hctx Hfault)
        as (resp' & g0 & (Hrec & Hchan & _) & _ & ->).
      cbn [snd]. rewrite enqueue_off by congruence. exact Hchan.
  - unfold ModifyResponse. by rewrite Hctx.
Qed.

(** X10. The recording switch. A POST to the stop handler turns the flag
    off, and a POST to the start handler turns it on; both answer 200,
    write one log line and leave the channel, with whatever is queued in
    it, as it is. Any other method is answered 405 and changes nothing.
    Once recording is stopped, [ModifyResponse] queues nothing, whatever
    the answer; the status handler reports the flag to a GET without
    changing anything. *)
Theorem recording_switch (r : admin.Request) (g : Globals) :
  let stop := stopRecordingHandler (A := unit) r g in
  let start := startRecordingHandler (A := unit) r g in
  let status := getRecordingStatusHandler (A := unit) r g in
  (admin.Method r = "POST" →
   IsRecording stop.2 = false ∧ IsRecording start.2 = true ∧
   requestLogChan stop.2 = requestLogChan g ∧
   requestLogChan start.2 = requestLogChan g ∧
   opLog stop.2 = (opLog g ++ ["Recording stopped."])%list ∧
   opLog start.2 = (opLog g ++ ["Recording started."])%list ∧
   (∃ w, stop.1 = admin.Wrote w ∧ admin.status w = 200) ∧
   (∃ w, start.1 = admin.Wrote w ∧ admin.status w = 200) ∧
   (∀ resp, requestLogChan (ModifyResponse resp stop.2).2 = requestLogChan g)) ∧
  (admin.Method r ≠ "POST" →
   stop = (admin.Error "Method not allowed" 405, g) ∧
   start = (admin.Error "Method not allowed" 405, g)) ∧
  (admin.Method r = "GET" →
   status.2 = g ∧
   ∃ w, status.1 = admin.Wrote w ∧ admin.status w = 200 ∧
        admin.body w =
          list_byte_of_string
            (if IsRecording g then quoted "{'status': 'recording'}"
             else quoted "{'status': 'stopped'}")) ∧
  (admin.Method r ≠ "GET" →
   status = (admin.Error "Method not allowed" 405, g)).
Proof.
  cbv zeta. unfold stopRecordingHandler, startRecordingHandler,
    getRecordingStatusHandler.
  split; [|split; [|split]].
  - intros ->. cbn [String.eqb negb]. change ("POST" =? "POST")%string with true.
    cbn [negb fst snd]. repeat split; try (eexists; split; reflexivity).
    intros resp. by rewrite ModifyResponse_off.
  - intros Hm. apply String.eqb_neq in Hm. by rewrite Hm.
  - intros ->. change ("GET" =? "GET")%string with true. cbn [negb fst snd].
    split; [done|]. eexists. split; [reflexivity|]. split; [done|].
    by destruct (IsRecording g).
  - intros Hm. apply String.eqb_neq in Hm. by rewrite Hm.
Qed.

End RecordingSwitch.

(** ** Sessions *)

Section Sessions.
Context {S A : Type}.
Variable ReadFile : string → result (list byte).
Variable decodeCreds : list byte → result (string * string).

Lemma credential_nonempty env : credential env ≠ "".
Proof.
  unfold credential. destruct (String.eqb_spec env ""); [done|done].
Qed.

Lemma Cookie_session r :
  admin.Cookie_ r "session_token" = head (sessionValues r).
Proof.
  unfold admin.Cookie_, sessionValues.
  change ("session_token" =? "")%string with false. cbv iota.
  induction (admin.Cookies r) as [|[name val] parts IH]; [done|].
  cbn [admin.readCookies omap list_omap fst snd].
  destruct (String.eqb_spec "session_token" name) as [<-|Hne].
  - change (admin.isCookieNameValid "session_token") with true.
    cbn [negb andb].
    destruct (admin.parseCookieValue val) as [value|]; [done|exact IH].
  - rewrite andb_true_r.
    change (negb ("session_token" =? "")%string) with true.
    by destruct (negb (admin.isCookieNameValid name)).
Qed.

Lemma sessionValues_passedOver r ignored rest :
  admin.Cookies r = (ignored ++ rest)%list → Forall passedOver ignored →
  sessionValues r =
    omap (λ part : string * string,
            if String.eqb "session_token" part.1
            then admin.parseCookieValue part.2 else None) rest.
Proof.
  unfold sessionValues. intros -> Hall.
  induction Hall as [|[name val] ignored Hpart _ IH]; [done|].
  cbn [app omap list_omap fst snd]. destruct Hpart as [Hname|Hval].
  - cbn [fst] in Hname.
    destruct (String.eqb_spec "session_token" name) as [<-|_]; [done|exact IH].
  - cbn [snd] in Hval. rewrite Hval.
    by destruct (String.eqb "session_token" name).
Qed.

(** X11. The session gate. [authMiddleware] runs the wrapped handler, on
    the request as received, exactly when the first of the session_token
    cookies whose value net/http accepts has the value valid_token, bare
    or in double quotes; in every other case it answers 302 to /login and
    the wrapped handler does not run, so the state is untouched. A
    session_token cookie whose value is refused (a control byte, a byte
    over 0x7e, a double quote inside, a semicolon or a backslash) is
    passed over, as is a cookie of another name: a refused one followed
    by a valid one is admitted, while an accepted one with another value
    redirects even if a later one is right. The handler of the root path
    has the same gate in front of the page it serves. *)
Theorem authMiddleware_gate (next : admin.Request → S → admin.Reply A * S)
    (r : admin.Request) (s : S) (log : Log) :
  authMiddleware next r s =
    (if admitted r then next r s else (admin.Redirect "/login" 302, s)) ∧
  (admitted r = false →
   rootHandler (A := A) ReadFile r log = (admin.Redirect "/login" 302, log)) ∧
  (admitted r = true →
   (rootHandler (A := A) ReadFile r log).1 ≠ admin.Redirect "/login" 302) ∧
  (∀ ignored value rest,
     admin.Cookies r = (ignored ++ ("session_token", value) :: rest)%list →
     Forall passedOver ignored →
     (value = "valid_token" ∨ value = quoted "'valid_token'" →
      authMiddleware next r s = next r s) ∧
     (∀ accepted, admin.parseCookieValue value = Some accepted →
                  accepted ≠ "valid_token" →
                  authMiddleware next r s = (admin.Redirect "/login" 302, s))) ∧
  (Forall passedOver (admin.Cookies r) →
   authMiddleware next r s = (admin.Redirect "/login" 302, s)).
Proof.
  assert (∀ (T : Type) (yes no : T),
            match admin.Cookie_ r "session_token" with
            | Some value =>
                if negb (String.eqb value "valid_token") then no else yes
            | None => no
            end = if admitted r then yes else no) as Hgate.
  { intros T yes no. rewrite Cookie_session. unfold admitted.
    destruct (sessionValues r) as [|value values]; [done|].
    cbn [head]. by destruct (String.eqb value "valid_token"). }
  assert (authMiddleware next r s =
            (if admitted r then next r s else (admin.Redirect "/login" 302, s)))
    as Hauth.
  { unfold authMiddleware. apply Hgate. }
  split; [exact Hauth|]. split; [|split; [|split]].
  - intros Hno. unfold rootHandler. rewrite Hgate, Hno. reflexivity.
  - intros Hyes. unfold rootHandler. rewrite Hgate, Hyes.
    by destruct (ReadFile "static/index.html").
  - intros ignored value rest Hc Hall. rewrite Hauth. unfold admitted.
    rewrite (sessionValues_passedOver r ignored _ Hc Hall).
    cbn [omap list_omap fst snd].
    change ("session_token" =? "session_token")%string with true. cbv iota.
    split.
    + intros [->| ->].
      * change (admin.parseCookieValue "valid_token") with (Some "valid_token").
        reflexivity.
      * change (admin.parseCookieValue (quoted "'valid_token'"))
          with (Some "valid_token").
        reflexivity.
    + intros accepted -> Hne. apply String.eqb_neq in Hne. by rewrite Hne.
  - intros Hall. rewrite Hauth. unfold admitted.
    rewrite (sessionValues_passedOver r (admin.Cookies r) []);
      [done|by rewrite app_nil_r|done].
Qed.

(** X12. Logging in and out. [/login] sets a cookie only for a POST whose
    decoded user name and password both equal the configured ones, where
    an unset or empty environment variable stands for "admin"; so an
    empty user name or password never logs in. A request that then
    presents the cookie set is let through by [authMiddleware]; every
    other POST that decodes is answered 401 with no cookie, and a request
    that presents the cookie set by [logoutHandler] is sent back to
    /login. *)
Theorem login_opens_and_logout_closes (envUser envPassword : string)
    (r : admin.Request) (log : Log)
    (next : admin.Request → S → admin.Reply A * S) (r' : admin.Request)
    (s : S) (username password : string) :
  admin.Method r = "POST" →
  decodeCreds (admin.Body r) = Ok (username, password) →
  let reply := loginHandler (A := unit) ReadFile decodeCreds envUser
                 envPassword r log in
  (username = credential envUser ∧ password = credential envPassword →
   ∃ w, reply = (admin.Wrote w, log) ∧ admin.status w = 200 ∧
        authMiddleware next (presenting (admin.cookies w) r') s = next (presenting (admin.cookies w) r') s) ∧
  (username ≠ credential envUser ∨ password ≠ credential envPassword →
   reply = (admin.Error (quoted "{'message': 'Invalid credentials'}") 401, log)) ∧
  (username = "" ∨ password = "" →
   reply = (admin.Error (quoted "{'message': 'Invalid credentials'}") 401, log)) ∧
  (∀ w, logoutHandler (A := unit) r = admin.Wrote w →
        authMiddleware next (presenting (admin.cookies w) r') s =
          (admin.Redirect "/login" 302, s)).
Proof.
  intros Hm Hdec. cbv zeta. unfold loginHandler. rewrite Hm, Hdec.
  change ("POST" =? "GET")%string with false.
  change ("POST" =? "POST")%string with true. cbv iota.
  assert (username ≠ credential envUser ∨ password ≠ credential envPassword →
          String.eqb username (credential envUser) &&
          String.eqb password (credential envPassword) = false) as Hbad.
  { intros [H|H]; apply String.eqb_neq in H; rewrite H;
      [done|by rewrite andb_false_r]. }
  split; [|split; [|split]].
  - intros [-> ->]. rewrite !String.eqb_refl. cbn [andb].
    eexists. split; [reflexivity|]. split; [reflexivity|]. reflexivity.
  - intros H. by rewrite (Hbad H).
  - intros H. rewrite Hbad; [done|].
    destruct H as [->| ->]; [left|right]; intros E; symmetry in E;
      by apply credential_nonempty in E.
  - intros w [= <-]. reflexivity.
Qed.

End Sessions.

(** The gate on two requests that each send two session cookies: a refused
    value followed by the valid one is admitted, another accepted value
    followed by the valid one is not. *)
Lemma authMiddleware_gate_witness :
  let request := λ first,
    {| admin.Method := "GET"; admin.Path := "/api/requests";
       admin.Cookies := [("session_token", first);
                         ("session_token", "valid_token")];
       admin.Query := ListSpec.request "" ""; admin.Body := [] |} in
  let next := λ (_ : admin.Request) (s : nat),
    (admin.writeText (A := unit) 200 "served", Datatypes.S s) in
  admin.parseCookieValue (quoted "va'lid") = None ∧
  authMiddleware next (request (quoted "va'lid")) O
    = (admin.writeText 200 "served", 1%nat) ∧
  authMiddleware next (request "other") O = (admin.Redirect "/login" 302, O).
Proof.
  intros request next.
  assert (admin.parseCookieValue (quoted "va'lid") = None) as Hrefused
    by (vm_compute; reflexivity).
  split; [exact Hrefused|]. split.
  - apply (proj1 (proj1 (proj2 (proj2 (proj2
             (authMiddleware_gate (λ _, Err "no file") next
                (request (quoted "va'lid")) O []))))
             [("session_token", quoted "va'lid")] "valid_token" []
             eq_refl
             (Forall_cons_2 passedOver ("session_token", quoted "va'lid") []
                (or_intror Hrefused) (Forall_nil_2 _)))).
    by left.
  - apply (proj2 (proj1 (proj2 (proj2 (proj2
             (authMiddleware_gate (λ _, Err "no file") next
                (request "other") O []))))
             [] "other" [("session_token", "valid_token")]
             eq_refl (Forall_nil_2 _)) "other");
      [vm_compute; reflexivity|discriminate].
Defined.

(** The statement above with the environment unset: admin and admin log
    in. *)
Lemma login_opens_and_logout_closes_witness :
  let r := {| admin.Method := "POST"; admin.Path := "/login";
              admin.Cookies := []; admin.Query := admin.Query (postTo "");
              admin.Body := [] |} in
  let decodeCreds := λ _ : list byte, Ok ("admin", "admin") in
  admin.Method r = "POST" ∧
  decodeCreds (admin.Body r) = Ok ("admin", "admin") ∧
  ∃ w, loginHandler (A := unit) (λ _, Err "no file") decodeCreds "" "" r []
         = (admin.Wrote w, []) ∧
       admin.status w = 200.
Proof.
  intros r decodeCreds. split; [reflexivity|]. split; [reflexivity|].
  destruct (proj1
              (login_opens_and_logout_closes (S := unit) (A := unit)
                 (λ _, Err "no file") decodeCreds "" "" r []
                 (λ _ s, (admin.Panic, s)) r tt "admin" "admin"
                 eq_refl eq_refl) (conj eq_refl eq_refl))
    as (w & Hw & Hs & _).
  exists w. split; [exact Hw | exact Hs].
Defined.

(** ** The HAR export *)

Section HARExport.
Variable Unmarshal : string → result Header.
Variable rangeOrder : nat → Header → list (string * list string).
Variable ParseQuery : string → Header.
Variable StatusText : Z → string.
Variable pageID : string.
Variable now : Z.
Variable timestampText : Z → string.

(** Go visits every key of a map once, in an order of its own. *)
Hypothesis rangeOrder_perm : ∀ n h, rangeOrder n h ≡ₚ map_to_list h.

Local Abbreviation entryOf :=
  (harEntry Unmarshal rangeOrder ParseQuery StatusText pageID).
Local Abbreviation entriesFrom :=
  (harEntries Unmarshal rangeOrder ParseQuery StatusText pageID).
Local Abbreviation export :=
  (exportRequestsToHAR Unmarshal rangeOrder ParseQuery StatusText pageID now).
Local Abbreviation handler :=
  (exportHARHandler Unmarshal rangeOrder ParseQuery StatusText pageID now
     timestampText).
Local Abbreviation textOrder :=
  (λ a b : Z, String.leb (timestampText a) (timestampText b) = true).

Lemma nameValuePairs_perm kvs kvs' :
  kvs ≡ₚ kvs' → nameValuePairs kvs ≡ₚ nameValuePairs kvs'.
Proof. intros H. unfold nameValuePairs. by apply Permutation_flat_map. Qed.

Lemma harEntry_renders i req entry :
  entryOf i req = Ok entry → renders Unmarshal pageID req entry.
Proof.
  unfold harEntry.
  destruct (Unmarshal (RequestLog.RequestHeaders req)) as [reqH|e] eqn:H1;
    [|discriminate].
  destruct (Unmarshal (RequestLog.ResponseHeaders req)) as [respH|e] eqn:H2;
    [|discriminate].
  intros [= <-]. unfold renders. cbn.
  do 9 (split; [reflexivity|]).
  exists reqH, respH. split; [done|]. split; [done|].
  split; [by apply nameValuePairs_perm|].
  split; [by apply nameValuePairs_perm|].
  split.
  - unfold mimeTypeOf. by destruct (String.eqb _ "").
  - unfold len, mimeTypeOf. destruct (RequestLog.RequestBody req); cbn [length].
    + reflexivity.
    + replace (0 <? Z.of_nat (S (length l))) with true
        by (symmetry; apply Z.ltb_lt; lia).
      by destruct (String.eqb _ "").
Qed.

Lemma harEntry_parses i req :
  parses Unmarshal (RequestLog.RequestHeaders req) →
  parses Unmarshal (RequestLog.ResponseHeaders req) →
  ∃ entry, entryOf i req = Ok entry.
Proof.
  intros [h1 H1] [h2 H2]. unfold harEntry. rewrite H1, H2. by eexists.
Qed.

Lemma harEntries_renders i requests entries :
  entriesFrom i requests = Ok entries →
  Forall2 (renders Unmarshal pageID) requests entries.
Proof.
  revert i entries. induction requests as [|req rest IH]; intros i entries.
  - intros [= <-]. constructor.
  - cbn [harEntries].
    destruct (entryOf i req) as [entry|e] eqn:He; [|discriminate].
    destruct (entriesFrom (S i) rest) as [es|e] eqn:Hes; [|discriminate].
    intros [= <-]. constructor; [by eapply harEntry_renders | by eapply IH].
Qed.

(** X13. An export that succeeds renders every request given, once and
    in the order given: the HAR log has version 1.2, the creator dGateway
    1.0, one page, and one entry per request, each on that page, with the
    instant, method, URL and status of the request, the sizes of the
    stored bodies, the stored response body as text, post data exactly
    when the stored request body is not empty, and one name and value
    pair for every value of every stored header. This holds whatever
    order Go's map iteration takes. *)
Theorem har_export_renders_every_request (requests : list RequestLog.t)
    (har : HAR.t) :
  export requests = Ok har →
  HARLog.Version (HAR.Log har) = "1.2" ∧
  HARLog.Creator (HAR.Log har) =
    {| HARCreator.Name := "dGateway"; HARCreator.Version := "1.0" |} ∧
  HARLog.Pages (HAR.Log har) =
    [{| HARPage.StartedDateTime := now; HARPage.ID := pageID;
        HARPage.Title := "dGateway Export" |}] ∧
  length (HARLog.Entries (HAR.Log har)) = length requests ∧
  Forall2 (renders Unmarshal pageID) requests (HARLog.Entries (HAR.Log har)).
Proof.
  unfold exportRequestsToHAR.
  destruct (entriesFrom 0 requests) as [entries|e] eqn:He; [|discriminate].
  intros [= <-]. cbn. apply harEntries_renders in He.
  repeat split; try done. symmetry. by eapply Forall2_length.
Qed.

Lemma harEntries_parses i requests :
  Forall (λ req, parses Unmarshal (RequestLog.RequestHeaders req) ∧
                 parses Unmarshal (RequestLog.ResponseHeaders req))
         requests →
  ∃ entries, entriesFrom i requests = Ok entries.
Proof.
  intros Hall. revert i.
  induction Hall as [|req rest [H1 H2] _ IH]; intros i; [by eexists|].
  cbn [harEntries].
  destruct (harEntry_parses i req H1 H2) as [entry ->].
  destruct (IH (S i)) as [es ->]. by eexists.
Qed.

Lemma harEntries_first_failure i good req rest e :
  Forall (λ req, parses Unmarshal (RequestLog.RequestHeaders req) ∧
                 parses Unmarshal (RequestLog.ResponseHeaders req)) good →
  entryOf (i + length good) req = Err e →
  entriesFrom i (good ++ req :: rest) = Err e.
Proof.
  intros Hall. revert i.
  induction Hall as [|x good [H1 H2] _ IH]; intros i Hreq.
  - cbn [app harEntries]. cbn [length] in Hreq. rewrite Nat.add_0_r in Hreq.
    by rewrite Hreq.
  - cbn [app harEntries].
    destruct (harEntry_parses i x H1 H2) as [entry ->].
    rewrite IH; [done|]. cbn [length] in Hreq.
    by replace (S i + length good)%nat with (i + S (length good))%nat by lia.
Qed.

(** X14. The export is all or nothing. It succeeds exactly when the
    request headers and the response headers of every request parse; and
    when they do not, it returns no HAR at all but an error that names
    the id of the first request in the list with a header text that does
    not parse, and which of its two header texts it was (the request
    headers first). *)
Theorem har_export_all_or_nothing (requests : list RequestLog.t) :
  let wellFormed :=
    λ req, parses Unmarshal (RequestLog.RequestHeaders req) ∧
           parses Unmarshal (RequestLog.ResponseHeaders req) in
  ((∃ har, export requests = Ok har) ↔ Forall wellFormed requests) ∧
  (∀ good req rest e,
     requests = (good ++ req :: rest)%list → Forall wellFormed good →
     Unmarshal (RequestLog.RequestHeaders req) = Err e →
     export requests =
       Err ("failed to parse request headers for request "
            ++ Itoa (RequestLog.ID req) ++ ": " ++ e)) ∧
  (∀ good req rest e,
     requests = (good ++ req :: rest)%list → Forall wellFormed good →
     parses Unmarshal (RequestLog.RequestHeaders req) →
     Unmarshal (RequestLog.ResponseHeaders req) = Err e →
     export requests =
       Err ("failed to parse response headers for request "
            ++ Itoa (RequestLog.ID req) ++ ": " ++ e)).
Proof.
  cbv zeta. split; [|split].
  - split.
    + intros [har Hhar]. unfold exportRequestsToHAR in Hhar.
      destruct (entriesFrom 0 requests) as [entries|e] eqn:He; [|discriminate].
      apply harEntries_renders in He. clear Hhar.
      induction He as [|req entry rs es Hr _ IH]; constructor; [|exact IH].
      destruct Hr as (_ & _ & _ & _ & _ & _ & _ & _ & _ & h1 & h2 & H1 & H2 & _).
      split; by eexists.
    + intros Hall. unfold exportRequestsToHAR.
      destruct (harEntries_parses 0 requests Hall) as [es ->]. by eexists.
  - intros good req rest e -> Hgood Hreq. unfold exportRequestsToHAR.
    rewrite (harEntries_first_failure 0 good req rest
               ("failed to parse request headers for request "
                ++ Itoa (RequestLog.ID req) ++ ": " ++ e) Hgood); [done|].
    unfold harEntry. by rewrite Hreq.
  - intros good req rest e -> Hgood [h Hh] Hresp. unfold exportRequestsToHAR.
    rewrite (harEntries_first_failure 0 good req rest
               ("failed to parse response headers for request "
                ++ Itoa (RequestLog.ID req) ++ ": " ++ e) Hgood); [done|].
    unfold harEntry. by rewrite Hh, Hresp.
Qed.

Lemma scanExportRows_sublist scanFault l log :
  (scanExportRows scanFault l log).1 `sublist_of` List.map scanExportRow l.
Proof.
  revert scanFault log. induction l as [|row l IH]; intros scanFault log.
  - constructor.
  - cbn [scanExportRows List.map]. destruct (scanFault O) as [e|].
    + apply sublist_cons, IH.
    + specialize (IH (λ i, scanFault (S i)) log).
      destruct (scanExportRows _ l log) as [requests log'].
      cbn [fst] in *. by apply sublist_skip.
Qed.

Lemma StronglySorted_timestamps l :
  StronglySorted (olderFirst timestampText) l →
  StronglySorted textOrder
    (List.map RequestLog.Timestamp (List.map scanExportRow l)).
Proof.
  induction 1 as [|x l Hs IH Hall]; cbn; constructor; [done|].
  apply Forall_forall. intros t Ht. rewrite Forall_forall in Hall.
  apply list_elem_of_fmap in Ht as (y & -> & Hy).
  apply list_elem_of_fmap in Hy as (z & -> & Hz). exact (Hall z Hz).
Qed.

(** Where the stored texts follow the instants, ascending texts are
    ascending instants. *)
Lemma textOrder_instants db (l : list Z) :
  ListSpec.textsFollowInstants timestampText db →
  (∀ t, t ∈ l → ∃ row, row ∈ rows db ∧ RequestLog.Timestamp row = t) →
  StronglySorted textOrder l → StronglySorted Z.le l.
Proof.
  intros Hfollow Hin Hs.
  induction Hs as [|x l Hs IH Hall]; constructor.
  - apply IH. intros t Ht. apply Hin. by right.
  - rewrite Forall_forall in *. intros y Hy.
    destruct (Z.le_gt_cases x y) as [Hle|Hgt]; [done|].
    destruct (Hin x) as (a & Ha & <-); [by left|].
    destruct (Hin y) as (b & Hb & <-); [by right|].
    pose proof (Hall _ Hy) as Hxy. cbn beta in Hxy.
    rewrite (Hfollow b a) in Hxy; [done|done|done|lia].
Qed.

Lemma renders_keys requests entries :
  Forall2 (renders Unmarshal pageID) requests entries →
  List.map entryKey entries = List.map exchangeKey requests.
Proof.
  induction 1 as [|req entry rs es Hr _ IH]; [done|]. cbn. rewrite IH.
  destruct Hr as (_ & H1 & H2 & H3 & H4 & _).
  unfold entryKey, exchangeKey. by rewrite H1, H2, H3, H4.
Qed.

(** X15. The export handler. Any method but GET is answered 405 and a
    failing query 500. When it answers with a HAR file, the file is
    offered as the attachment dgateway-export.har, its entries are in
    ascending order of the timestamp texts stored in the table (which is
    ascending order of time where the stored texts follow the instants),
    and they are the stored exchanges: none is invented, and when every
    row scans, each stored exchange is there exactly once. A row whose
    scan fails is left out and the export goes on. *)
Theorem exportHARHandler_exports_the_table (queryFault : option string)
    (scanFault : nat → option string) (db : DB) (r : admin.Request)
    (log : Log) :
  let reply := handler queryFault scanFault db r log in
  let stored := merge_sort (olderFirst timestampText) (rows db) in
  (admin.Method r ≠ "GET" →
   reply = (admin.Error "Method not allowed" 405, log)) ∧
  (admin.Method r = "GET" → ∀ e, queryFault = Some e →
   reply.1 = admin.Error "Failed to fetch requests" 500) ∧
  (∀ h har log',
     reply = (admin.Encoded h har, log') →
     let entries := HARLog.Entries (HAR.Log har) in
     h !! "Content-Disposition"
       = Some [quoted "attachment; filename='dgateway-export.har'"] ∧
     StronglySorted textOrder (List.map HAREntry.StartedDateTime entries) ∧
     (ListSpec.textsFollowInstants timestampText db →
      StronglySorted Z.le (List.map HAREntry.StartedDateTime entries)) ∧
     List.map entryKey entries `sublist_of` List.map exchangeKey stored ∧
     ((∀ i, scanFault i = None) →
      List.map entryKey entries ≡ₚ List.map exchangeKey (rows db))).
Proof.
  cbv zeta. unfold exportHARHandler. split; [|split].
  - intros Hm. apply String.eqb_neq in Hm. by rewrite Hm.
  - intros -> e ->. reflexivity.
  - intros h har log'.
    destruct (negb (String.eqb (admin.Method r) "GET")); [discriminate|].
    destruct queryFault as [e|]; [discriminate|].
    set (stored := merge_sort (olderFirst timestampText) (rows db)).
    pose proof (scanExportRows_sublist scanFault stored log) as Hsub.
    destruct (scanExportRows scanFault stored log)
      as [requests log1] eqn:Hscan.
    cbn [fst] in Hsub.
    destruct (export requests) as [har'|e] eqn:Hexp; [|discriminate].
    intros [= <- <- <-].
    unfold exportRequestsToHAR in Hexp.
    destruct (entriesFrom 0 requests) as [entries|e] eqn:He; [|discriminate].
    injection Hexp as <-. cbn [HAR.Log HARLog.Entries].
    apply harEntries_renders in He.
    pose proof (renders_keys requests entries He) as Hkeys.
    assert (StronglySorted (olderFirst timestampText) stored) as Hsorted.
    { apply StronglySorted_merge_sort.
      - intros a b c. unfold olderFirst. apply leb_trans.
      - intros a b. unfold olderFirst.
        destruct (String.leb_total (timestampText (RequestLog.Timestamp a))
                    (timestampText (RequestLog.Timestamp b))); auto. }
    assert (List.map exchangeKey (List.map scanExportRow stored)
            = List.map exchangeKey stored) as Hscanned.
    { rewrite List.map_map. apply List.map_ext. by intros []. }
    assert (List.map HAREntry.StartedDateTime entries
            = List.map RequestLog.Timestamp requests) as Hstarted.
    { clear -He. induction He as [|req entry rs es Hr _ IH]; [done|].
      cbn. rewrite IH. by destruct Hr as (_ & -> & _). }
    assert (StronglySorted textOrder
              (List.map HAREntry.StartedDateTime entries)) as Htexts.
    { rewrite Hstarted.
      eapply StronglySorted_sublist;
        [|apply StronglySorted_timestamps, Hsorted].
      by apply (fmap_sublist RequestLog.Timestamp). }
    split; [done|]. split; [done|]. split; [|split].
    + intros Hfollow. eapply textOrder_instants; [exact Hfollow| |exact Htexts].
      intros t Ht. rewrite Hstarted in Ht.
      apply list_elem_of_fmap in Ht as (req & -> & Hreq).
      eapply elem_of_sublist in Hreq; [|exact Hsub].
      apply list_elem_of_fmap in Hreq as (row & -> & Hrow).
      exists row. split; [|done].
      unfold stored in Hrow. by rewrite merge_sort_Permutation in Hrow.
    + rewrite Hkeys, <- Hscanned. by apply (fmap_sublist exchangeKey).
    + intros Hnone.
      assert (requests = List.map scanExportRow stored) as ->.
      { clear -Hscan Hnone. revert requests log1 Hscan.
        generalize stored. revert scanFault Hnone log.
        intros scanFault Hnone log l. revert scanFault Hnone log.
        induction l as [|row l IH]; intros scanFault Hnone log requests log1.
        - by intros [= <- <-].
        - cbn [scanExportRows]. rewrite Hnone.
          destruct (scanExportRows (λ i, scanFault (S i)) l log)
            as [rs lg] eqn:Hrest.
          intros [= <- <-]. cbn. f_equal.
          eapply (IH (λ i, scanFault (S i))); [|exact Hrest].
          intros i. apply Hnone. }
      rewrite Hkeys, Hscanned. unfold stored.
      by rewrite merge_sort_Permutation.
Qed.

End HARExport.

(** The statements above when headers always parse to the empty map and
    maps are visited in the order of [map_to_list]. *)
Lemma har_export_renders_every_request_witness :
  let rangeOrder := λ (_ : nat) (h : Header), map_to_list h in
  let requests := [Sample.getLog; Sample.getLog] in
  (∀ n h, rangeOrder n h ≡ₚ map_to_list h) ∧
  ∃ har,
    exportRequestsToHAR (λ _, Ok ∅) rangeOrder (λ _, ∅) (λ _, "OK") "page" 0
      requests = Ok har ∧
    length (HARLog.Entries (HAR.Log har)) = 2%nat.
Proof.
  intros rangeOrder requests.
  assert (∀ n h, rangeOrder n h ≡ₚ map_to_list h) as Hperm by done.
  split; [exact Hperm|].
  destruct (exportRequestsToHAR (λ _, Ok ∅) rangeOrder (λ _, ∅) (λ _, "OK")
              "page" 0 requests) as [har|e] eqn:Heq;
    [|vm_compute in Heq; discriminate].
  exists har. split; [reflexivity|].
  exact (proj1 (proj2 (proj2 (proj2
           (har_export_renders_every_request (λ _, Ok ∅) rangeOrder (λ _, ∅)
              (λ _, "OK") "page" 0 Hperm requests har Heq))))).
Defined.

Lemma har_export_all_or_nothing_witness :
  let rangeOrder := λ (_ : nat) (h : Header), map_to_list h in
  let Unmarshal := λ s : string, if String.eqb s "" then Err "unexpected end of JSON input" else Ok (∅ : Header) in
  (∀ n h, rangeOrder n h ≡ₚ map_to_list h) ∧
  exportRequestsToHAR Unmarshal rangeOrder (λ _, ∅) (λ _, "OK") "page" 0
    [Sample.getLog] =
    Err "failed to parse response headers for request 0: unexpected end of JSON input".
Proof.
  intros rangeOrder Unmarshal.
  assert (∀ n h, rangeOrder n h ≡ₚ map_to_list h) as Hperm by done.
  split; [exact Hperm|].
  exact (proj2 (proj2
           (har_export_all_or_nothing Unmarshal rangeOrder (λ _, ∅)
              (λ _, "OK") "page" 0 Hperm [Sample.getLog]))
           [] Sample.getLog [] "unexpected end of JSON input"
           eq_refl (List.Forall_nil _) (ex_intro _ ∅ eq_refl) eq_refl).
Defined.

(** The statement above for a GET on a table of two rows, the later one
    stored first: the file holds the two exchanges, the earlier one
    first. *)
Lemma exportHARHandler_exports_the_table_witness :
  let rangeOrder := λ (_ : nat) (h : Header), map_to_list h in
  let db := {| rows := [ListSpec.sampleRow 2; ListSpec.sampleRow 1];
               lastRowID := 2 |} in
  let r := {| admin.Method := "GET"; admin.Path := "/api/export/har";
              admin.Cookies := []; admin.Query := ListSpec.request "" "";
              admin.Body := [] |} in
  (∀ n h, rangeOrder n h ≡ₚ map_to_list h) ∧
  ListSpec.textsFollowInstants Itoa db ∧
  ∃ h har log',
    exportHARHandler (λ _, Ok ∅) rangeOrder (λ _, ∅) (λ _, "OK") "page" 0
      Itoa None (λ _, None) db r [] = (admin.Encoded h har, log') ∧
    List.map HAREntry.StartedDateTime (HARLog.Entries (HAR.Log har))
      = [1001; 1002] ∧
    StronglySorted Z.le
      (List.map HAREntry.StartedDateTime (HARLog.Entries (HAR.Log har))) ∧
    List.map entryKey (HARLog.Entries (HAR.Log har))
      ≡ₚ List.map exchangeKey (rows db).
Proof.
  intros rangeOrder db r.
  assert (∀ n h, rangeOrder n h ≡ₚ map_to_list h) as Hperm by done.
  assert (ListSpec.textsFollowInstants Itoa db) as Hfollow.
  { intros a b Ha Hb. unfold db in Ha, Hb. cbn [rows] in Ha, Hb.
    rewrite !elem_of_cons, elem_of_nil in Ha, Hb.
    destruct Ha as [->|[->|[]]], Hb as [->|[->|[]]]; cbn; intros Hlt;
      first [lia | vm_compute; reflexivity]. }
  split; [exact Hperm|]. split; [exact Hfollow|].
  destruct (exportHARHandler (λ _, Ok ∅) rangeOrder (λ _, ∅) (λ _, "OK")
              "page" 0 Itoa None (λ _, None) db r [])
    as [[msg code|to code|w|h har|] log'] eqn:Hreply;
    try (vm_compute in Hreply; discriminate).
  exists h, har, log'. split; [reflexivity|].
  destruct (proj2 (proj2
              (exportHARHandler_exports_the_table (λ _, Ok ∅) rangeOrder
                 (λ _, ∅) (λ _, "OK") "page" 0 Itoa Hperm None (λ _, None)
                 db r [])) h har log' Hreply)
    as (_ & _ & Hinstants & _ & Hall).
  split; [|split; [exact (Hinstants Hfollow)|exact (Hall (λ _, eq_refl))]].
  vm_compute in Hreply. by injection Hreply as <- <- <-.
Defined.

(** ** The replay handler *)

Section ReplayHandler.
Context {codec : GzipLib}.
Variable decodeReplay : list byte → result ReplayData.t.
Variable rangeOrder : Header → list (string * list string).
Variable Do : httpreq.t → result Upstream.t.

Local Abbreviation replay := (replayRequest decodeReplay rangeOrder Do).
Local Abbreviation withHeaders := (addHeaders rangeOrder).

Lemma replayFinalURL_cases targetFlag replayURL :
  match url.Parse replayURL with
  | Err _ =>
      (replayFinalURL targetFlag replayURL).1
        = replayError "Invalid URL in replay data" 400
  | Ok _ => ∃ finalURL, (replayFinalURL targetFlag replayURL).1 = replayTo finalURL
  end.
Proof.
  destruct (url.Parse replayURL) as [u|e] eqn:Hp; unfold replayFinalURL;
    (destruct targetFlag as [value|];
     [destruct (url.Parse value) | destruct (url.Parse "http://localhost:8081")]);
    cbv beta iota zeta; rewrite Hp; cbn [fst]; try done; by eexists.
Qed.

(** The handler either refuses and sends nothing, or sends one request
    and reports on it. *)
Lemma replayRequest_cases targetFlag r log sent :
  let '(reply, _, sent') := replay targetFlag r log sent in
  (sent' = sent ∧
   ((admin.Method r ≠ "POST" ∧ reply = admin.Error "Method not allowed" 405) ∨
    (admin.Method r = "POST" ∧ ∃ e, decodeReplay (admin.Body r) = Err e ∧
       reply = admin.Error "Invalid request body" 400) ∨
    (admin.Method r = "POST" ∧ ∃ data e,
       decodeReplay (admin.Body r) = Ok data ∧
       url.Parse (ReplayData.URL data) = Err e ∧
       reply = admin.Error "Invalid URL in replay data" 400) ∨
    (admin.Method r = "POST" ∧ ∃ data u finalURL e,
       decodeReplay (admin.Body r) = Ok data ∧
       url.Parse (ReplayData.URL data) = Ok u ∧
       (replayFinalURL targetFlag (ReplayData.URL data)).1 = replayTo finalURL ∧
       httpreq.NewRequest (ReplayData.Method data) finalURL
         (list_byte_of_string (ReplayData.Body data)) = Err e ∧
       reply = admin.Error "Failed to create replay request" 500))) ∨
  (admin.Method r = "POST" ∧ ∃ data finalURL req0,
     decodeReplay (admin.Body r) = Ok data ∧
     (replayFinalURL targetFlag (ReplayData.URL data)).1 = replayTo finalURL ∧
     httpreq.NewRequest (ReplayData.Method data) finalURL
       (list_byte_of_string (ReplayData.Body data)) = Ok req0 ∧
     sent' = (sent ++ [withHeaders req0 (ReplayData.Headers data)])%list ∧
     answerOf Do (withHeaders req0 (ReplayData.Headers data)) reply).
Proof.
  unfold replayRequest.
  destruct (String.eqb_spec (admin.Method r) "POST") as [Hm|Hm]; cbn [negb];
    [|left; split; [done|]; by left].
  destruct (decodeReplay (admin.Body r)) as [data|e] eqn:Hdec;
    [|left; split; [done|]; right; left; split; [done|]; by exists e].
  pose proof (replayFinalURL_cases targetFlag (ReplayData.URL data)) as Hcases.
  destruct (replayFinalURL targetFlag (ReplayData.URL data))
    as [target lines] eqn:Hfin.
  cbn [fst] in Hcases.
  destruct (url.Parse (ReplayData.URL data)) as [u|e] eqn:Hparse.
  - destruct Hcases as [finalURL ->].
    destruct (httpreq.NewRequest _ finalURL _) as [req0|e] eqn:Hnew.
    + cbv zeta. unfold io.ReadAll.
      destruct (Do (withHeaders req0 (ReplayData.Headers data)))
        as [resp|e] eqn:HDo;
        [destruct (io.fault (Upstream.Body resp)) as [e|] eqn:Hf|];
        (right; split; [done|]; exists data, finalURL, req0;
         rewrite Hfin; do 4 (split; [done|]); unfold answerOf;
         rewrite HDo, ?Hf);
        try done.
      by exists finalURL.
    + left. split; [done|]. do 3 right. split; [done|].
      exists data, u, finalURL, e. by rewrite Hfin.
  - rewrite Hcases. left. split; [done|]. right; right; left.
    split; [done|]. by exists data, e.
Qed.

(** X16. A replay is refused without anything being sent when the method
    is not POST (405), when the body does not decode (400), when the URL
    of the replay data does not parse (400) and when no request can be
    built from the data (500). One call sends at most one request; and
    the configured target never makes a replay fail: if the body decodes
    and the replay URL parses, the answer is not the 400 of a bad URL,
    whatever the target flag holds, unparsable text included. *)
Theorem replay_refusals_send_nothing (targetFlag : option string)
    (r : admin.Request) (log : Log) (sent : list httpreq.t) :
  let '(reply, _, sent') := replay targetFlag r log sent in
  (sent' = sent ∨ ∃ req, sent' = (sent ++ [req])%list) ∧
  (admin.Method r ≠ "POST" →
   reply = admin.Error "Method not allowed" 405 ∧ sent' = sent) ∧
  (admin.Method r = "POST" →
   (∀ e, decodeReplay (admin.Body r) = Err e →
         reply = admin.Error "Invalid request body" 400 ∧ sent' = sent) ∧
   (∀ data,
      decodeReplay (admin.Body r) = Ok data →
      (∀ e, url.Parse (ReplayData.URL data) = Err e →
            reply = admin.Error "Invalid URL in replay data" 400 ∧
            sent' = sent) ∧
      (∀ u, url.Parse (ReplayData.URL data) = Ok u →
            reply ≠ admin.Error "Invalid URL in replay data" 400) ∧
      (httpreq.validMethod (effectiveMethod (ReplayData.Method data)) = false →
       ∀ u, url.Parse (ReplayData.URL data) = Ok u →
            reply = admin.Error "Failed to create replay request" 500 ∧
            sent' = sent))).
Proof.
  pose proof (replayRequest_cases targetFlag r log sent) as H.
  destruct (replay targetFlag r log sent) as [[reply log'] sent'].
  assert (∀ req, (sent ++ [req])%list ≠ sent) as Hgrow.
  { intros req E. apply (f_equal length) in E. rewrite length_app in E.
    cbn in E. lia. }
  destruct H as [[-> H] | (Hm & data & finalURL & req0 & Hdec & Hfin & Hnew & -> & Hans)].
  - split; [by left|].
    destruct H as [[Hm ->] | [(Hm & e & Hdec & ->) |
                   [(Hm & data & e & Hdec & Hparse & ->) |
                    (Hm & data & u & finalURL & e & Hdec & Hparse & Hfin & Hnew & ->)]]].
    + split; [done|]. intros Hp. by destruct Hm.
    + split; [by intros []|]. intros _. split; [done|].
      intros data Hd. congruence.
    + split; [by intros []|]. intros _. split; [intros e' He'; congruence|].
      intros data' Hd. assert (data' = data) as -> by congruence.
      split; [done|]. split; [intros u Hu; congruence|].
      intros _ u Hu. congruence.
    + split; [by intros []|]. intros _. split; [intros e' He'; congruence|].
      intros data' Hd. assert (data' = data) as -> by congruence.
      split; [intros e' He'; congruence|]. split; [done|]. done.
  - split; [right; by eexists|]. split; [by intros []|]. intros _.
    split; [intros e He; congruence|].
    intros data' Hd. assert (data' = data) as -> by congruence.
    assert (reply ≠ admin.Error "Invalid URL in replay data" 400) as Hnot.
    { unfold answerOf in Hans. destruct (Do _) as [resp|e]; [|by subst].
      destruct (io.fault _); [by subst|]. destruct Hans as [f ->]. done. }
    split.
    { intros e He. pose proof (replayFinalURL_cases targetFlag
                                 (ReplayData.URL data)) as Hc.
      rewrite He, Hfin in Hc. discriminate. }
    split; [done|].
    intros Hbad u Hu. unfold httpreq.NewRequest in Hnew.
    fold (effectiveMethod (ReplayData.Method data)) in Hnew.
    rewrite Hbad in Hnew. discriminate.
Qed.

Lemma addHeaders_frame kvs req0 :
  let req :=
    fold_left
      (λ req kv, httpreq.setHeader req (fst kv) (GoStrings.Join (snd kv) ", "))
      kvs req0 in
  httpreq.Method req = httpreq.Method req0 ∧
  httpreq.URL req = httpreq.URL req0 ∧
  httpreq.Host req = httpreq.Host req0 ∧
  httpreq.Body req = httpreq.Body req0 ∧
  httpreq.ContentLength req = httpreq.ContentLength req0.
Proof.
  cbv zeta. revert req0. induction kvs as [|kv kvs IH]; intros req0; [done|].
  cbn [fold_left]. destruct (IH (httpreq.setHeader req0 (fst kv)
                                   (GoStrings.Join (snd kv) ", ")))
    as (-> & -> & -> & -> & ->). done.
Qed.

Lemma addHeaders_lookup kvs req0 k v :
  (k, v) ∈ kvs →
  (∀ k' v', (k', v') ∈ kvs →
            httpreq.CanonicalMIMEHeaderKey k' = httpreq.CanonicalMIMEHeaderKey k →
            (k', v') = (k, v)) →
  httpreq.Header
    (fold_left
       (λ req kv, httpreq.setHeader req (fst kv) (GoStrings.Join (snd kv) ", "))
       kvs req0)
    !! httpreq.CanonicalMIMEHeaderKey k = Some [GoStrings.Join v ", "].
Proof.
  revert req0. induction kvs as [|kv kvs IH] using rev_ind; intros req0 Hin Huniq.
  - by apply elem_of_nil in Hin.
  - rewrite fold_left_app. cbn [fold_left httpreq.setHeader httpreq.Header].
    destruct (decide (httpreq.CanonicalMIMEHeaderKey (fst kv)
                      = httpreq.CanonicalMIMEHeaderKey k)) as [E|E].
    + assert (kv = (k, v)) as ->.
      { destruct kv as [k' v']. apply Huniq; [|done].
        apply elem_of_app. right. by apply list_elem_of_singleton. }
      cbn [fst snd]. by rewrite lookup_insert_eq.
    + rewrite lookup_insert_ne by done. apply IH.
      * apply elem_of_app in Hin as [Hin|Hin]; [done|].
        apply list_elem_of_singleton in Hin as <-. by destruct E.
      * intros k' v' Hin' Hc. apply Huniq; [|done].
        apply elem_of_app. by left.
Qed.

Lemma addHeaders_origin kvs req0 key x :
  httpreq.Header
    (fold_left
       (λ req kv, httpreq.setHeader req (fst kv) (GoStrings.Join (snd kv) ", "))
       kvs req0) !! key = Some x →
  httpreq.Header req0 !! key = Some x ∨
  ∃ k v, (k, v) ∈ kvs ∧ key = httpreq.CanonicalMIMEHeaderKey k ∧
         x = [GoStrings.Join v ", "].
Proof.
  revert req0. induction kvs as [|kv kvs IH] using rev_ind; intros req0 Hl.
  - by left.
  - rewrite fold_left_app in Hl.
    cbn [fold_left httpreq.setHeader httpreq.Header] in Hl.
    destruct (decide (httpreq.CanonicalMIMEHeaderKey (fst kv) = key)) as [E|E].
    + subst key. rewrite lookup_insert_eq in Hl. injection Hl as <-.
      right. exists (fst kv), (snd kv). split; [|done].
      apply elem_of_app. right. destruct kv. by apply list_elem_of_singleton.
    + rewrite lookup_insert_ne in Hl by done.
      destruct (IH req0 Hl) as [H|(k & v & Hin & -> & ->)]; [by left|].
      right. exists k, v. split; [|done]. apply elem_of_app. by left.
Qed.

Lemma replayBodyBytes_recorded finalURL h raw :
  (replayBodyBytes finalURL h raw).1 = recordedBody h raw.
Proof.
  unfold replayBodyBytes, recordedBody.
  destruct (String.eqb (http.Get h "Content-Encoding") "gzip"); [|done].
  destruct (decompressGzip raw) as [d [e|]]; cbn [fst snd andb].
  - by rewrite bool_decide_eq_false_2.
  - by rewrite bool_decide_eq_true_2.
Qed.

(** Go visits every key of a map once, in an order of its own. *)
Hypothesis rangeOrder_perm : ∀ h, rangeOrder h ≡ₚ map_to_list h.

(** X17. The request that a replay sends is the one that was asked for:
    its method is the method of the replay data (GET if that is empty)
    and is a valid token, its body is the body text of the replay data,
    byte for byte, with the matching content length, its URL is the parse
    of the resolved URL, and its headers are those of the replay data and
    no others: each name in canonical form, with its values joined by a
    comma and a space, provided no other name of the data has the same
    canonical form. This holds whatever order Go's map iteration takes. *)
Theorem replay_sends_what_was_asked (targetFlag : option string)
    (r : admin.Request) (log : Log) (sent : list httpreq.t)
    (data : ReplayData.t) (req : httpreq.t) :
  decodeReplay (admin.Body r) = Ok data →
  (replay targetFlag r log sent).2 = (sent ++ [req])%list →
  httpreq.Method req = effectiveMethod (ReplayData.Method data) ∧
  httpreq.validMethod (httpreq.Method req) = true ∧
  httpreq.Body req = list_byte_of_string (ReplayData.Body data) ∧
  httpreq.ContentLength req = len (httpreq.Body req) ∧
  (∃ finalURL u,
     (replayFinalURL targetFlag (ReplayData.URL data)).1 = replayTo finalURL ∧
     url.Parse finalURL = Ok u ∧
     httpreq.Host req = httpreq.removeEmptyPort (url.Host u) ∧
     httpreq.URL req = url.withAuthority u (url.User u) (httpreq.Host req)) ∧
  (∀ k v,
     ReplayData.Headers data !! k = Some v →
     (∀ k', is_Some (ReplayData.Headers data !! k') →
            httpreq.CanonicalMIMEHeaderKey k' = httpreq.CanonicalMIMEHeaderKey k →
            k' = k) →
     httpreq.Header req !! httpreq.CanonicalMIMEHeaderKey k
       = Some [GoStrings.Join v ", "]) ∧
  (∀ key x,
     httpreq.Header req !! key = Some x →
     ∃ k v, ReplayData.Headers data !! k = Some v ∧
            key = httpreq.CanonicalMIMEHeaderKey k ∧
            x = [GoStrings.Join v ", "]).
Proof.
  intros Hdec Hsent.
  pose proof (replayRequest_cases targetFlag r log sent) as H.
  destruct (replay targetFlag r log sent) as [[reply log'] sent'].
  cbn [snd] in Hsent. subst sent'.
  destruct H as [[E _] | (Hm & data' & finalURL & req0 & Hdec' & Hfin & Hnew & E & _)].
  { apply (f_equal length) in E. rewrite length_app in E. cbn in E. lia. }
  assert (data' = data) as -> by congruence.
  apply app_inj_tail in E as [_ ->].
  unfold httpreq.NewRequest in Hnew.
  fold (effectiveMethod (ReplayData.Method data)) in Hnew.
  destruct (httpreq.validMethod (effectiveMethod (ReplayData.Method data)))
    eqn:Hvalid; [|discriminate].
  cbn [negb] in Hnew.
  destruct (url.Parse finalURL) as [u|e] eqn:Hparse; [|discriminate].
  injection Hnew as <-. unfold addHeaders.
  match goal with
  | |- context [fold_left ?f ?kvs ?r0] =>
      pose proof (addHeaders_frame kvs r0) as (F1 & F2 & F3 & F4 & F5);
      pose proof (addHeaders_lookup kvs r0) as Hlook;
      pose proof (addHeaders_origin kvs r0) as Horig
  end.
  rewrite F1, F2, F3, F4, F5. cbn [httpreq.Method httpreq.Body httpreq.URL
                                   httpreq.Host httpreq.ContentLength].
  do 4 (split; [done|]). split; [by exists finalURL, u|].
  assert (∀ k v, (k, v) ∈ rangeOrder (ReplayData.Headers data)
                 ↔ ReplayData.Headers data !! k = Some v) as Hmem.
  { intros k v. rewrite (rangeOrder_perm (ReplayData.Headers data)).
    apply elem_of_map_to_list. }
  split.
  - intros k v Hk Huniq. apply Hlook; [by apply Hmem|].
    intros k' v' Hin Hc. apply Hmem in Hin.
    assert (k' = k) as -> by (apply Huniq; [by eexists|done]).
    congruence.
  - intros key x Hx. destruct (Horig key x Hx) as [H|(k & v & Hin & -> & ->)].
    + cbn in H. by rewrite lookup_empty in H.
    + exists k, v. split; [by apply Hmem|done].
Qed.

(** X18. A replay that was sent reports what came of it and nothing
    else. A failure of the transport and a failure to read the answer are
    each answered 500. Otherwise the reply carries the status of the
    answer and its headers exactly as they came, Content-Encoding
    included even when the body was inflated, and the body of the answer
    (inflated if it was gzip-encoded and inflates) as text when its
    Content-Type starts with text/ or mentions json, xml or javascript,
    and in base64 otherwise. *)
Theorem replay_reports_the_answer (targetFlag : option string)
    (r : admin.Request) (log : Log) (sent : list httpreq.t)
    (req : httpreq.t) :
  (replay targetFlag r log sent).2 = (sent ++ [req])%list →
  let reply := (replay targetFlag r log sent).1.1 in
  (∀ e, Do req = Err e →
        reply = admin.Error "Failed to execute replayed request" 500) ∧
  (∀ resp e, Do req = Ok resp → io.fault (Upstream.Body resp) = Some e →
        reply = admin.Error "Failed to read replayed response body" 500) ∧
  (∀ resp, Do req = Ok resp → io.fault (Upstream.Body resp) = None →
     let body := recordedBody (Upstream.Header resp)
                   (io.unread (Upstream.Body resp)) in
     reply =
       admin.Encoded (http.Set_ ∅ "Content-Type" "application/json")
         {| ReplayResult.StatusCode := Upstream.StatusCode resp;
            ReplayResult.Headers := Upstream.Header resp;
            ReplayResult.Body :=
              if replayIsText (http.Get (Upstream.Header resp) "Content-Type")
              then string_of_list_byte body
              else base64.EncodeToString body |}).
Proof.
  intros Hsent.
  pose proof (replayRequest_cases targetFlag r log sent) as H.
  destruct (replay targetFlag r log sent) as [[reply log'] sent'].
  cbn [snd fst] in *. subst sent'.
  destruct H as [[E _] | (_ & data & finalURL & req0 & _ & _ & _ & E & Hans)].
  { apply (f_equal length) in E. rewrite length_app in E. cbn in E. lia. }
  apply app_inj_tail in E as [_ ->]. unfold answerOf in Hans.
  split; [|split].
  - intros e He. by rewrite He in Hans.
  - intros resp e He Hf. by rewrite He, Hf in Hans.
  - intros resp He Hf. rewrite He, Hf in Hans. destruct Hans as [f ->].
    unfold replayFinalRespBody. by rewrite replayBodyBytes_recorded.
Qed.

End ReplayHandler.

(** The two statements above for a replay of "/x?a=1" with one header
    against the target http://api.example.com, answered 200 with a text
    body. *)
Lemma replay_sends_what_was_asked_witness :
  let out :=
    replayRequest (codec := GzipStored.lib) SampleReplay.decode
      SampleReplay.order SampleReplay.transport SampleReplay.target
      (postTo "/api/replay") [] [] in
  (∀ h, SampleReplay.order h ≡ₚ map_to_list h) ∧
  ∃ req,
    out.2 = [req] ∧
    httpreq.Method req = "GET" ∧
    httpreq.Body req = list_byte_of_string "hi" ∧
    httpreq.Header req !! "Accept" = Some ["text/html, text/plain"].
Proof.
  intros out.
  assert (∀ h, SampleReplay.order h ≡ₚ map_to_list h) as Hperm by done.
  split; [exact Hperm|].
  destruct out.2 as [|req [|]] eqn:Hout; try (vm_compute in Hout; discriminate).
  exists req. split; [reflexivity|].
  destruct (replay_sends_what_was_asked (codec := GzipStored.lib)
              SampleReplay.decode SampleReplay.order SampleReplay.transport
              Hperm SampleReplay.target (postTo "/api/replay") [] []
              SampleReplay.data req eq_refl Hout)
    as (H1 & _ & H3 & _ & _ & H6 & _).
  split; [exact H1|]. split; [exact H3|].
  apply (H6 "accept" ["text/html"; "text/plain"]); [reflexivity|].
  intros k' [x Hx] _. cbn [ReplayData.Headers SampleReplay.data] in Hx.
  by apply lookup_singleton_Some in Hx as [<- _].
Defined.

Lemma replay_reports_the_answer_witness :
  let out :=
    replayRequest (codec := GzipStored.lib) SampleReplay.decode
      SampleReplay.order SampleReplay.transport SampleReplay.target
      (postTo "/api/replay") [] [] in
  ∃ req,
    out.2 = [req] ∧
    out.1.1 =
      admin.Encoded (http.Set_ ∅ "Content-Type" "application/json")
        {| ReplayResult.StatusCode := 200;
           ReplayResult.Headers := {["Content-Type" := ["text/plain"]]};
           ReplayResult.Body := "ok" |}.
Proof.
  intros out.
  destruct out.2 as [|req [|]] eqn:Hout; try (vm_compute in Hout; discriminate).
  exists req. split; [reflexivity|].
  exact (proj2 (proj2
           (replay_reports_the_answer (codec := GzipStored.lib)
              SampleReplay.decode SampleReplay.order SampleReplay.transport
              SampleReplay.target (postTo "/api/replay") [] [] req Hout))
           SampleReplay.answer eq_refl eq_refl).
Defined.

(** ** The shape of a completed migration *)

Section MigrationShape.
Import Mig MigSpec MigShape.

Lemma columnExists_app cols extra x :
  columnExists (cols ++ extra) x = columnExists cols x || columnExists extra x.
Proof.
  induction cols as [|c cols IH]; cbn; [done|].
  by destruct (String.eqb c x).
Qed.

(** One call of [addColumnIfNotExists] in a run that goes on. *)
Lemma addColumn_running fails cols0 added c ty s :
  running fails cols0 added s →
  columnExists (List.map fst added) c = false →
  post (addColumnIfNotExists fails "requests" c ty s)
    (λ _ s', running fails cols0 (added ++ missingFrom cols0 [(c, ty)]) s')
    (λ _, True).
Proof.
  intros (Hview & Hcom & Halt & Hok & Hout) Hfresh.
  unfold addColumnIfNotExists.
  apply post_bind. cbn [send post].
  destruct (fails (length (trace s))) as [err|] eqn:Hf1; [done|].
  apply post_bind. cbn [getView post view]. rewrite Hview.
  rewrite columnExists_app, Hfresh, orb_false_r.
  unfold missingFrom. cbn [List.filter fst].
  destruct (columnExists cols0 c) eqn:Hex; cbn [negb].
  { cbn. rewrite app_nil_r. repeat split; try done.
    - unfold alterations in *. cbn. rewrite List.filter_app, Halt. cbn.
      by rewrite app_nil_r.
    - intros i Hi. cbn [trace] in Hi. rewrite length_app in Hi. cbn in Hi.
      destruct (decide (i = length (trace s))) as [->|]; [done|].
      apply Hok. lia. }
  apply post_bind. unfold execAlter.
  apply post_bind. cbn [send post].
  apply post_bind. cbn [getView post view trace committed out].
  destruct (fails (length (trace s ++ [TableInfo "requests"]))) as [err|] eqn:Hf2;
    [done|].
  rewrite ?Hview. destruct (existsb _ _); [done|].
  cbn. repeat split.
  - by rewrite map_app, app_assoc.
  - done.
  - unfold alterations in *. cbn. rewrite !List.filter_app, Halt, map_app.
    cbn. by rewrite app_nil_r.
  - intros i Hi. cbn [trace] in Hi. rewrite !length_app in Hi. cbn in Hi.
    rewrite length_app in Hf2. cbn in Hf2.
    destruct (decide (i = length (trace s))) as [->|]; [done|].
    destruct (decide (i = (length (trace s) + 1)%nat)) as [->|]; [done|].
    apply Hok. lia.
  - unfold logLine. by rewrite Hout, map_app.
Qed.

(** X19. A start-up that completes has only appended to the table. The
    columns it leaves are the columns it found (those of the CREATE TABLE
    statement for a new store), in place, followed by exactly those of
    the four new columns that were missing, in the order of the calls;
    one ALTER statement was sent and one line logged for each of them
    and for no other; every statement before the WAL pragma succeeded;
    and a failure of the WAL pragma is logged and does not stop the
    start-up, which ends with the line of success. *)
Theorem InitDB_only_appends_missing_columns (fails : nat → option string)
    (c0 : option (list string)) (s : State) :
  InitDB fails (start c0) = Ret tt s →
  let added := missingFrom (columnsOf c0) newColumnTypes in
  committed s = Some (columnsOf c0 ++ List.map fst added)%list ∧
  view s = None ∧
  alterations s = List.map alterOf added ∧
  (∀ i, (S i < length (trace s))%nat → fails i = None) ∧
  last (trace s) = Some JournalWAL ∧
  out s = (List.map addedLine added
           ++ closingLines (fails (length (trace s) - 1)%nat))%list.
Proof.
  intros Hrun. cbv zeta.
  set (cols0 := columnsOf c0).
  assert (post (InitDB fails (start c0))
            (λ _ s,
               committed s
                 = Some (cols0 ++ List.map fst (missingFrom cols0 newColumnTypes))%list ∧
               view s = None ∧
               alterations s = List.map alterOf (missingFrom cols0 newColumnTypes) ∧
               (∀ i, (S i < length (trace s))%nat → fails i = None) ∧
               last (trace s) = Some JournalWAL ∧
               out s = (List.map addedLine (missingFrom cols0 newColumnTypes)
                        ++ closingLines (fails (length (trace s) - 1)%nat))%list)
            (λ _, True)) as Hpost.
  { clear Hrun. unfold InitDB.
    apply post_bind. cbn [send post start trace length].
    destruct (fails 0%nat) as [err|] eqn:Hf0; [done|].
    apply post_bind. cbn [send post start trace length app].
    destruct (fails 1%nat) as [err|] eqn:Hf1; [done|].
    apply post_bind. cbn [getCommitted post committed start].
    apply post_bind. cbn [setCommitted post committed view trace out start].
    apply post_bind. cbn [send post trace length app].
    destruct (fails 2%nat) as [err|] eqn:Hf2; [done|].
    apply post_bind. cbn [getCommitted post committed].
    apply post_bind. cbn [setView post committed view trace out].
    replace (match c0 with Some _ => c0 | None => Some baseColumns end)
      with (Some cols0) by (by destruct c0).
    set (s0 := {| committed := Some cols0; view := Some (Some cols0);
                  trace := [Open; CreateTable; Begin]; out := [] |}).
    assert (running fails cols0 (missingFrom cols0 []) s0) as Hinv0.
    { repeat split; cbn; try done.
      - by rewrite app_nil_r.
      - intros i Hi. destruct i as [|[|[|i]]]; try done. lia. }
    assert (∀ l c, columnExists (List.map fst l) c = false →
                   columnExists (List.map fst (missingFrom cols0 l)) c = false)
      as Hfresh.
    { intros l c. unfold missingFrom. induction l as [|x l IH]; [done|].
      cbn. destruct (String.eqb x.1 c) eqn:E; [done|]. intros Hl.
      destruct (negb _); cbn; [rewrite E|]; by apply IH. }
    assert (∀ l ct, (missingFrom cols0 l ++ missingFrom cols0 [ct])%list
                    = missingFrom cols0 (l ++ [ct])) as Hsnoc.
    { intros l ct. unfold missingFrom. by rewrite List.filter_app. }
    apply post_bind.
    eapply post_mono;
      [apply (addColumn_running fails cols0
                (missingFrom cols0 [])
                "request_body_size" "INTEGER" s0 Hinv0
                (Hfresh []
                   "request_body_size" eq_refl)) | | done].
    intros [] s1 Hinv1. cbn beta. rewrite Hsnoc in Hinv1. cbn [app] in Hinv1.
    apply post_bind.
    eapply post_mono;
      [apply (addColumn_running fails cols0
                (missingFrom cols0 [("request_body_size", "INTEGER")])
                "is_request_body_text" "BOOLEAN" s1 Hinv1
                (Hfresh [("request_body_size", "INTEGER")]
                   "is_request_body_text" eq_refl)) | | done].
    intros [] s2 Hinv2. cbn beta. rewrite Hsnoc in Hinv2. cbn [app] in Hinv2.
    apply post_bind.
    eapply post_mono;
      [apply (addColumn_running fails cols0
                (missingFrom cols0 [("request_body_size", "INTEGER"); ("is_request_body_text", "BOOLEAN")])
                "response_body_size" "INTEGER" s2 Hinv2
                (Hfresh [("request_body_size", "INTEGER"); ("is_request_body_text", "BOOLEAN")]
                   "response_body_size" eq_refl)) | | done].
    intros [] s3 Hinv3. cbn beta. rewrite Hsnoc in Hinv3. cbn [app] in Hinv3.
    apply post_bind.
    eapply post_mono;
      [apply (addColumn_running fails cols0
                (missingFrom cols0 [("request_body_size", "INTEGER"); ("is_request_body_text", "BOOLEAN"); ("response_body_size", "INTEGER")])
                "is_response_body_text" "BOOLEAN" s3 Hinv3
                (Hfresh [("request_body_size", "INTEGER"); ("is_request_body_text", "BOOLEAN"); ("response_body_size", "INTEGER")]
                   "is_response_body_text" eq_refl)) | | done].
    intros [] s4 Hinv4. cbn beta. rewrite Hsnoc in Hinv4. cbn [app] in Hinv4.
    fold newColumnTypes in Hinv4.
    destruct Hinv4 as (Hview & Hcom & Halt & Hok & Hout).
    apply post_bind. cbn [send post].
    destruct (fails (length (trace s4))) as [err|] eqn:Hf3; [done|].
    apply post_bind. cbn [getView post view].
    apply post_bind. cbn [setCommitted post committed view trace out].
    apply post_bind. cbn [setView post committed view trace out].
    rewrite Hview.
    apply post_bind. apply post_bind. cbn [send post trace].
    assert (length ((trace s4 ++ [Commit]) ++ [JournalWAL]) - 1
            = length (trace s4 ++ [Commit]))%nat as Hlen.
    { rewrite !length_app. cbn. lia. }
    assert (∀ i, (S i < length ((trace s4 ++ [Commit]) ++ [JournalWAL]))%nat →
                 fails i = None) as Hok'.
    { intros i Hi. rewrite !length_app in Hi. cbn in Hi.
      destruct (decide (i = length (trace s4))) as [->|]; [done|].
      apply Hok. lia. }
    assert (alterations
              {| committed := Some (cols0 ++ List.map fst
                                      (missingFrom cols0 newColumnTypes))%list;
                 view := None;
                 trace := ((trace s4 ++ [Commit]) ++ [JournalWAL])%list;
                 out := [] |}
            = List.map alterOf (missingFrom cols0 newColumnTypes)) as Halt'.
    { unfold alterations in *. cbn [trace]. rewrite !List.filter_app, Halt.
      cbn. by rewrite !app_nil_r. }
    unfold alterations in Halt'. cbn [trace] in Halt'.
    destruct (fails (length (trace s4 ++ [Commit]))) as [err|] eqn:Hf4;
      cbn; rewrite Hlen, Hf4; (repeat split; try done);
      try (by rewrite last_snoc); unfold logLine; rewrite Hout; cbn;
      by rewrite <- ?app_assoc. }
  rewrite Hrun in Hpost. exact Hpost.
Qed.

End MigrationShape.

(** The statement above for a store that has the table of the first
    version: the four columns are added after the nine old ones. *)
Lemma InitDB_only_appends_missing_columns_witness :
  ∃ s,
    Mig.InitDB (λ _, None) (Mig.start (Some Mig.baseColumns)) = Mig.Ret tt s ∧
    Mig.committed s = Some (Mig.baseColumns ++ Mig.newColumns)%list ∧
    length (Mig.alterations s) = 4%nat.
Proof.
  destruct (Mig.InitDB (λ _, None) (Mig.start (Some Mig.baseColumns)))
    as [[] s|msg s] eqn:Hrun; [|vm_compute in Hrun; discriminate].
  exists s. split; [reflexivity|].
  destruct (InitDB_only_appends_missing_columns (λ _, None)
              (Some Mig.baseColumns) s Hrun) as (H1 & _ & H3 & _).
  split; [exact H1 | by rewrite H3].
Defined.

(** ** The list query, page by page *)

Section ListPages.
Import ListRequests ListSpec.
Variable like : string → string → bool.
Variable compareTimestamp : Z → string → comparison.
Variable timestampText : Z → string.

Lemma concat_chunks {A} (l : list A) (n m : nat) :
  (length l ≤ m * n)%nat →
  concat (List.map (λ i, take n (drop (i * n) l)) (seq 0 m)) = l.
Proof.
  revert l. induction m as [|m IH]; intros l Hl.
  - destruct l; [done|cbn in Hl; lia].
  - cbn [seq List.map concat]. rewrite <- seq_shift, List.map_map.
    cbn [Nat.mul]. rewrite drop_0.
    rewrite (List.map_ext _ (λ i, take n (drop (i * n) (drop n l)))).
    + rewrite IH; [apply take_drop|]. rewrite length_drop. lia.
    + intros i. rewrite drop_drop. reflexivity.
Qed.

Lemma effectivePage_Itoa k : 1 <= k < 2 ^ 63 → effectivePage (Itoa k) = k.
Proof.
  intros Hk. unfold effectivePage. rewrite Atoi_Itoa by lia.
  by replace (1 <=? k) with true by (symmetry; apply Z.leb_le; lia).
Qed.

Lemma wrap64_small z : 0 <= z < 2 ^ 63 → wrap64 z = z.
Proof. intros Hz. unfold wrap64. rewrite Z.mod_small; lia. Qed.

(** The rows of page [k] when no query and no scan fails. *)
Lemma page_cut db p k log :
  1 <= k < 2 ^ 63 →
  requestsOf (getRequests like compareTimestamp timestampText None None
                noScanFault db (withPage p (Itoa k)) log) =
    List.map sqlite.scanListRow
      (pageRows like compareTimestamp timestampText db p
         (wrap64 ((k - 1) * effectivePageSize (page_size p)))
         (effectivePageSize (page_size p))).
Proof.
  intros Hk. rewrite getRequests_answer. unfold requestsOf.
  cbn [fst Requests withPage page page_size].
  rewrite effectivePage_Itoa by lia.
  match goal with
  | |- context [surviving noScanFault ?l] =>
      destruct (surviving_all noScanFault l) as [-> _]; [done|]
  end.
  reflexivity.
Qed.

Lemma page_rows db p k log :
  1 <= k → (k - 1) * effectivePageSize (page_size p) < 2 ^ 63 → k < 2 ^ 63 →
  requestsOf (getRequests like compareTimestamp timestampText None None
                noScanFault db (withPage p (Itoa k)) log) =
    List.map sqlite.scanListRow
      (take (Z.to_nat (effectivePageSize (page_size p)))
         (drop (Z.to_nat (k - 1) * Z.to_nat (effectivePageSize (page_size p)))
            (listing like compareTimestamp timestampText db p))).
Proof.
  intros Hk Hsmall Hk'. rewrite page_cut by lia. unfold pageRows.
  pose proof (effectivePageSize_range (page_size p)) as Hps.
  rewrite wrap64_small by nia.
  replace (Z.to_nat ((k - 1) * effectivePageSize (page_size p)))
    with (Z.to_nat (k - 1) * Z.to_nat (effectivePageSize (page_size p)))%nat
    by nia.
  reflexivity.
Qed.

(** X20. The pages of a listing partition it. For a table of fewer than
    2^63 rows, and when neither query nor any scan fails, asking for the
    pages 1 to TotalPages one after the other, with the same filters and
    page size, returns every matching row exactly once, in the order of
    the listing (stored timestamp text, descending) across the pages: the
    pages put end to end are the whole listing. A page k after the last is
    empty, and is not an error, as long as (k - 1) * pageSize is below
    2^63; beyond that the offset wraps around, and with page_size=50 the
    page 9223372036854775807 is answered with the first 50 rows. *)
Theorem pages_partition_the_listing (db : DB) (p : Params) (log : Log) :
  len (rows db) < 2 ^ 63 →
  let answer := λ k, getRequests like compareTimestamp timestampText None None
                       noScanFault db (withPage p (Itoa k)) log in
  let whole := listing like compareTimestamp timestampText db p in
  let pageSize := effectivePageSize (page_size p) in
  let pages :=
    Z.to_nat (totalPagesOf
                (getRequests like compareTimestamp timestampText None None
                   noScanFault db p log)) in
  concat (List.map (λ k, requestsOf (answer (Z.of_nat k))) (seq 1 pages)) =
    List.map sqlite.scanListRow whole ∧
  StronglySorted (sqlite.newerFirst timestampText) whole ∧
  (∀ k, Z.of_nat pages < k < 2 ^ 63 → (k - 1) * pageSize < 2 ^ 63 →
        ∃ response, (answer k).1 = OK response ∧ Requests response = []) ∧
  (page_size p = "50" →
   requestsOf (answer 9223372036854775807) =
     List.map sqlite.scanListRow (take 50 whole)).
Proof.
  intros Hrows. cbv zeta.
  pose proof (effectivePageSize_range (page_size p)) as Hps.
  set (ps := effectivePageSize (page_size p)) in *.
  set (l := listing like compareTimestamp timestampText db p).
  assert (len l = len (List.filter (matches like compareTimestamp p) (rows db)))
    as Hlen by apply listing_length.
  assert (len l <= len (rows db)) as Hle.
  { rewrite Hlen. unfold len. pose proof (List.filter_length_le
      (matches like compareTimestamp p) (rows db)). lia. }
  rewrite (getRequests_answer like compareTimestamp timestampText _ db p).
  unfold totalPagesOf. cbn [fst TotalPages]. fold ps. rewrite <- Hlen.
  set (total := len l) in *.
  assert (0 <= total) as Htot by (unfold total, len; lia).
  pose proof (totalPages_ceiling total ps Htot ltac:(lia)) as Hceil.
  cbv zeta in Hceil.
  set (tp := Z.quot (total + ps - 1) ps) in *.
  assert (0 <= tp) as Htp by (apply Z.quot_pos; lia).
  split; [|split; [apply listing_sorted|split]].
  - rewrite <- seq_shift, List.map_map.
    rewrite (List.map_ext_in _
               (λ i, List.map sqlite.scanListRow
                       (take (Z.to_nat ps) (drop (i * Z.to_nat ps) l)))).
    + assert (∀ ks,
                concat (List.map
                          (λ i, List.map sqlite.scanListRow
                                  (take (Z.to_nat ps) (drop (i * Z.to_nat ps) l)))
                          ks)
                = List.map sqlite.scanListRow
                    (concat (List.map
                               (λ i, take (Z.to_nat ps)
                                       (drop (i * Z.to_nat ps) l)) ks)))
        as Hmap.
      { induction ks as [|k ks IH]; [done|]. cbn. by rewrite map_app, IH. }
      rewrite Hmap, concat_chunks; [done|]. unfold total, len in *. nia.
    + intros i Hi. apply in_seq in Hi.
      assert (Z.of_nat i <= tp - 1) as Hi1 by lia.
      assert (Z.of_nat i * ps <= (tp - 1) * ps) as Hi2 by nia.
      assert (tp - 1 <= (tp - 1) * ps) as Hi3 by nia.
      rewrite page_rows; fold ps.
      * replace (Z.to_nat (Z.of_nat (S i) - 1)) with i by lia. reflexivity.
      * lia.
      * replace (Z.of_nat (S i) - 1) with (Z.of_nat i) by lia.
        unfold total, len in *. lia.
      * unfold total, len in *. lia.
  - intros k Hk Hbound. rewrite getRequests_answer. eexists. split; [done|].
    cbn [Requests withPage page page_size]. fold ps.
    rewrite effectivePage_Itoa by lia.
    rewrite Z2Nat.id in Hk by lia.
    assert (0 <= (k - 1) * ps) as Hoff by nia.
    assert (tp * ps <= (k - 1) * ps) as Hpast by nia.
    rewrite wrap64_small by lia.
    unfold pageRows.
    change (listing like compareTimestamp timestampText db
              (withPage p (Itoa k))) with l.
    rewrite drop_ge by (unfold total, len in *; lia).
    by rewrite take_nil.
  - intros Hsz. rewrite page_cut by lia. unfold pageRows. rewrite Hsz.
    change (effectivePageSize "50") with 50.
    change (Z.to_nat (wrap64 ((9223372036854775807 - 1) * 50))) with 0%nat.
    by rewrite drop_0.
Qed.

End ListPages.

(** The statement above for 120 rows in pages of 50: three pages of 50,
    50 and 20 rows, an empty fourth page, and the first page again for the
    page 9223372036854775807. *)
Lemma pages_partition_the_listing_witness :
  let db := ListSpec.sampleDB 120 in
  let p := ListSpec.request "1" "50" in
  let answer := λ k, ListRequests.getRequests (λ _ _, true) (λ _ _, Eq) Itoa
                       None None ListSpec.noScanFault db
                       (withPage p (Itoa k)) [] in
  len (rows db) < 2 ^ 63 ∧
  List.map (λ k, length (requestsOf (answer k))) [1; 2; 3; 4]
    = [50; 50; 20; 0]%nat ∧
  concat (List.map (λ k, requestsOf (answer (Z.of_nat k))) [1; 2; 3]%nat) =
    List.map sqlite.scanListRow
      (ListSpec.listing (λ _ _, true) (λ _ _, Eq) Itoa db p) ∧
  requestsOf (answer 9223372036854775807) = requestsOf (answer 1).
Proof.
  intros db p answer.
  assert (len (rows db) < 2 ^ 63) as H by (vm_compute; reflexivity).
  split; [exact H|]. split; [vm_compute; reflexivity|].
  destruct (pages_partition_the_listing (λ _ _, true) (λ _ _, Eq) Itoa db p []
              H) as (Hall & _ & _ & Hwrap).
  split; [exact Hall|].
  unfold answer. rewrite (Hwrap eq_refl). vm_compute. reflexivity.
Defined.

(** ** The text of the list query *)

Section ListQueryText.
Import ListRequests ListSpec.

(** X21. User input never reaches the text of the list query. Whatever
    the filter values hold, the two statements sent are the fixed head,
    one fixed condition for each filter that is present, in the order
    URL, start date, end date, and the fixed tail: eight texts in all,
    chosen by which filters are empty. The filter values travel as bound
    arguments, one per condition, followed by the page size and the
    offset. *)
Theorem list_query_text_is_fixed (p : Params) :
  query (build p) =
    sqlite.listHead ++ whereText (conds p) ++ sqlite.listTail ∧
  countQuery (build p) = sqlite.countHead ++ whereText (conds p) ∧
  conds p =
    ((if String.eqb (url p) "" then [] else [sqlite.UrlLike]) ++
     (if String.eqb (start_date p) "" then [] else [sqlite.TimestampGe]) ++
     (if String.eqb (end_date p) "" then [] else [sqlite.TimestampLe]))%list ∧
  (∀ p',
     (url p' = "" ↔ url p = "") → (start_date p' = "" ↔ start_date p = "") →
     (end_date p' = "" ↔ end_date p = "") →
     query (build p') = query (build p) ∧
     countQuery (build p') = countQuery (build p)) ∧
  args (build p) =
    (condArgs p ++ [sqlite.Int (bPageSize (build p));
                    sqlite.Int (bOffset (build p))])%list ∧
  length (condArgs p) = length (conds p).
Proof.
  assert (∀ q, query (build q) =
               sqlite.listHead ++ whereText (conds q) ++ sqlite.listTail ∧
               countQuery (build q) = sqlite.countHead ++ whereText (conds q))
    as Htext.
  { intros q. unfold build, conds.
    destruct (String.eqb (url q) ""), (String.eqb (start_date q) ""),
      (String.eqb (end_date q) ""); cbn [negb]; split; reflexivity. }
  destruct (Htext p) as [Hq Hc].
  split; [exact Hq|]. split; [exact Hc|]. split; [reflexivity|]. split.
  - intros p' Hu Hs He. destruct (Htext p') as [-> ->]. rewrite Hq, Hc.
    assert (conds p' = conds p) as ->; [|done].
    unfold conds.
    assert (∀ a b, (a = "" ↔ b = "") → String.eqb a "" = String.eqb b "")
      as Hsame.
    { intros a b [Hab Hba].
      destruct (String.eqb_spec a "") as [Ha|Ha],
               (String.eqb_spec b "") as [Hb|Hb]; try done.
      - by destruct (Hb (Hab Ha)).
      - by destruct (Ha (Hba Hb)). }
    by rewrite (Hsame _ _ Hu), (Hsame _ _ Hs), (Hsame _ _ He).
  - split; [apply build_queries | apply length_condArgs].
Qed.

End ListQueryText.

(** ** The classifier and the size of the payload *)

Section ClassifierSample.

Lemma min_len_take (data : list byte) :
  min (len (take 512 data)) 512 = min (len data) 512.
Proof. unfold len. rewrite length_take, !min_spec. lia. Qed.

(** X22. The classifier never looks past the 512th byte: the verdict on
    a payload is the verdict on its first 512 bytes, so bytes appended
    to a payload of 512 bytes or more never change it. For such a
    payload, when the declared type is not of the textual family, the
    verdict is text exactly when at least 359 of the first 512 bytes are
    printable. *)
Theorem isTextData_reads_first_512 (data more : list byte)
    (contentType : string) :
  isTextData data contentType = isTextData (take 512 data) contentType ∧
  ((512 ≤ length data)%nat →
   isTextData (data ++ more) contentType = isTextData data contentType ∧
   (contentTypeIsText contentType = false →
    isTextData data contentType
      = (359 <=? countTextChars (take 512 data) 0))).
Proof.
  assert (∀ d, isTextData d contentType = isTextData (take 512 d) contentType)
    as Hhead.
  { intros d. unfold isTextData.
    destruct (contentTypeIsText contentType); [done|].
    rewrite min_len_take.
    replace (len (take 512 d) =? 0) with (len d =? 0).
    - destruct (len d =? 0); [done|]. unfold slice_to.
      rewrite take_take.
      by replace (Z.to_nat (min (len d) 512) `min` 512)%nat
        with (Z.to_nat (min (len d) 512))
        by (rewrite min_spec; unfold len; lia).
    - unfold len. rewrite length_take. destruct d; [done|]. cbn. 
      destruct (Z.eqb_spec (Z.of_nat (S (length d))) 0); [lia|].
      symmetry. apply Z.eqb_neq. lia. }
  split; [apply Hhead|]. intros Hlen. split.
  - rewrite (Hhead (data ++ more)%list), (Hhead data).
    by rewrite take_app_le by lia.
  - intros Hct. unfold isTextData. rewrite Hct.
    replace (len data =? 0) with false
      by (symmetry; apply Z.eqb_neq; unfold len; lia).
    assert (min (len data) 512 = 512) as ->
      by (rewrite min_spec; unfold len; lia).
    unfold slice_to. change (Z.to_nat 512) with 512%nat.
    set (t := countTextChars (take 512 data) 0).
    assert (0 <= t <= 512) as Ht.
    { subst t. rewrite countTextChars_filter.
      pose proof (length_filter (λ x, ClassifierSpec.printable x = true)
                    (take 512 data)) as Hf.
      rewrite length_take in Hf. lia. }
    fold (ratioExceeds t 512). rewrite ratioExceeds_exact by lia.
    destruct (Z.ltb_spec (7 * 512) (10 * t)), (Z.leb_spec 359 t); lia.
Qed.

End ClassifierSample.

(** The statement above for 512 printable bytes followed by 512 zero
    bytes: text, although half of the payload is binary. *)
Lemma isTextData_reads_first_512_witness :
  let data := replicate 512 "a"%byte in
  let more := replicate 512 "000"%byte in
  (512 ≤ length data)%nat ∧
  isTextData (data ++ more) "" = isTextData data "" ∧
  isTextData data "" = true.
Proof.
  intros data more.
  assert (512 ≤ length data)%nat as H by (vm_compute; lia).
  split; [exact H|].
  destruct (proj2 (isTextData_reads_first_512 data more "") H) as [H1 H2].
  split; [exact H1|]. rewrite (H2 eq_refl). vm_compute. reflexivity.
Defined.

(** ** From the wire to the admin panel *)

Section EndToEnd.
Context {codec : GzipLib}.
Variable Unmarshal : string → option Header.

Lemma ModifyResponse_body resp g reqLog :
  Request.Ctx (Response.Request resp) = Some reqLog →
  io.fault (Response.Body resp) = None →
  Response.Body (ModifyResponse resp g).1.2 =
    io.NopCloser (recordedBody (Response.Header resp)
                    (io.unread (Response.Body resp))).
Proof.
  intros Hctx Hfault.
  destruct (String.eqb (http.Get (Response.Header resp) "Content-Encoding")
              "gzip") eqn:Hce.
  - apply String.eqb_eq in Hce.
    destruct (decompressGzip (io.unread (Response.Body resp)))
      as [d [e|]] eqn:Hgz.
    + rewrite (recordedBody_failure _ _ _ _ Hgz).
      by rewrite (ModifyResponse_gzip_failure resp g reqLog d e Hctx Hfault
                    Hce Hgz).
    + rewrite (recordedBody_success _ _ _ Hce Hgz).
      by rewrite (ModifyResponse_gzip_success resp g reqLog d Hctx Hfault
                    Hce Hgz).
  - apply String.eqb_neq in Hce. rewrite (recordedBody_plain _ _ Hce).
    pose proof (ModifyResponse_identity resp g reqLog Hctx Hfault Hce) as E.
    cbv zeta in E. by rewrite E.
Qed.

(** X23. The admin panel shows what went over the wire. Take a readable
    request that [ServeHTTP] forwards and a readable answer that passes
    through [ModifyResponse], with recording on and an empty channel with
    room, and let the consumer take its turn with working storage. Then
    the table has one more row, under the next id, and the two body
    handlers, asked for that id, serve exactly the request body recorded
    (the body the upstream was sent, inflated if it was gzip-encoded and
    inflates) and exactly the bytes of the response body that
    [ModifyResponse] handed on to the client. *)
Theorem capture_round_trip (now : Z) (r : Request.t) (g : Globals)
    (resp : Response.t) (db : DB) (newReq : Request.t) (g1 : Globals)
    (ra rb : admin.Request) (log : Log) :
  ServeHTTP now r g = (Forward newReq, g1) →
  Response.Request resp = newReq →
  io.fault (Response.Body resp) = None →
  IsRecording g = true →
  chan.buffer (requestLogChan g) = [] →
  0 < chan.capacity (requestLogChan g) →
  idsIncrease db →
  0 <= lastRowID db < 2 ^ 63 - 1 →
  admin.Path ra = "/api/requests/body/request/" ++ Itoa (lastRowID db + 1) →
  admin.Path rb = "/api/requests/body/response/" ++ Itoa (lastRowID db + 1) →
  let '(err, resp', g2) := ModifyResponse resp g1 in
  ∃ g3 db' wa wb,
    consumerStep Unmarshal None g2 db = Some (g3, db') ∧
    chan.buffer (requestLogChan g3) = [] ∧
    length (rows db') = S (length (rows db)) ∧
    getRequestBodyHandler (A := unit) Unmarshal None db' ra log
      = (admin.Wrote wa, log) ∧
    getResponseBodyHandler (A := unit) Unmarshal None db' rb log
      = (admin.Wrote wb, log) ∧
    admin.body wa
      = recordedBody (Request.Header r) (io.unread (Request.Body r)) ∧
    err = None ∧
    Response.Body resp' = io.NopCloser (admin.body wb).
Proof.
  intros Hserve Hreq Hfault Hrec Hempty Hcap Hids Hrange Hpa Hpb.
  assert (io.fault (Request.Body r) = None) as Hrfault.
  { unfold ServeHTTP, io.ReadAll in Hserve.
    destruct (io.fault (Request.Body r)); [discriminate|done]. }
  destruct (ServeHTTP_readable now r g Hrfault) as (g1' & Hg1 & E).
  rewrite E in Hserve. injection Hserve as <- <-.
  destruct Hg1 as (Hrec1 & Hchan1 & _).
  set (reqBody := recordedBody (Request.Header r) (io.unread (Request.Body r))).
  assert (Request.Ctx (Response.Request resp) = Some (candidate now r reqBody))
    as Hctx by (by rewrite Hreq).
  pose proof (ModifyResponse_body resp g1' _ Hctx Hfault) as Hbody.
  destruct (ModifyResponse_readable resp g1' _ Hctx Hfault)
    as (resp' & g0 & (Hrec0 & Hchan0 & _) & _ & Hmod).
  rewrite Hmod in Hbody |- *. cbn [fst snd] in Hbody.
  set (respBody := recordedBody (Response.Header resp)
                     (io.unread (Response.Body resp))) in *.
  set (stored := completed (candidate now r reqBody) resp respBody) in *.
  assert (requestLogChan (enqueue g0 stored) =
          {| chan.buffer := [stored];
             chan.capacity := chan.capacity (requestLogChan g) |}) as Hq.
  { rewrite enqueue_room.
    - cbn. by rewrite Hchan0, Hchan1, Hempty.
    - congruence.
    - rewrite Hchan0, Hchan1, Hempty. unfold len. cbn. lia. }
  set (row := insertedRow (lastRowID db + 1) (populate Unmarshal stored)).
  set (db' := {| rows := (rows db ++ [row])%list;
                 lastRowID := lastRowID db + 1 |}).
  assert (QueryRowByID db' (lastRowID db + 1) = Some row) as Hrow
    by (by apply QueryRowByID_inserted).
  assert (Atoi (Itoa (lastRowID db + 1)) = Some (lastRowID db + 1)) as Hatoi
    by (apply Atoi_Itoa; lia).
  eexists _, db', _, _. split.
  { unfold consumerStep, chan.recv. rewrite Hq. cbn [chan.buffer].
    unfold LogRequest. reflexivity. }
  split; [done|].
  split; [subst db'; cbn [rows]; by rewrite length_app, Nat.add_1_r|].
  split.
  { unfold getRequestBodyHandler. rewrite Hpa.
    rewrite (sliceFrom_prefix "/api/requests/body/request/").
    rewrite Hatoi, Hrow. reflexivity. }
  split.
  { unfold getResponseBodyHandler. rewrite Hpb.
    rewrite (sliceFrom_prefix "/api/requests/body/response/").
    rewrite Hatoi, Hrow. reflexivity. }
  split; [done|]. split; [done|]. exact Hbody.
Qed.

End EndToEnd.

(** The statement above for the gzip-encoded sample request and answer
    on an empty table: both sides are served inflated under the id 1. *)
Lemma capture_round_trip_witness :
  let g := mainGlobals true in
  let db := {| rows := []; lastRowID := 0 |} in
  let served := ServeHTTP (codec := GzipStored.lib) 1000 Sample.gzRequest g in
  let rb := {| admin.Method := "GET";
               admin.Path := "/api/requests/body/response/1";
               admin.Cookies := []; admin.Query := admin.Query (postTo "");
               admin.Body := [] |} in
  ∃ newReq,
    served = (Forward newReq, g) ∧
    let resp := {| Response.StatusCode := 200;
                   Response.Header := Sample.gzHeader;
                   Response.Body := {| io.unread := Sample.gzBody;
                                       io.fault := None |};
                   Response.Request := newReq |} in
    let '(_, resp', g2) := ModifyResponse (codec := GzipStored.lib) resp g in
    ∃ g3 db' wb,
      consumerStep (λ _, None) None g2 db = Some (g3, db') ∧
      getResponseBodyHandler (A := unit) (λ _, None) None db' rb []
        = (admin.Wrote wb, []) ∧
      Response.Body resp' = io.NopCloser (admin.body wb).
Proof.
  intros g db served rb. eexists. split; [vm_compute; reflexivity|].
  match goal with
  | |- let resp := ?R in _ =>
      pose proof (capture_round_trip (codec := GzipStored.lib) (λ _, None)
                    1000 Sample.gzRequest g R db _ g
                    {| admin.Method := "GET";
                       admin.Path := "/api/requests/body/request/1";
                       admin.Cookies := [];
                       admin.Query := admin.Query (postTo "");
                       admin.Body := [] |} rb []
                    ltac:(vm_compute; reflexivity) eq_refl eq_refl eq_refl
                    eq_refl ltac:(vm_compute; reflexivity)
                    ltac:(split; constructor) ltac:(cbn; lia)
                    eq_refl eq_refl) as W
  end.
  intros resp. fold resp in W.
  destruct (ModifyResponse resp g) as [[err resp'] g2].
  destruct W as (g3 & db' & wa & wb & H1 & _ & _ & _ & H5 & _ & _ & H8).
  exists g3, db', wb. split; [exact H1|]. split; [exact H5 | exact H8].
Defined.

(** ** The detail view and the body views agree *)

Section DetailAndBodies.
Variable Unmarshal : string → option Header.

(** X24. The metadata of the detail view describes the bodies that the
    body views serve. On a table whose rows have their derived columns
    (as every row written by [LogRequest] has), whenever the detail
    handler answers for an id, the two body handlers answer for the same
    id; the sizes reported are the lengths of the bodies they serve, the
    text flags are the classifier's verdict on these bodies under the
    Content-Type of the stored headers, and that Content-Type, or
    application/octet-stream if there is none, is the one the bodies are
    served with. *)
Theorem detail_describes_the_bodies_served (db : DB) (idStr : string)
    (r1 r2 r3 : admin.Request) (log log' : Log) (h : Header)
    (detail : RequestDetail.t) :
  Forall (derivedColumns Unmarshal) (rows db) →
  admin.Path r1 = "/api/requests/body/request/" ++ idStr →
  admin.Path r2 = "/api/requests/body/response/" ++ idStr →
  admin.Path r3 = "/api/requests/" ++ idStr →
  getRequestDetail None db r3 log = (admin.Encoded h detail, log') →
  ∃ wa wb,
    getRequestBodyHandler (A := unit) Unmarshal None db r1 log
      = (admin.Wrote wa, log) ∧
    getResponseBodyHandler (A := unit) Unmarshal None db r2 log
      = (admin.Wrote wb, log) ∧
    log' = log ∧
    Atoi idStr = Some (RequestDetail.ID detail) ∧
    RequestDetail.RequestBodySize detail = len (admin.body wa) ∧
    RequestDetail.ResponseBodySize detail = len (admin.body wb) ∧
    RequestDetail.IsRequestBodyText detail =
      isTextData (admin.body wa)
        (getContentTypeFromHeaders Unmarshal
           (RequestDetail.RequestHeaders detail)) ∧
    RequestDetail.IsResponseBodyText detail =
      isTextData (admin.body wb)
        (getContentTypeFromHeaders Unmarshal
           (RequestDetail.ResponseHeaders detail)) ∧
    admin.header wa
      = bodyContentType Unmarshal (RequestDetail.RequestHeaders detail) ∧
    admin.header wb
      = bodyContentType Unmarshal (RequestDetail.ResponseHeaders detail).
Proof.
  intros Hder Hp1 Hp2 Hp3 Hdetail.
  unfold getRequestDetail in Hdetail. rewrite Hp3 in Hdetail.
  rewrite (sliceFrom_prefix "/api/requests/" idStr) in Hdetail.
  destruct (Atoi idStr) as [id|] eqn:Hatoi; [|discriminate].
  destruct (QueryRowByID db id) as [row|] eqn:Hrow; [|discriminate].
  injection Hdetail as <- <- <-.
  pose proof Hrow as Hfind. unfold QueryRowByID in Hfind.
  apply find_some in Hfind as [Hin Hid]. apply Z.eqb_eq in Hid.
  rewrite Forall_forall in Hder.
  destruct (Hder row ltac:(by apply list_elem_of_In)) as (D1 & D2 & D3 & D4).
  do 2 eexists. split.
  { unfold getRequestBodyHandler. rewrite Hp1.
    rewrite (sliceFrom_prefix "/api/requests/body/request/" idStr).
    rewrite Hatoi, Hrow. reflexivity. }
  split.
  { unfold getResponseBodyHandler. rewrite Hp2.
    rewrite (sliceFrom_prefix "/api/requests/body/response/" idStr).
    rewrite Hatoi, Hrow. reflexivity. }
  cbn. repeat split; try done. by rewrite Hid.
Qed.

End DetailAndBodies.

(** The statement above for the first row of the sample table. *)
Lemma detail_describes_the_bodies_served_witness :
  let db := ListSpec.sampleDB 3 in
  let get := λ path, {| admin.Method := "GET"; admin.Path := path;
                        admin.Cookies := [];
                        admin.Query := admin.Query (postTo "");
                        admin.Body := [] |} in
  Forall (derivedColumns (λ _, None)) (rows db) ∧
  ∃ h detail wb,
    getRequestDetail None db (get "/api/requests/2") []
      = (admin.Encoded h detail, []) ∧
    getResponseBodyHandler (A := unit) (λ _, None) None db
      (get "/api/requests/body/response/2") [] = (admin.Wrote wb, []) ∧
    RequestDetail.ResponseBodySize detail = len (admin.body wb).
Proof.
  intros db get.
  assert (Forall (derivedColumns (λ _, None)) (rows db)) as H.
  { repeat constructor. }
  split; [exact H|].
  destruct (getRequestDetail None db (get "/api/requests/2") [])
    as [reply log'] eqn:Hd.
  destruct reply as [| | |h detail|]; try (vm_compute in Hd; discriminate).
  assert (log' = []) as -> by (vm_compute in Hd; congruence).
  destruct (detail_describes_the_bodies_served (λ _, None) db "2"
              (get "/api/requests/body/request/2")
              (get "/api/requests/body/response/2") (get "/api/requests/2")
              [] [] h detail H eq_refl eq_refl eq_refl Hd)
    as (wa & wb & _ & H2 & _ & _ & _ & H6 & _).
  exists h, detail, wb. split; [reflexivity|]. split; [exact H2 | exact H6].
Defined.
